(** * OAuth2 authorization-code flow with PKCE: flytekit/clients/auth/auth_client.py

    A shallow embedding of the authorization client of flytekit
    (PKCE generator, loopback callback listener, token exchange, per-endpoint
    registry) and the properties of its specification proved against it.

    Conventions of the embedding:
    - a Python [str] is a [string] (its UTF-8 bytes), [bytes] a [list Z] of
      octets; [None] in an [Optional[str]] is [None : option string];
    - a raised exception is the [Raise] case of [result];
    - what the code draws from the operating system or receives from the
      network is an explicit input: the entropy pool read by [os.urandom], the
      HTTP requests reaching the loopback listener, the answers of the token
      endpoint;
    - the effects a claim talks about (POSTs, browser launches, queue writes,
      response lines) are recorded in event traces. *)

From Stdlib Require Import ZArith Lia List Ascii String.
From Stdlib.Strings Require Import Byte.
From stdpp Require Import base option list strings gmap.
Import ListNotations.

Local Open Scope string_scope.
Local Open Scope list_scope.
Local Open Scope Z_scope.

(** ** Exceptions and results *)

(** The double quote character, for messages that contain one. *)
Definition dquote : string := String (ascii_of_nat 34) EmptyString.

(** The exceptions the module can raise.  [ValueError] carries the message
    of its [raise] statement; the two messages formatted from a response carry
    the formatted fields instead. *)
Inductive exn : Type :=
| ValueError (msg : string)
| KeyError (key : string)
| TypeError (msg : string)
| UnboundLocalError (name : string)
| AttributeError (name : string)
| JSONDecodeError
| OSError
| RequestException
| Exception_ (status_code : Z) (content : string)
| AccessTokenNotFoundError (status_code : Z).

Inductive result (A : Type) : Type :=
| Ok (a : A)
| Raise (e : exn).
Arguments Ok {A} a.
Arguments Raise {A} e.

#[export] Instance result_ret : MRet result := fun A a => Ok a.
#[export] Instance result_bind : MBind result :=
  fun A B f m => match m with Ok a => f a | Raise e => Raise e end.

(** ** Strings *)

Fixpoint string_of_chars (l : list ascii) : string :=
  match l with
  | [] => EmptyString
  | c :: l' => String c (string_of_chars l')
  end.

Fixpoint chars_of_string (s : string) : list ascii :=
  match s with
  | EmptyString => []
  | String c s' => c :: chars_of_string s'
  end.

(** [len(s)] *)
Definition len (s : string) : Z := Z.of_nat (String.length s).

Definition char_in (c : ascii) (set : string) : bool :=
  existsb (Ascii.eqb c) (chars_of_string set).

(** [s.strip(chars)]: drops the leading and the trailing characters that
    belong to [chars]. *)
Fixpoint lstrip_chars (set : string) (l : list ascii) : list ascii :=
  match l with
  | [] => []
  | c :: l' => if char_in c set then lstrip_chars set l' else l
  end.

Definition py_strip (set : string) (s : string) : string :=
  string_of_chars
    (rev (lstrip_chars set (rev (lstrip_chars set (chars_of_string s))))).

(** [s.replace(c, "")] for a one-character [c]. *)
Definition remove_char (c : ascii) (s : string) : string :=
  string_of_chars
    (List.filter (fun x => negb (Ascii.eqb x c)) (chars_of_string s)).

(** [sep.join(l)] *)
Fixpoint join (sep : string) (l : list string) : string :=
  match l with
  | [] => ""
  | [s] => s
  | s :: l' => s +:+ sep +:+ join sep l'
  end.

(** ** The random source *)

(** [os.urandom(n)] reads the next [n] octets of the system's entropy pool.
    The pool is an input of the model; [drawn] counts the octets consumed. *)
Record entropy : Type := Entropy {
  pool : nat -> Byte.byte;
  drawn : nat;
}.

Definition octet (b : Byte.byte) : Z := Z.of_N (Byte.to_N b).

Definition urandom (n : nat) (e : entropy) : list Z * entropy :=
  (map (fun i => octet (pool e (drawn e + i)%nat)) (seq 0 n),
   {| pool := pool e; drawn := (drawn e + n)%nat |}).

(** ** PKCE generator *)

Definition _code_verifier_length : nat := 64.
Definition _random_seed_length : nat := 40.

(** The alphabet of [base64.urlsafe_b64encode]: the standard one with [-]
    and [_] for its last two digits. *)
Definition urlsafe_alphabet : string :=
  "ABCDEFGHIJKLMNOPQRSTUVWXYZabcdefghijklmnopqrstuvwxyz0123456789-_".

Definition b64_digit (i : Z) : ascii :=
  nth (Z.to_nat i) (chars_of_string urlsafe_alphabet) "="%char.

(** [base64.urlsafe_b64encode(bs).decode("utf-8")]: three octets give four
    digits of six bits; a last group of one or two octets is padded with [=]
    to four characters. *)
Fixpoint urlsafe_b64encode (bs : list Z) : list ascii :=
  match bs with
  | [] => []
  | [b0] =>
      [b64_digit (Z.land (Z.shiftr b0 2) 63);
       b64_digit (Z.land (Z.shiftl b0 4) 63);
       "="%char; "="%char]
  | [b0; b1] =>
      let n := Z.lor (Z.shiftl b0 8) b1 in
      [b64_digit (Z.land (Z.shiftr n 10) 63);
       b64_digit (Z.land (Z.shiftr n 4) 63);
       b64_digit (Z.land (Z.shiftl n 2) 63);
       "="%char]
  | b0 :: b1 :: b2 :: rest =>
      let n := Z.lor (Z.lor (Z.shiftl b0 16) (Z.shiftl b1 8)) b2 in
      b64_digit (Z.land (Z.shiftr n 18) 63)
      :: b64_digit (Z.land (Z.shiftr n 12) 63)
      :: b64_digit (Z.land (Z.shiftr n 6) 63)
      :: b64_digit (Z.land n 63)
      :: urlsafe_b64encode rest
  end.

Definition between (lo hi : string) (c : ascii) : bool :=
  match chars_of_string lo, chars_of_string hi with
  | [l], [h] => (nat_of_ascii l <=? nat_of_ascii c)%nat
                && (nat_of_ascii c <=? nat_of_ascii h)%nat
  | _, _ => false
  end.

(** The character class [a-zA-Z0-9_\-.~] of the verifier. *)
Definition verifier_char (c : ascii) : bool :=
  between "a" "z" c || between "A" "Z" c || between "0" "9" c
  || char_in c "_-.~".

(** The character class [a-zA-Z0-9-_.,] of the state parameter. *)
Definition state_char (c : ascii) : bool :=
  between "a" "z" c || between "A" "Z" c || between "0" "9" c
  || char_in c "-_.,".

(** [re.sub("[^...]+", "", s)] for a character class: every run of
    characters outside the class is replaced by the empty string. *)
Definition re_sub_outside (class : ascii -> bool) (s : list ascii) : string :=
  string_of_chars (List.filter class s).

Definition verifier_too_short : string :=
  "Verifier too short. number of bytes must be > 30.".
Definition verifier_too_long : string :=
  "Verifier too long. number of bytes must be < 97.".

Definition _generate_code_verifier (e : entropy) : result string * entropy :=
  let '(bs, e') := urandom _code_verifier_length e in
  let code_verifier := urlsafe_b64encode bs in
  (* Eliminate invalid characters. *)
  let code_verifier := re_sub_outside verifier_char code_verifier in
  (if len code_verifier <? 43 then Raise (ValueError verifier_too_short)
   else if len code_verifier >? 128 then Raise (ValueError verifier_too_long)
   else Ok code_verifier,
   e').

Definition _generate_state_parameter (e : entropy) : string * entropy :=
  let '(bs, e') := urandom _random_seed_length e in
  let state := urlsafe_b64encode bs in
  (re_sub_outside state_char state, e').

(** The specification's name for the two [ValueError]s of the verifier. *)
Definition InvalidVerifierLength (x : exn) : Prop :=
  x = ValueError verifier_too_short \/ x = ValueError verifier_too_long.

(** [hashlib.sha256(code_verifier.encode("utf-8")).digest()] is the library's;
    [_create_code_challenge] is stated over any digest function. *)
Definition _create_code_challenge (sha256 : list Z -> list Z)
    (code_verifier : string) : string :=
  let code_challenge :=
    sha256 (map (fun c => Z.of_nat (nat_of_ascii c))
                (chars_of_string code_verifier)) in
  let code_challenge := string_of_chars (urlsafe_b64encode code_challenge) in
  (* Eliminate invalid characters *)
  let code_challenge := remove_char "="%char code_challenge in
  code_challenge.

(** ** Python values *)

Local Unset Elimination Schemes.
(** The values a decoded JSON document is made of.  [VDict] lists the members
    of an object in document order; as in [json.loads], a name that occurs
    twice has the value of its last occurrence.  Numbers are the integers
    (a fractional number is not represented). *)
Inductive value : Type :=
| VNone
| VBool (b : bool)
| VInt (z : Z)
| VStr (s : string)
| VList (l : list value)
| VDict (d : list (string * value)).
Local Set Elimination Schemes.

Definition of_opt (o : option string) : value :=
  match o with Some s => VStr s | None => VNone end.

Definition is_VStr (s : string) (v : value) : bool :=
  match v with VStr s' => String.eqb s s' | _ => false end.

Definition dict_keys {V} (d : list (string * V)) : list string := map fst d.

Definition has_key {V} (k : string) (d : list (string * V)) : bool :=
  existsb (String.eqb k) (dict_keys d).

(** The value of the last member named [k]. *)
Fixpoint last_member {V} (k : string) (d : list (string * V)) : option V :=
  match d with
  | [] => None
  | (k', v) :: d' =>
      match last_member k d' with
      | Some v' => Some v'
      | None => if String.eqb k k' then Some v else None
      end
  end.

(** [key in obj] *)
Definition py_in (key : string) (obj : value) : result bool :=
  match obj with
  | VDict d => Ok (has_key key d)
  | VList l => Ok (existsb (is_VStr key) l)
  | VStr s => Ok (match String.index 0 key s with Some _ => true | None => false end)
  | VNone | VBool _ | VInt _ => Raise (TypeError "argument is not iterable")
  end.

(** [obj[key]] for a string [key] *)
Definition subscript (obj : value) (key : string) : result value :=
  match obj with
  | VDict d =>
      match last_member key d with
      | Some v => Ok v
      | None => Raise (KeyError key)
      end
  | VList _ | VStr _ => Raise (TypeError "indices must be integers")
  | VNone | VBool _ | VInt _ => Raise (TypeError "object is not subscriptable")
  end.

(** ** Dictionaries that are updated in place *)

(** A Python [dict] with string keys, in insertion order: [d[k] = v] replaces
    the value of an existing key where it stands and appends a new key. *)
Fixpoint dict_set {V} (k : string) (v : V) (d : list (string * V))
  : list (string * V) :=
  match d with
  | [] => [(k, v)]
  | (k', v') :: d' =>
      if String.eqb k k' then (k, v) :: d' else (k', v') :: dict_set k v d'
  end.

Fixpoint dict_get {V} (k : string) (d : list (string * V)) : option V :=
  match d with
  | [] => None
  | (k', v) :: d' => if String.eqb k k' then Some v else dict_get k d'
  end.

(** [d.update(u)] *)
Definition dict_update {V} (d u : list (string * V)) : list (string * V) :=
  fold_left (fun acc kv => dict_set (fst kv) (snd kv) acc) u d.

(** [dict(pairs)] *)
Definition dict_of_pairs {V} (pairs : list (string * V)) : list (string * V) :=
  dict_update [] pairs.

(** ** Data model *)

Record AuthorizationCode : Type := MkAuthorizationCode {
  code : string;
  state : string;
}.

(** This class can be used to control the rendering of the page on login
    successful or failure.  [endpoint] is [None] when an authorization
    endpoint without a host name supplied it. *)
Record EndpointMetadata : Type := MkEndpointMetadata {
  endpoint : option string;
  success_html : option (list Z);
  failure_html : option (list Z);
}.

(** Modelled from the spec: the [Credentials] class of the [keyring] module,
    which is outside the sources at hand: access token, optional refresh
    token, the endpoint they are for and the optional lifetime in seconds, as
    the constructor call [Credentials(access_token, refresh_token,
    self._endpoint, expires_in=expires_in)] fills them. *)
Record Credentials : Type := MkCredentials {
  access_token : value;
  refresh_token : value;
  for_endpoint : string;
  expires_in : value;
}.

(** What the code reads of a [requests.Response]: [json] is the result of
    [resp.json()]. *)
Record Response : Type := MkResponse {
  status_code : Z;
  content : string;
  json : result value;
}.

(** The arguments of one [requests.post] call. *)
Record PostRequest : Type := MkPostRequest {
  url : string;
  data : list (string * value);
  headers : list (string * string);
  allow_redirects : bool;
  verify : option (bool + string);
}.

(** The result of [urllib.parse.urlparse(s)], as far as the code reads it.
    The attribute [port] is computed on access and raises [ValueError] for a
    port that is not a number in range. *)
Record ParseResult : Type := MkParseResult {
  scheme : string;
  netloc : string;
  path : string;
  query : string;
  hostname : option string;
  port : result (option Z);
}.

(** The six components handed to [urlunparse]; the third to last and the
    last are [None] in the only call. *)
Record UrlParts : Type := MkUrlParts {
  u_scheme : string;
  u_netloc : string;
  u_path : string;
  u_query : string;
}.

(** The effects of the client that the properties observe, in program
    order. *)
Inductive event : Type :=
| EvProcessStart
| EvOpenNewTab (target : UrlParts)
| EvQueueGet
| EvPost (req : PostRequest)
| EvTerminate.

Definition is_post (ev : event) : bool :=
  match ev with EvPost _ => true | _ => false end.

Record AuthorizationClient : Type := MkAuthorizationClient {
  _endpoint : string;
  _auth_endpoint : string;
  _remote : EndpointMetadata;
  _token_endpoint : string;
  _client_id : option string;
  _scopes : list string;
  _redirect_uri : option string;
  _code_verifier : string;
  _code_challenge : string;
  _state : string;
  _verify : option (bool + string);
  _headers : list (string * string);
  _params : list (string * option string);
}.

Definition with_params (self : AuthorizationClient)
    (p : list (string * option string)) : AuthorizationClient :=
  {| _endpoint := _endpoint self; _auth_endpoint := _auth_endpoint self;
     _remote := _remote self; _token_endpoint := _token_endpoint self;
     _client_id := _client_id self; _scopes := _scopes self;
     _redirect_uri := _redirect_uri self;
     _code_verifier := _code_verifier self;
     _code_challenge := _code_challenge self; _state := _state self;
     _verify := _verify self; _headers := _headers self; _params := p |}.

(** ** Methods as programs over the instance *)

(** A method body: it reads and updates the object [S] it is called on,
    performs effects [E] and returns or raises.  The state and the trace at
    the point of a [raise] are kept: an update made before it stays. *)
Definition prog (S E A : Type) : Type := S -> result A * S * list E.

#[export] Instance prog_ret {S E} : MRet (prog S E) :=
  fun A a s => (Ok a, s, []).
#[export] Instance prog_bind {S E} : MBind (prog S E) :=
  fun A B f m s =>
    match m s with
    | (Ok a, s1, t1) => let '(r, s2, t2) := f a s1 in (r, s2, t1 ++ t2)
    | (Raise e, s1, t1) => (Raise e, s1, t1)
    end.

Definition raise {S E A} (e : exn) : prog S E A := fun s => (Raise e, s, []).
Definition emit {S E} (ev : E) : prog S E unit := fun s => (Ok tt, s, [ev]).
Definition this {S E} : prog S E S := fun s => (Ok s, s, []).
Definition assign {S E} (s' : S) : prog S E unit := fun _ => (Ok tt, s', []).
Definition lift {S E A} (r : result A) : prog S E A := fun s => (r, s, []).

(** [try: m except Exception: handler] *)
Definition catch {S E A} (m : prog S E A) (handler : exn -> prog S E A)
  : prog S E A :=
  fun s =>
    match m s with
    | (Ok a, s1, t1) => (Ok a, s1, t1)
    | (Raise e, s1, t1) => let '(r, s2, t2) := handler e s1 in (r, s2, t1 ++ t2)
    end.

(** [try: m finally: fin], for a finaliser that does not raise. *)
Definition finally {S E A} (m : prog S E A) (fin : prog S E unit)
  : prog S E A :=
  fun s =>
    let '(r, s1, t1) := m s in
    let '(_, s2, t2) := fin s1 in
    (r, s2, t1 ++ t2).

Definition outcome_of {S E A} (x : result A * S * list E) : result A := x.1.1.
Definition self_of {S E A} (x : result A * S * list E) : S := x.1.2.
Definition trace_of {S E A} (x : result A * S * list E) : list E := x.2.

(** ** Token exchanger *)

Definition missing_access_token : string :=
  "Expected " +:+ dquote +:+ "access_token" +:+ dquote
  +:+ " in response from oauth server".

Definition unexpected_state (st : string) : string :=
  "Unexpected state parameter [" +:+ st +:+ "] passed".

Definition no_refresh_token : string :=
  "no refresh token available with which to refresh authorization credentials".

(** The specification's names for the failures of the exchange. *)
Definition MalformedTokenResponse : exn := ValueError missing_access_token.
Definition StateMismatch (st : string) : exn := ValueError (unexpected_state st).
Definition NoRefreshToken : exn := ValueError no_refresh_token.

(** The auth_token_resp body is of the form:
    { "access_token": "foo", "refresh_token": "bar", "token_type": "Bearer" }

    A local variable that no assignment has reached yet is [None : option _];
    reading it raises [UnboundLocalError]. *)
Definition _credentials_from_response (auth_token_resp : Response)
  : prog AuthorizationClient event Credentials :=
  self ← this;
  response_body ← lift (json auth_token_resp);
  let refresh_token := VNone in
  let expires_in : option value := None in
  present ← lift (py_in "access_token" response_body);
  if negb present then raise (ValueError missing_access_token) else
  present ← lift (py_in "refresh_token" response_body);
  refresh_token ←
    (if (present : bool) then lift (subscript response_body "refresh_token")
     else mret refresh_token);
  present ← lift (py_in "expires_in" response_body);
  expires_in ←
    (if (present : bool)
     then v ← lift (subscript response_body "expires_in"); mret (Some v)
     else mret expires_in);
  access_token ← lift (subscript response_body "access_token");
  expires_in ←
    match expires_in with
    | Some v => mret v
    | None => raise (UnboundLocalError "expires_in")
    end;
  mret (MkCredentials access_token refresh_token (_endpoint self) expires_in).

Section TokenEndpoint.

(** The token endpoint seen through [requests.post]: the response to a
    request, or the exception the transport raises. *)
Variable requests_post : PostRequest -> result Response.

Definition _request_access_token (auth_code : AuthorizationCode)
  : prog AuthorizationClient event Credentials :=
  self ← this;
  if negb (String.eqb (_state self) (state auth_code))
  then raise (ValueError (unexpected_state (state auth_code)))
  else
    assign (with_params self
              (dict_update (_params self)
                 [("code", Some (code auth_code));
                  ("code_verifier", Some (_code_verifier self));
                  ("grant_type", Some "authorization_code")]));;
    self ← this;
    let req :=
      {| url := _token_endpoint self;
         data := map (fun kv => (fst kv, of_opt (snd kv))) (_params self);
         headers := _headers self;
         allow_redirects := false;
         verify := _verify self |} in
    emit (EvPost req);;
    resp ← lift (requests_post req);
    if negb (status_code resp =? 200)
    then raise (Exception_ (status_code resp) (content resp))
    else _credentials_from_response resp.

Definition refresh_access_token (credentials : Credentials)
  : prog AuthorizationClient event Credentials :=
  self ← this;
  match refresh_token credentials with
  | VNone => raise (ValueError no_refresh_token)
  | _ =>
      let req :=
        {| url := _token_endpoint self;
           data := [("grant_type", VStr "refresh_token");
                    ("client_id", of_opt (_client_id self));
                    ("refresh_token", refresh_token credentials)];
           headers := _headers self;
           allow_redirects := false;
           verify := _verify self |} in
      emit (EvPost req);;
      resp ← lift (requests_post req);
      if negb (status_code resp =? 200)
      then
        (* In the absence of a successful response, assume the refresh token
           is expired. *)
        raise (AccessTokenNotFoundError (status_code resp))
      else _credentials_from_response resp
  end.

End TokenEndpoint.

(** ** Callback listener *)

(** An inbound HTTP request, as the handler sees it: [self.command] and
    [self.path]. *)
Record http_request : Type := MkRequest {
  command : string;
  target : string;
}.

(** What the listener does to the connection, to the handoff queue and to its
    socket: the calls it makes, in order.  [SendResponse] is the call
    [send_response], which appends the status line to the handler's header
    buffer; [EndHeaders] is the call [end_headers], which writes that buffer
    to the connection. *)
Inductive server_event : Type :=
| SendResponse (status : Z)
| SendHeader (keyword val : string)
| EndHeaders
| WfileWrite (body : string)
| WfileFlush
| SendError (status : Z)
| QueuePut (auth_code : AuthorizationCode)
| ServerClose
| HandleError (e : exn).

Definition is_put (ev : server_event) : bool :=
  match ev with QueuePut _ => true | _ => false end.

(** The server object.  [_queue] holds the content of the queue it refers
    to, [None] while no queue is attached; [closed] is set by
    [server_close()]. *)
Record OAuthHTTPServer : Type := MkServer {
  _redirect_path : string;
  _remote_metadata : EndpointMetadata;
  _queue : option (list AuthorizationCode);
  closed : bool;
}.

Definition with_queue (srv : OAuthHTTPServer)
    (q : option (list AuthorizationCode)) : OAuthHTTPServer :=
  {| _redirect_path := _redirect_path srv;
     _remote_metadata := _remote_metadata srv;
     _queue := q; closed := closed srv |}.

Definition with_closed (srv : OAuthHTTPServer) (b : bool) : OAuthHTTPServer :=
  {| _redirect_path := _redirect_path srv;
     _remote_metadata := _remote_metadata srv;
     _queue := _queue srv; closed := b |}.

Definition queue_content (srv : OAuthHTTPServer) : list AuthorizationCode :=
  match _queue srv with Some q => q | None => [] end.

Definition handle_authorization_code (auth_code : AuthorizationCode)
  : prog OAuthHTTPServer server_event unit :=
  self ← this;
  match _queue self with
  | None => raise (AttributeError "put")
  | Some q =>
      assign (with_queue self (Some (q ++ [auth_code])));;
      emit (QueuePut auth_code);;
      self ← this;
      assign (with_closed self true);;
      emit ServerClose
  end.

(** [data[key]] *)
Definition getitem (data : list (string * string)) (key : string)
  : result string :=
  match dict_get key data with
  | Some v => Ok v
  | None => Raise (KeyError key)
  end.

Definition handle_login (data : list (string * string))
  : prog OAuthHTTPServer server_event unit :=
  c ← lift (getitem data "code");
  s ← lift (getitem data "state");
  handle_authorization_code (MkAuthorizationCode c s).

Section Listener.

(** Library functions the listener calls: [urllib.parse.urlparse], which
    raises [ValueError] on a string it cannot split (an unbalanced bracket
    in the host part, for one), [urllib.parse.parse_qsl], and the page of
    [default_html], a sibling module outside the sources at hand. *)
Variable urlparse : string -> result ParseResult.
Variable parse_qsl : string -> list (string * string).
Variable get_default_success_html : option string -> string.

(** The test of [do_GET] on the request's target: the target parses and
    its path is the redirect path, outer slashes apart. *)
Definition path_matches (srv : OAuthHTTPServer) (req : http_request) : bool :=
  match urlparse (target req) with
  | Ok url =>
      String.eqb (py_strip "/" (path url)) (py_strip "/" (_redirect_path srv))
  | Raise _ => false
  end.

Definition do_GET (req : http_request)
  : prog OAuthHTTPServer server_event unit :=
  server ← this;
  url ← lift (urlparse (target req));
  if String.eqb (py_strip "/" (path url)) (py_strip "/" (_redirect_path server))
  then
    emit (SendResponse 200);;
    emit (SendHeader "Content-type" "text/html");;
    emit EndHeaders;;
    handle_login (dict_of_pairs (parse_qsl (query url)));;
    server ← this;
    match success_html (_remote_metadata server) with
    | None =>
        emit (WfileWrite
                (get_default_success_html (endpoint (_remote_metadata server))))
    | Some _ => mret tt
    end;;
    emit WfileFlush
  else
    emit (SendResponse 404).

(** [BaseHTTPRequestHandler.handle_one_request]: the method [do_<command>]
    is called when the handler has one, 501 is answered otherwise; the
    handler defines [do_GET] only. *)
Definition handle_one_request (req : http_request)
  : prog OAuthHTTPServer server_event unit :=
  if String.eqb (command req) "GET" then do_GET req
  else emit (SendError 501).

(** [OAuthHTTPServer.handle_request(queue)] attaches the queue and calls
    the base class, which waits for one request, handles it, hands an
    exception of the handler to [handle_error] and returns.
    [handle_request] is the part before the wait, [serve_request] the part
    after it. *)
Definition handle_request (queue : list AuthorizationCode)
  : prog OAuthHTTPServer server_event unit :=
  self ← this;
  assign (with_queue self (Some queue)).

Definition serve_request (req : http_request)
  : prog OAuthHTTPServer server_event unit :=
  catch (handle_one_request req) (fun e => emit (HandleError e)).

(** The listener process, whose target is [server.handle_request(q)]: it is
    [Listening] until a request arrives and has [Returned] once that request
    is handled. *)
Inductive phase : Type := Listening | Returned.

Record listener : Type := MkListener {
  l_server : OAuthHTTPServer;
  l_phase : phase;
  l_log : list server_event;
}.

Definition listener_start (srv : OAuthHTTPServer)
    (q : list AuthorizationCode) : listener :=
  {| l_server := self_of (handle_request q srv);
     l_phase := Listening;
     l_log := [] |}.

(** One inbound request reaches the listener's port.  Nothing reads the
    port once the single [handle_request] call has returned. *)
Definition inbound_request (l : listener) (req : http_request) : listener :=
  match l_phase l with
  | Listening =>
      let '(_, srv, t) := serve_request req (l_server l) in
      {| l_server := srv; l_phase := Returned; l_log := l_log l ++ t |}
  | Returned => l
  end.

Definition run_listener (l : listener) (inbound : list http_request)
  : listener :=
  fold_left inbound_request inbound l.

End Listener.

(** ** Authorization client *)

(** [urllib.parse.quote_plus(s)]: letters, digits and [_.-~] stand for
    themselves, a space becomes [+], any other octet [%XX]. *)
Definition unreserved (c : ascii) : bool :=
  between "a" "z" c || between "A" "Z" c || between "0" "9" c
  || char_in c "_.-~".

Definition hex_digit (n : nat) : ascii :=
  nth n (chars_of_string "0123456789ABCDEF") "0"%char.

Definition quote_char (c : ascii) : list ascii :=
  if unreserved c then [c]
  else if Ascii.eqb c " "%char then ["+"%char]
  else ["%"%char; hex_digit (nat_of_ascii c / 16); hex_digit (nat_of_ascii c mod 16)].

Definition quote_plus (s : string) : string :=
  string_of_chars (flat_map quote_char (chars_of_string s)).

(** [str(v)] for an optional string *)
Definition py_str (v : option string) : string :=
  match v with Some s => s | None => "None" end.

Definition urlencode_item (kv : string * option string) : string :=
  quote_plus (fst kv) +:+ "=" +:+ quote_plus (py_str (snd kv)).

(** [urllib.parse.urlencode(d)] *)
Definition urlencode (d : list (string * option string)) : string :=
  join "&" (map urlencode_item d).

(** How [get_creds_from_remote] ends: it returns or raises, or it waits for
    ever on the empty queue. *)
Inductive outcome (A : Type) : Type :=
| Completes (r : result A)
| Blocks.
Arguments Completes {A} r.
Arguments Blocks {A}.

(** An actual argument of the constructor, of one of the types that the
    annotations of [__init__] name. *)
Inductive arg : Type :=
| AStr (s : string)
| ANone
| AList (l : list string)
| AMetadata (m : EndpointMetadata)
| ABool (b : bool).

(** A call [AuthorizationClient( *args, **kwargs)]. *)
Record call : Type := MkCall {
  args : list arg;
  kwargs : list (string * arg);
}.

Definition init_parameters : list string :=
  ["endpoint"; "auth_endpoint"; "token_endpoint"; "scopes"; "client_id";
   "redirect_uri"; "endpoint_metadata"; "verify"].

(** Python's binding of the arguments of a call to the parameter names. *)
Fixpoint bind_positional (names : list string) (actual : list arg)
  : result (list (string * arg)) :=
  match actual, names with
  | [], _ => Ok []
  | _ :: _, [] => Raise (TypeError "too many positional arguments")
  | a :: actual', n :: names' =>
      bound ← bind_positional names' actual'; Ok ((n, a) :: bound)
  end.

Fixpoint bind_keywords (names : list string) (kw : list (string * arg))
    (bound : list (string * arg)) : result (list (string * arg)) :=
  match kw with
  | [] => Ok bound
  | (k, a) :: kw' =>
      if negb (existsb (String.eqb k) names)
      then Raise (TypeError "unexpected keyword argument")
      else if has_key k bound
      then Raise (TypeError "multiple values for argument")
      else bind_keywords names kw' (bound ++ [(k, a)])
  end.

Definition bind_arguments (c : call) : result (list (string * arg)) :=
  bound ← bind_positional init_parameters (args c);
  bind_keywords init_parameters (kwargs c) bound.

Definition required (bound : list (string * arg)) (name : string) : result arg :=
  match dict_get name bound with
  | Some a => Ok a
  | None => Raise (TypeError "missing required positional argument")
  end.

Definition optional (bound : list (string * arg)) (name : string) : arg :=
  match dict_get name bound with Some a => a | None => ANone end.

(** The annotations are the types of the model: an argument outside the
    annotation of its parameter is rejected. *)
Definition ill_typed {A} : result A :=
  Raise (TypeError "argument outside the annotated type").

Definition as_str (a : arg) : result string :=
  match a with AStr s => Ok s | _ => ill_typed end.

Definition as_optional_str (a : arg) : result (option string) :=
  match a with AStr s => Ok (Some s) | ANone => Ok None | _ => ill_typed end.

Definition as_optional_list (a : arg) : result (option (list string)) :=
  match a with AList l => Ok (Some l) | ANone => Ok None | _ => ill_typed end.

Definition as_optional_metadata (a : arg) : result (option EndpointMetadata) :=
  match a with AMetadata m => Ok (Some m) | ANone => Ok None | _ => ill_typed end.

Definition as_optional_verify (a : arg) : result (option (bool + string)) :=
  match a with
  | ABool b => Ok (Some (inl b))
  | AStr s => Ok (Some (inr s))
  | ANone => Ok None
  | _ => ill_typed
  end.

(** The process: the registry of the metaclass, the objects allocated so far
    (an instance is identified by its position in [heap]) and the entropy
    pool. *)
Record process : Type := MkProcess {
  _instances : gmap string nat;
  heap : list AuthorizationClient;
  rng : entropy;
}.

Definition with_instances (p : process) (i : gmap string nat) : process :=
  {| _instances := i; heap := heap p; rng := rng p |}.
Definition with_heap (p : process) (h : list AuthorizationClient) : process :=
  {| _instances := _instances p; heap := h; rng := rng p |}.
Definition with_rng (p : process) (e : entropy) : process :=
  {| _instances := _instances p; heap := heap p; rng := e |}.

Definition auth_endpoint_required : string := "parameter auth_endpoint is required".

Section Client.

(** The library functions and the outside world of the client:
    [urllib.parse.urlparse], which raises [ValueError] on a string it cannot
    split, and [parse_qsl], the SHA-256 digest, the default success page,
    the token endpoint behind [requests.post], and the exception, if any,
    with which [HTTPServer.__init__] fails to bind the listener's address. *)
Variable urlparse : string -> result ParseResult.
Variable parse_qsl : string -> list (string * string).
Variable get_default_success_html : option string -> string.
Variable sha256 : list Z -> list Z.
Variable requests_post : PostRequest -> result Response.
Variable bind_failure : option string -> option Z -> option exn.

(** Draws from the process's entropy pool. *)
Definition draw {A} (gen : entropy -> A * entropy) : prog process event A :=
  fun p => let '(a, e) := gen (rng p) in (Ok a, with_rng p e, []).

(** [AuthorizationClient.__init__], on the bound arguments: it returns the
    initialised instance. *)
Definition __init__ (bound : list (string * arg))
  : prog process event AuthorizationClient :=
  endpoint ← lift (required bound "endpoint" ≫= as_str);
  auth_endpoint ← lift (required bound "auth_endpoint" ≫= as_str);
  token_endpoint ← lift (required bound "token_endpoint" ≫= as_str);
  scopes ← lift (as_optional_list (optional bound "scopes"));
  client_id ← lift (as_optional_str (optional bound "client_id"));
  redirect_uri ← lift (as_optional_str (optional bound "redirect_uri"));
  endpoint_metadata ← lift (as_optional_metadata (optional bound "endpoint_metadata"));
  verify ← lift (as_optional_verify (optional bound "verify"));
  remote ← lift
    match endpoint_metadata with
    | None =>
        remote_url ← urlparse auth_endpoint;
        mret (MkEndpointMetadata (hostname remote_url) None None)
    | Some m => mret m
    end;
  let scopes := match scopes with Some l => l | None => [] end in
  r ← draw _generate_code_verifier;
  code_verifier ← lift r;
  let code_challenge := _create_code_challenge sha256 code_verifier in
  state ← draw _generate_state_parameter;
  mret
    {| _endpoint := endpoint;
       _auth_endpoint := auth_endpoint;
       _remote := remote;
       _token_endpoint := token_endpoint;
       _client_id := client_id;
       _scopes := scopes;
       _redirect_uri := redirect_uri;
       _code_verifier := code_verifier;
       _code_challenge := code_challenge;
       _state := state;
       _verify := verify;
       _headers := [("content-type", "application/x-www-form-urlencoded")];
       _params :=
         [("client_id", client_id);
          ("response_type", Some "code");
          ("scope",
           Some (py_strip "[]'" (join " " (map (py_strip "' ") scopes))));
          ("redirect_uri", redirect_uri);
          ("state", Some state);
          ("code_challenge", Some code_challenge);
          ("code_challenge_method", Some "S256")] |}.

(** [type.__call__]: binds the arguments, runs [__init__] and allocates the
    new object. *)
Definition new_instance (c : call) : prog process event nat :=
  bound ← lift (bind_arguments c);
  self ← __init__ bound;
  p ← this;
  assign (with_heap p (heap p ++ [self]));;
  mret (length (heap p)).

(** [_SingletonPerEndpoint.__call__]: a metaclass to create per endpoint
    singletons for AuthorizationClient objects. *)
Definition __call__ (c : call) : prog process event nat :=
  let endpoint := AStr "" in
  endpoint ←
    match args c with
    | a :: _ => mret a
    | [] =>
        match dict_get "auth_endpoint" (kwargs c) with
        | Some a => mret a
        | None => raise (ValueError auth_endpoint_required)
        end
    end;
  endpoint ← lift (as_str endpoint);
  p ← this;
  match _instances p !! endpoint with
  | None =>
      ref ← new_instance c;
      p ← this;
      assign (with_instances p (<[endpoint := ref]> (_instances p)));;
      mret ref
  | Some ref => mret ref
  end.

(** Calls a method on the object [ref] of the heap. *)
Definition invoke {A} (ref : nat) (method : prog AuthorizationClient event A)
  : prog process event A :=
  fun p =>
    match heap p !! ref with
    | None => (Raise (AttributeError "no such object"), p, [])
    | Some self =>
        let '(r, self', t) := method self in
        (r, with_heap p (<[ref := self']> (heap p)), t)
    end.

Definition _create_callback_server (self : AuthorizationClient)
  : result OAuthHTTPServer :=
  match _redirect_uri self with
  | None =>
      (* without a redirect URI there is neither a host nor a port to bind *)
      Raise (TypeError "server address")
  | Some redirect_uri =>
      server_url ← urlparse redirect_uri;
      server_port ← port server_url;
      match bind_failure (hostname server_url) server_port with
      | Some e => Raise e
      | None =>
          Ok {| _redirect_path := path server_url;
                _remote_metadata := _remote self;
                _queue := None;
                closed := false |}
      end
  end.

Definition _request_authorization_code : prog AuthorizationClient event unit :=
  self ← this;
  u ← lift (urlparse (_auth_endpoint self));
  let query := urlencode (_params self) in
  let endpoint :=
    {| u_scheme := scheme u; u_netloc := netloc u; u_path := path u;
       u_query := query |} in
  emit (EvOpenNewTab endpoint).

(** The listener process of one flow attempt, after the requests [inbound]
    have reached its port. *)
Definition callback_listener (server : OAuthHTTPServer)
    (inbound : list http_request) : listener :=
  run_listener urlparse parse_qsl get_default_success_html
    (listener_start server []) inbound.

(** This is the entrypoint method. It will kickoff the full authentication
    flow and trigger a web-browser to retrieve credentials.  [inbound] are
    the requests that reach the callback listener during the call. *)
Definition get_creds_from_remote (inbound : list http_request)
    (self : AuthorizationClient)
  : outcome Credentials * AuthorizationClient * list event :=
  (* First prepare the callback server in the background *)
  match _create_callback_server self with
  | Raise e => (Completes (Raise e), self, [])
  | Ok server =>
      (* try: *)
      let '(started, self, t1) :=
        (emit EvProcessStart;;
         (* Send the call to request the authorization code in the background *)
         _request_authorization_code;;
         emit EvQueueGet) self in
      match started with
      | Raise e =>
          (* finally: *)
          (Completes (Raise e), self, t1 ++ [EvTerminate])
      | Ok _ =>
          (* Request the access token once the auth code has been received. *)
          match queue_content (l_server (callback_listener server inbound)) with
          | [] => (Blocks, self, t1)
          | auth_code :: _ =>
              let '(r, self, t2) :=
                finally (_request_access_token requests_post auth_code)
                        (emit EvTerminate) self in
              (Completes r, self, t1 ++ t2)
          end
      end
  end.

End Client.

(** ** Concrete instances for the examples

    The values of the library functions at the URLs the examples use. *)

Definition invalid_ipv6_url : exn := ValueError "Invalid IPv6 URL".

Definition example_urlparse (s : string) : result ParseResult :=
  if String.eqb s "http://localhost:53593/callback"
  then Ok (MkParseResult "http" "localhost:53593" "/callback" ""
                         (Some "localhost") (Ok (Some 53593)))
  else if String.eqb s "https://auth.example.org/authorize"
  then Ok (MkParseResult "https" "auth.example.org" "/authorize" ""
                         (Some "auth.example.org") (Ok None))
  else if String.eqb s "https://login.example.org/authorize"
  then Ok (MkParseResult "https" "login.example.org" "/authorize" ""
                         (Some "login.example.org") (Ok None))
  else if String.eqb s "/callback?code=XYZ&state=S1"
  then Ok (MkParseResult "" "" "/callback" "code=XYZ&state=S1" None (Ok None))
  else if String.eqb s "/callback?code=XYZ&state=S2"
  then Ok (MkParseResult "" "" "/callback" "code=XYZ&state=S2" None (Ok None))
  else if String.eqb s "http://["
  then Raise invalid_ipv6_url
  else Ok (MkParseResult "" "" s "" None (Ok None)).

Definition example_parse_qsl (q : string) : list (string * string) :=
  if String.eqb q "code=XYZ&state=S1" then [("code", "XYZ"); ("state", "S1")]
  else if String.eqb q "code=XYZ&state=S2"
  then [("code", "XYZ"); ("state", "S2")]
  else [].

Definition example_html (label : option string) : string :=
  "<html><body>OK " +:+ py_str label +:+ "</body></html>".

(** A stand-in digest: no property below depends on the digest. *)
Definition example_sha256 (bs : list Z) : list Z := repeat 0 32.

Definition example_pool (i : nat) : Byte.byte :=
  match Byte.of_N (N.of_nat ((i * 37 + 11) mod 256)) with
  | Some b => b
  | None => Byte.x00
  end.

Definition example_client : AuthorizationClient :=
  {| _endpoint := "flyte.example.org";
     _auth_endpoint := "https://auth.example.org/authorize";
     _remote := MkEndpointMetadata (Some "auth.example.org") None None;
     _token_endpoint := "https://auth.example.org/token";
     _client_id := Some "cli";
     _scopes := ["all"];
     _redirect_uri := Some "http://localhost:53593/callback";
     _code_verifier := "V";
     _code_challenge := "C";
     _state := "S1";
     _verify := None;
     _headers := [("content-type", "application/x-www-form-urlencoded")];
     _params :=
       [("client_id", Some "cli"); ("response_type", Some "code");
        ("scope", Some "all");
        ("redirect_uri", Some "http://localhost:53593/callback");
        ("state", Some "S1"); ("code_challenge", Some "C");
        ("code_challenge_method", Some "S256")] |}.

Definition example_server : OAuthHTTPServer :=
  {| _redirect_path := "/callback";
     _remote_metadata := MkEndpointMetadata (Some "auth.example.org") None None;
     _queue := None;
     closed := false |}.

Definition example_process : process :=
  {| _instances := ∅; heap := []; rng := Entropy example_pool 0 |}.

Definition token_only : Response :=
  MkResponse 200 "" (Ok (VDict [("access_token", VStr "tok")])).

Definition token_without_access : Response :=
  MkResponse 200 "" (Ok (VDict [("token_type", VStr "Bearer")])).

Definition token_full : Response :=
  MkResponse 200 ""
    (Ok (VDict [("access_token", VStr "tok"); ("refresh_token", VStr "ref");
                ("expires_in", VInt 3600)])).

Definition GET (t : string) : http_request := MkRequest "GET" t.

(** ** Auxiliary definitions of the proofs *)

(** The number of characters of the encoding of [n] octets that are not
    padding. *)
Fixpoint b64_digits (n : nat) : nat :=
  match n with
  | 0 => 0
  | 1 => 2
  | 2 => 3
  | S (S (S n')) => 4 + b64_digits n'
  end%nat.

(** The cleaned encoding of the 64 octets drawn. *)
Abbreviation cleaned_verifier e :=
  (re_sub_outside verifier_char
     (urlsafe_b64encode (urandom _code_verifier_length e).1)).

(** The parameter map after the update of [_request_access_token], and the
    request it then posts. *)
Definition exchange_params (self : AuthorizationClient)
    (auth_code : AuthorizationCode) : list (string * option string) :=
  dict_update (_params self)
    [("code", Some (code auth_code));
     ("code_verifier", Some (_code_verifier self));
     ("grant_type", Some "authorization_code")].

Definition exchange_request (self : AuthorizationClient)
    (auth_code : AuthorizationCode) : PostRequest :=
  {| url := _token_endpoint self;
     data := map (fun kv => (fst kv, of_opt (snd kv)))
                 (exchange_params self auth_code);
     headers := _headers self;
     allow_redirects := false;
     verify := _verify self |}.

(** The registry key that [__call__] computes for a call. *)
Definition call_key (c : call) : result string :=
  match args c with
  | a :: _ => as_str a
  | [] =>
      match dict_get "auth_endpoint" (kwargs c) with
      | Some a => as_str a
      | None => Raise (ValueError auth_endpoint_required)
      end
  end.

(** [item] occurs in [s]. *)
Definition occurs_in (item s : string) : Prop :=
  exists pre suf, s = pre +:+ item +:+ suf.

(** The registry refers to allocated objects only, and to each of them
    under one key. *)
Definition registry_ok (p : process) : Prop :=
  (forall k r, _instances p !! k = Some r -> (r < length (heap p))%nat)
  /\ (forall k1 k2 r,
        _instances p !! k1 = Some r -> _instances p !! k2 = Some r -> k1 = k2).

(** A program of the process that only draws entropy: it leaves the
    registry and the heap as they are and performs no effect. *)
Definition draws_only {A} (m : prog process event A) : Prop :=
  forall p, exists r e, m p = (r, with_rng p e, []).

(** The characters of the url-safe base64 alphabet. *)
Definition urlsafe (c : ascii) : bool := char_in c urlsafe_alphabet.

(** Every character of [s] is in [class]. *)
Definition all_chars (class : ascii -> bool) (s : string) : bool :=
  forallb class (chars_of_string s).

(** The verifier's character set [A-Za-z0-9_.~-], written out. *)
Definition verifier_alphabet : string :=
  "ABCDEFGHIJKLMNOPQRSTUVWXYZabcdefghijklmnopqrstuvwxyz0123456789_.~-".

(** Stripping, stated on its own, to compare [re.sub] with: [stripped keep s t]
    holds when [t] is [s] with every character outside [keep] left out and
    every character of [keep] in its place. *)
Inductive stripped (keep : ascii -> bool) : list ascii -> list ascii -> Prop :=
| stripped_nil : stripped keep [] []
| stripped_keep (c : ascii) (s t : list ascii) :
    keep c = true -> stripped keep s t -> stripped keep (c :: s) (c :: t)
| stripped_drop (c : ascii) (s t : list ascii) :
    keep c = false -> stripped keep s t -> stripped keep (c :: s) t.

(** The cleaned encoding of the 40 octets drawn for the state. *)
Abbreviation cleaned_state e :=
  (re_sub_outside state_char
     (urlsafe_b64encode (urandom _random_seed_length e).1)).

(** The request of [refresh_access_token]. *)
Definition refresh_request (self : AuthorizationClient)
    (credentials : Credentials) : PostRequest :=
  {| url := _token_endpoint self;
     data := [("grant_type", VStr "refresh_token");
              ("client_id", of_opt (_client_id self));
              ("refresh_token", refresh_token credentials)];
     headers := _headers self;
     allow_redirects := false;
     verify := _verify self |}.

(** The bound arguments have the types of the annotations of [__init__]. *)
Definition well_typed (bound : list (string * arg)) : Prop :=
  (exists s, required bound "endpoint" ≫= as_str = Ok s)
  /\ (exists s, required bound "auth_endpoint" ≫= as_str = Ok s)
  /\ (exists s, required bound "token_endpoint" ≫= as_str = Ok s)
  /\ (exists l, as_optional_list (optional bound "scopes") = Ok l)
  /\ (exists s, as_optional_str (optional bound "client_id") = Ok s)
  /\ (exists s, as_optional_str (optional bound "redirect_uri") = Ok s)
  /\ (exists m, as_optional_metadata (optional bound "endpoint_metadata") = Ok m)
  /\ (exists v, as_optional_verify (optional bound "verify") = Ok v).

(** The authorization parameters that [__init__] stores for an instance. *)
Definition authorization_params (self : AuthorizationClient)
  : list (string * option string) :=
  [("client_id", _client_id self);
   ("response_type", Some "code");
   ("scope",
    Some (py_strip "[]'" (join " " (map (py_strip "' ") (_scopes self)))));
   ("redirect_uri", _redirect_uri self);
   ("state", Some (_state self));
   ("code_challenge", Some (_code_challenge self));
   ("code_challenge_method", Some "S256")].

(** The process after the calls [cs], in order. *)
Definition run_calls (urlparse : string -> result ParseResult)
    (sha256 : list Z -> list Z) (cs : list call) (p : process) : process :=
  fold_left (fun p c => self_of (__call__ urlparse sha256 c p)) cs p.

(** ** flytekit/models/launch_plan.py: [Auth] *)

(** [bool(s)] for an optional text: [None] and the empty string are false. *)
Definition truthy (o : option string) : bool :=
  match o with
  | Some s => negb (String.eqb s "")
  | None => false
  end.

Record Auth : Type := MkAuth {
  _assumable_iam_role : option string;
  _kubernetes_service_account : option string;
}.

Definition only_one_identity : string :=
  "Only one of assumable_iam_role or kubernetes_service_account can be set".

(** [Auth.__init__]: at most one of assumable_iam_role or
    kubernetes_service_account can be set. *)
Definition Auth_init (assumable_iam_role kubernetes_service_account : option string)
  : result Auth :=
  if truthy assumable_iam_role && truthy kubernetes_service_account
  then Raise (ValueError only_one_identity)
  else Ok {| _assumable_iam_role := assumable_iam_role;
             _kubernetes_service_account := kubernetes_service_account |}.

(** The message [flyteidl.admin.launch_plan_pb2.Auth], as far as the code
    uses it: each of the two fields is set to a text ([Some]) or not set
    ([None]); the constructor leaves a field unset for the argument [None],
    [HasField] tells whether a field is set. *)
Record pb_Auth : Type := MkPbAuth {
  pb_assumable_iam_role : option string;
  pb_kubernetes_service_account : option string;
}.

Definition HasField (o : option string) : bool :=
  match o with Some _ => true | None => false end.

(** Reading a field: its text, the empty text when it is not set. *)
Definition field_value (o : option string) : string :=
  match o with Some s => s | None => "" end.

Definition Auth_to_flyte_idl (self : Auth) : pb_Auth :=
  {| pb_assumable_iam_role :=
       if truthy (_assumable_iam_role self) then _assumable_iam_role self
       else None;
     pb_kubernetes_service_account :=
       if truthy (_kubernetes_service_account self)
       then _kubernetes_service_account self
       else None |}.

Definition Auth_from_flyte_idl (pb2_object : pb_Auth) : result Auth :=
  Auth_init
    (if HasField (pb_assumable_iam_role pb2_object)
     then Some (field_value (pb_assumable_iam_role pb2_object))
     else None)
    (if HasField (pb_kubernetes_service_account pb2_object)
     then Some (field_value (pb_kubernetes_service_account pb2_object))
     else None).

(** An identity that is the empty text counts as absent. *)
Definition present (o : option string) : option string :=
  if truthy o then o else None.

(** ** flytekit/tools/subprocess.py: [check_call] *)

(** The command of [check_call]: a list of arguments, or a line to split. *)
Inductive command_line : Type :=
| ArgList (l : list string)
| Line (s : string).

Inductive log_event : Type :=
| LogInfo (cmd_args : list string) (std_out : string)
| LogError (cmd_args : list string) (std_err : string).

Section Subprocess.

(** [shlex.split], and the run of the child process: its exit code and what
    it wrote to the two temporary files, or the exception of [Popen]. *)
Variable shlex_split : string -> result (list string).
Variable popen_wait : list string -> result (Z * string * string).

Definition check_call (cmd_args : command_line)
  : prog unit log_event Z :=
  cmd_args ←
    match cmd_args with
    | ArgList l => mret l
    | Line s => lift (shlex_split s)
    end;
  child ← lift (popen_wait cmd_args);
  let '(ret_code, std_out, std_err) := child in
  (* Dump sub-process' std out into current std out *)
  emit (LogInfo cmd_args std_out);;
  (if negb (ret_code =? 0)
   then
     emit (LogError cmd_args std_err);;
     raise (Exception_ ret_code std_err)
   else mret tt);;
  mret 0.

End Subprocess.

(** An instance whose authorization endpoint [urlparse] rejects; such an
    instance is constructed when endpoint metadata is supplied. *)
Definition example_unparsable_client : AuthorizationClient :=
  {| _endpoint := _endpoint example_client;
     _auth_endpoint := "http://[";
     _remote := _remote example_client;
     _token_endpoint := _token_endpoint example_client;
     _client_id := _client_id example_client;
     _scopes := _scopes example_client;
     _redirect_uri := _redirect_uri example_client;
     _code_verifier := _code_verifier example_client;
     _code_challenge := _code_challenge example_client;
     _state := _state example_client;
     _verify := _verify example_client;
     _headers := _headers example_client;
     _params := _params example_client |}.

(** * Properties *)

(** ** PKCE generator *)

Lemma chars_of_string_of_chars (l : list ascii) :
  chars_of_string (string_of_chars l) = l.
Proof. induction l as [|c l IH]; simpl; [reflexivity | now rewrite IH]. Qed.

Lemma length_string_of_chars (l : list ascii) :
  String.length (string_of_chars l) = length l.
Proof. induction l as [|c l IH]; simpl; [reflexivity | now rewrite IH]. Qed.

Lemma urandom_length (n : nat) (e : entropy) : length (urandom n e).1 = n.
Proof. unfold urandom; simpl. now rewrite length_map, length_seq. Qed.

Lemma urandom_drawn (n : nat) (e : entropy) :
  drawn (urandom n e).2 = (drawn e + n)%nat.
Proof. reflexivity. Qed.

(** Six bits select a digit of the alphabet. *)
Lemma six_bits (x : Z) : 0 <= Z.land x 63 < 64.
Proof.
  change 63 with (Z.ones 6). rewrite Z.land_ones by lia.
  apply Z.mod_pos_bound. reflexivity.
Qed.

(** Every digit of the alphabet is in both character classes. *)
Lemma b64_digit_classes (i : Z) :
  0 <= i < 64 ->
  verifier_char (b64_digit i) = true /\ state_char (b64_digit i) = true.
Proof.
  intros Hi. unfold b64_digit.
  assert (Hn : (Z.to_nat i < 64)%nat) by lia.
  revert Hn. generalize (Z.to_nat i). intros n Hn.
  do 64 (destruct n as [|n]; [split; reflexivity|]). lia.
Qed.

(** Lists three elements at a time. *)
Lemma list_ind3 {A} (P : list A -> Prop) :
  P [] -> (forall a, P [a]) -> (forall a b, P [a; b]) ->
  (forall a b c l, P l -> P (a :: b :: c :: l)) ->
  forall l, P l.
Proof.
  intros H0 H1 H2 H3. fix IH 1.
  intros [|a [|b [|c l]]]; [exact H0 | apply H1 | apply H2 |].
  apply H3, IH.
Qed.

Lemma b64_filter_length (class : ascii -> bool) (bs : list Z) :
  (forall i, 0 <= i < 64 -> class (b64_digit i) = true) ->
  class "="%char = false ->
  length (List.filter class (urlsafe_b64encode bs)) = b64_digits (length bs).
Proof.
  intros Hd Hp. induction bs as [|a|a b|a b c l IH] using list_ind3.
  - reflexivity.
  - cbn [urlsafe_b64encode List.filter length b64_digits].
    rewrite !Hd by apply six_bits. now rewrite Hp.
  - cbn [urlsafe_b64encode List.filter length b64_digits].
    rewrite !Hd by apply six_bits. now rewrite Hp.
  - cbn [urlsafe_b64encode List.filter length b64_digits].
    rewrite !Hd by apply six_bits. cbn [length]. rewrite IH. reflexivity.
Qed.

Lemma cleaned_verifier_len (e : entropy) : len (cleaned_verifier e) = 86.
Proof.
  unfold len, re_sub_outside.
  rewrite length_string_of_chars, b64_filter_length.
  - now rewrite urandom_length.
  - intros i Hi. now apply b64_digit_classes.
  - reflexivity.
Qed.

Lemma length_check_passes (v : string) :
  len v = 86 ->
  (if len v <? 43 then Raise (ValueError verifier_too_short)
   else if len v >? 128 then Raise (ValueError verifier_too_long)
   else Ok v) = Ok v.
Proof. intros ->. reflexivity. Qed.

(** The body of [_generate_code_verifier] after the draw. *)
Lemma generate_code_verifier_unfold (e : entropy) :
  _generate_code_verifier e
  = (if len (cleaned_verifier e) <? 43
     then Raise (ValueError verifier_too_short)
     else if len (cleaned_verifier e) >? 128
     then Raise (ValueError verifier_too_long)
     else Ok (cleaned_verifier e),
     (urandom _code_verifier_length e).2).
Proof.
  unfold _generate_code_verifier.
  generalize (urandom _code_verifier_length e). now intros [bs e'].
Qed.

(** The baseline never rejects: 64 octets always give 86 characters. *)
Lemma generate_code_verifier_succeeds (e : entropy) :
  _generate_code_verifier e
  = (Ok (cleaned_verifier e), (urandom _code_verifier_length e).2).
Proof.
  rewrite generate_code_verifier_unfold.
  now rewrite (length_check_passes _ (cleaned_verifier_len e)).
Qed.

(** The character class of the regular expression is the verifier's
    character set. *)
Lemma verifier_char_alphabet (c : ascii) :
  verifier_char c = char_in c verifier_alphabet.
Proof. destruct c as [[] [] [] [] [] [] [] []]; reflexivity. Qed.

(** Filtering strips, and nothing else does. *)
Lemma stripped_filter (keep : ascii -> bool) (s : list ascii) :
  stripped keep s (List.filter keep s).
Proof.
  induction s as [|c s IH]; [constructor|].
  cbn [List.filter]. destruct (keep c) eqn:E.
  - now apply stripped_keep.
  - now apply stripped_drop.
Qed.

Lemma stripped_unique (keep : ascii -> bool) (s t : list ascii) :
  stripped keep s t -> t = List.filter keep s.
Proof.
  induction 1 as [|c s t Hc _ IH|c s t Hc _ IH]; [reflexivity| |];
    cbn [List.filter]; rewrite Hc; congruence.
Qed.

(** C9: [_generate_code_verifier] draws 64 octets, encodes them with the
    url-safe base64 alphabet and strips the characters outside
    [A-Za-z0-9_.~-]: the cleaned string is the encoding without those
    characters, and all of its characters are in the set.  It either returns
    exactly that cleaned string, whose length is then between 43 and 128, or
    raises one of the two length errors, in which case the cleaned string is
    outside these bounds: the result is never cut or padded to fit. *)
Theorem generate_code_verifier_checked (e : entropy) :
  let drawn_octets := (urandom _code_verifier_length e).1 in
  let cleaned :=
    re_sub_outside verifier_char (urlsafe_b64encode drawn_octets) in
  let r := (_generate_code_verifier e).1 in
  length drawn_octets = 64%nat
  /\ drawn (_generate_code_verifier e).2 = (drawn e + 64)%nat
  /\ stripped (fun c => char_in c verifier_alphabet)
       (urlsafe_b64encode drawn_octets) (chars_of_string cleaned)
  /\ (forall c, In c (chars_of_string cleaned) ->
        In c (chars_of_string verifier_alphabet))
  /\ ((r = Ok cleaned /\ 43 <= len cleaned <= 128)
      \/ (exists x, r = Raise x /\ InvalidVerifierLength x
                    /\ (len cleaned < 43 \/ 128 < len cleaned))).
Proof.
  cbv zeta. rewrite generate_code_verifier_unfold. cbn [fst snd].
  split; [apply urandom_length|]. split; [apply urandom_drawn|].
  split.
  { unfold re_sub_outside. rewrite chars_of_string_of_chars.
    generalize (urlsafe_b64encode (urandom _code_verifier_length e).1).
    intros l. rewrite (filter_ext _ _ verifier_char_alphabet).
    apply stripped_filter. }
  split.
  { unfold re_sub_outside. rewrite chars_of_string_of_chars.
    generalize (urlsafe_b64encode (urandom _code_verifier_length e).1).
    intros l c [_ Hc]%filter_In. rewrite verifier_char_alphabet in Hc.
    unfold char_in in Hc. apply existsb_exists in Hc.
    destruct Hc as (x & Hx & Heq). apply Ascii.eqb_eq in Heq. now subst x. }
  generalize (cleaned_verifier e). intros v.
  destruct (Z.ltb_spec (len v) 43) as [Hs|Hs].
  - right. exists (ValueError verifier_too_short).
    repeat split; [now left | now left].
  - rewrite Z.gtb_ltb. destruct (Z.ltb_spec 128 (len v)) as [Hl|Hl].
    + right. exists (ValueError verifier_too_long).
      repeat split; [now right | now right].
    + left. repeat split; lia.
Qed.

(** ** Dictionaries *)

Lemma dict_get_set_eq {V} (k : string) (v : V) (d : list (string * V)) :
  dict_get k (dict_set k v d) = Some v.
Proof.
  induction d as [|[k' v'] d IH]; simpl.
  - now rewrite String.eqb_refl.
  - destruct (String.eqb k k') eqn:E; simpl.
    + now rewrite String.eqb_refl.
    + now rewrite E.
Qed.

Lemma dict_get_set_ne {V} (k k' : string) (v : V) (d : list (string * V)) :
  k <> k' -> dict_get k (dict_set k' v d) = dict_get k d.
Proof.
  intros Hne. induction d as [|[k0 v0] d IH]; simpl.
  - apply String.eqb_neq in Hne. now rewrite Hne.
  - destruct (String.eqb k' k0) eqn:E; simpl.
    + apply String.eqb_eq in E. subst k0.
      apply String.eqb_neq in Hne. now rewrite Hne.
    + destruct (String.eqb k k0); [reflexivity | exact IH].
Qed.

Lemma dict_get_map {V W} (f : V -> W) (k : string) (d : list (string * V)) :
  dict_get k (map (fun kv => (fst kv, f (snd kv))) d) = f <$> dict_get k d.
Proof.
  induction d as [|[k' v'] d IH]; simpl; [reflexivity|].
  destruct (String.eqb k k'); [reflexivity | exact IH].
Qed.

Lemma dict_get_In {V} (k : string) (v : V) (d : list (string * V)) :
  dict_get k d = Some v -> In (k, v) d.
Proof.
  induction d as [|[k' v'] d IH]; simpl; [discriminate|].
  destruct (String.eqb k k') eqn:E.
  - apply String.eqb_eq in E. intros [= ->]. left. now subst.
  - intros H. right. now apply IH.
Qed.

Lemma last_member_has_key {V} (k : string) (d : list (string * V)) :
  has_key k d = true -> exists v, last_member k d = Some v.
Proof.
  unfold has_key, dict_keys.
  induction d as [|[k' v'] d IH]; simpl; [discriminate|].
  destruct (last_member k d) as [v|] eqn:E; [now exists v|].
  destruct (String.eqb k k'); [now exists v'|].
  simpl. intros H. destruct (IH H) as [v Hv]. discriminate.
Qed.

Lemma last_member_no_key {V} (k : string) (d : list (string * V)) :
  has_key k d = false -> last_member k d = None.
Proof.
  unfold has_key, dict_keys.
  induction d as [|[k' v'] d IH]; simpl; [reflexivity|].
  destruct (String.eqb k k'); simpl; [discriminate|].
  intros H. now rewrite (IH H).
Qed.

(** ** Token exchanger *)

(** Unfolds the sequencing of method bodies. *)
Ltac run :=
  unfold outcome_of, self_of, trace_of;
  cbv beta iota zeta
      delta [mbind mret prog_bind prog_ret result_bind result_ret
             this lift raise emit assign catch finally fst snd].

(** Where the claim of C1 holds: a body that has both [access_token] and
    [expires_in] gives the credentials made of its fields. *)
Lemma credentials_from_response_with_expires_in
    (self : AuthorizationClient) (resp : Response) (d : list (string * value))
    (a x : value) :
  json resp = Ok (VDict d) ->
  last_member "access_token" d = Some a ->
  last_member "expires_in" d = Some x ->
  _credentials_from_response resp self
  = (Ok {| access_token := a;
           refresh_token := default VNone (last_member "refresh_token" d);
           for_endpoint := _endpoint self;
           expires_in := x |}, self, []).
Proof.
  intros Hj Ha Hx. unfold _credentials_from_response. run.
  rewrite Hj. cbn [py_in subscript].
  assert (Hka : has_key "access_token" d = true).
  { destruct (has_key "access_token" d) eqn:E; [reflexivity|].
    apply last_member_no_key in E. congruence. }
  assert (Hkx : has_key "expires_in" d = true).
  { destruct (has_key "expires_in" d) eqn:E; [reflexivity|].
    apply last_member_no_key in E. congruence. }
  rewrite Hka, Hkx, Ha, Hx. cbn [negb].
  destruct (has_key "refresh_token" d) eqn:Hr.
  - destruct (last_member_has_key _ _ Hr) as [r Hr']. rewrite Hr'. reflexivity.
  - rewrite (last_member_no_key _ _ Hr). reflexivity.
Qed.

(** C1: a 200 body that has [access_token] and no [expires_in] does not give
    credentials: [expires_in] is read before any assignment reached it and the
    method raises [UnboundLocalError]; so does the whole code exchange. *)
Theorem credentials_from_response_without_expires_in
    (post : PostRequest -> result Response)
    (self : AuthorizationClient) (auth_code : AuthorizationCode)
    (resp : Response) (d : list (string * value)) :
  status_code resp = 200 ->
  json resp = Ok (VDict d) ->
  has_key "access_token" d = true ->
  has_key "expires_in" d = false ->
  (forall req, post req = Ok resp) ->
  state auth_code = _state self ->
  outcome_of (_credentials_from_response resp self)
  = Raise (UnboundLocalError "expires_in")
  /\ outcome_of (_request_access_token post auth_code self)
     = Raise (UnboundLocalError "expires_in").
Proof.
  intros Hs Hj Ha Hx Hp Hst.
  assert (H1 : forall s, outcome_of (_credentials_from_response resp s)
                         = Raise (UnboundLocalError "expires_in")).
  { intros s. unfold _credentials_from_response. run.
    rewrite Hj. cbn [py_in subscript]. rewrite Ha, Hx. cbn [negb].
    destruct (last_member_has_key _ _ Ha) as [a Ha'].
    destruct (has_key "refresh_token" d) eqn:Hr.
    - destruct (last_member_has_key _ _ Hr) as [r Hr']. now rewrite Hr', Ha'.
    - now rewrite Ha'. }
  split; [apply H1|].
  unfold _request_access_token. run.
  rewrite Hst, String.eqb_refl. cbn [negb]. rewrite Hp, Hs. cbn [Z.eqb negb Pos.eqb].
  specialize (H1 (with_params self
                    (dict_update (_params self)
                       [("code", Some (code auth_code));
                        ("code_verifier", Some (_code_verifier self));
                        ("grant_type", Some "authorization_code")]))).
  unfold outcome_of in H1.
  destruct (_credentials_from_response resp _) as [[r s] t].
  simpl in H1. now subst r.
Qed.

Lemma credentials_from_response_without_expires_in_witness :
  outcome_of (_credentials_from_response token_only example_client)
  = Raise (UnboundLocalError "expires_in")
  /\ outcome_of (_request_access_token (fun _ => Ok token_only)
                   (MkAuthorizationCode "XYZ" "S1") example_client)
     = Raise (UnboundLocalError "expires_in").
Proof.
  apply (credentials_from_response_without_expires_in
           (fun _ => Ok token_only) example_client
           (MkAuthorizationCode "XYZ" "S1") token_only
           [("access_token", VStr "tok")]); reflexivity.
Defined.

(** C5: for a 200 response in whose JSON body the test
    ["access_token" in body] is false (an object without that member), the
    parse, the code exchange and the refresh raise the [ValueError] of the
    missing token; no credentials are returned. *)
Theorem missing_access_token_rejected
    (post : PostRequest -> result Response)
    (self : AuthorizationClient) (auth_code : AuthorizationCode)
    (credentials : Credentials)
    (resp : Response) (body : value) :
  status_code resp = 200 ->
  json resp = Ok body ->
  py_in "access_token" body = Ok false ->
  (forall req, post req = Ok resp) ->
  state auth_code = _state self ->
  refresh_token credentials <> VNone ->
  outcome_of (_credentials_from_response resp self) = Raise MalformedTokenResponse
  /\ outcome_of (_request_access_token post auth_code self)
     = Raise MalformedTokenResponse
  /\ outcome_of (refresh_access_token post credentials self)
     = Raise MalformedTokenResponse.
Proof.
  intros Hs Hj Ha Hp Hst Hr.
  assert (H1 : forall s, _credentials_from_response resp s
                         = (Raise MalformedTokenResponse, s, [])).
  { intros s. unfold _credentials_from_response. run.
    rewrite Hj, Ha. reflexivity. }
  split; [now rewrite H1|]. split.
  - unfold _request_access_token. run.
    rewrite Hst, String.eqb_refl. cbn [negb].
    rewrite Hp, Hs. cbn [Z.eqb negb Pos.eqb]. now rewrite H1.
  - unfold refresh_access_token. run.
    destruct (refresh_token credentials) eqn:E; try congruence;
      rewrite Hp, Hs; cbn [Z.eqb negb Pos.eqb]; now rewrite H1.
Qed.

Lemma missing_access_token_rejected_witness :
  outcome_of (_credentials_from_response token_without_access example_client)
  = Raise MalformedTokenResponse
  /\ outcome_of (_request_access_token (fun _ => Ok token_without_access)
                   (MkAuthorizationCode "XYZ" "S1") example_client)
     = Raise MalformedTokenResponse
  /\ outcome_of (refresh_access_token (fun _ => Ok token_without_access)
                   (MkCredentials (VStr "tok") (VStr "ref") "flyte.example.org"
                                  (VInt 3600)) example_client)
     = Raise MalformedTokenResponse.
Proof.
  apply (missing_access_token_rejected
           (fun _ => Ok token_without_access) example_client
           (MkAuthorizationCode "XYZ" "S1")
           (MkCredentials (VStr "tok") (VStr "ref") "flyte.example.org"
                          (VInt 3600))
           token_without_access (VDict [("token_type", VStr "Bearer")]));
    try reflexivity; discriminate.
Defined.

(** X10: credentials are returned for a JSON object that has an
    [access_token] member, and for nothing else: not for a body that is a
    list, a string or a scalar, nor for one that cannot be decoded; the access
    token returned is the value of that member. *)
Lemma credentials_need_access_token (resp : Response)
    (self : AuthorizationClient) (creds : Credentials) :
  outcome_of (_credentials_from_response resp self) = Ok creds ->
  exists d, json resp = Ok (VDict d)
            /\ last_member "access_token" d = Some (access_token creds).
Proof.
  unfold _credentials_from_response. run.
  destruct (json resp) as [body|x]; [|discriminate].
  destruct body as [| | | |l|d]; cbn [py_in subscript];
    try discriminate.
  - destruct (String.index 0 "access_token" s); cbn [negb]; [|discriminate].
    destruct (String.index 0 "refresh_token" s); [discriminate|].
    destruct (String.index 0 "expires_in" s); discriminate.
  - destruct (existsb (is_VStr "access_token") l); cbn [negb]; [|discriminate].
    destruct (existsb (is_VStr "refresh_token") l); [discriminate|].
    destruct (existsb (is_VStr "expires_in") l); discriminate.
  - intros H. exists d. split; [reflexivity|]. revert H.
    destruct (has_key "access_token" d); cbn [negb]; [|discriminate].
    destruct (has_key "refresh_token" d);
      [destruct (last_member "refresh_token" d); [|discriminate]|];
      (destruct (has_key "expires_in" d);
       [destruct (last_member "expires_in" d); [|discriminate]|];
       (destruct (last_member "access_token" d); [|discriminate]);
       cbn; intros [= <-]; reflexivity).
Qed.

(** Parsing the response neither changes the instance nor performs an
    effect. *)
Lemma credentials_from_response_pure (resp : Response)
    (self : AuthorizationClient) :
  exists r, _credentials_from_response resp self = (r, self, []).
Proof.
  unfold _credentials_from_response. run.
  destruct (json resp) as [body|x]; [|eauto].
  destruct (py_in "access_token" body) as [[]|x]; cbn [negb]; [|eauto|eauto].
  destruct (py_in "refresh_token" body) as [[]|x]; [| |eauto].
  - destruct (subscript body "refresh_token") as [rt|x]; [|eauto].
    destruct (py_in "expires_in" body) as [[]|x]; [| |eauto].
    + destruct (subscript body "expires_in") as [ei|x]; [|eauto].
      destruct (subscript body "access_token") as [a|x]; eauto.
    + destruct (subscript body "access_token") as [a|x]; eauto.
  - destruct (py_in "expires_in" body) as [[]|x]; [| |eauto].
    + destruct (subscript body "expires_in") as [ei|x]; [|eauto].
      destruct (subscript body "access_token") as [a|x]; eauto.
    + destruct (subscript body "access_token") as [a|x]; eauto.
Qed.

(** C6: with a [None] refresh token, [refresh_access_token] raises the
    [ValueError] of the missing refresh token, leaves the instance as it was
    and issues no request; whenever it does issue a POST, the credentials
    carry a refresh token, and that POST is the [refresh_token] grant for
    it. *)
Theorem refresh_requires_refresh_token
    (post : PostRequest -> result Response)
    (self : AuthorizationClient) (credentials : Credentials) :
  (refresh_token credentials = VNone ->
   refresh_access_token post credentials self = (Raise NoRefreshToken, self, []))
  /\ (forall req,
        In (EvPost req) (trace_of (refresh_access_token post credentials self)) ->
        refresh_token credentials <> VNone
        /\ url req = _token_endpoint self
        /\ data req = [("grant_type", VStr "refresh_token");
                       ("client_id", of_opt (_client_id self));
                       ("refresh_token", refresh_token credentials)]).
Proof.
  split.
  - intros H. unfold refresh_access_token. run. now rewrite H.
  - intros req. unfold refresh_access_token. run.
    destruct (refresh_token credentials) eqn:E;
      [intros [] | | | | |];
      (destruct (post _) as [resp|x];
       [ destruct (negb (status_code resp =? 200));
         [ | destruct (credentials_from_response_pure resp self) as [r ->] ]
       | ];
       cbn; intros [[= <-]|[]]; repeat split; discriminate).
Qed.

Lemma refresh_requires_refresh_token_witness :
  refresh_access_token (fun _ => Ok token_full)
    (MkCredentials (VStr "tok") VNone "flyte.example.org" VNone) example_client
  = (Raise NoRefreshToken, example_client, []).
Proof.
  apply (proj1 (refresh_requires_refresh_token (fun _ => Ok token_full)
                  example_client
                  (MkCredentials (VStr "tok") VNone "flyte.example.org" VNone))).
  reflexivity.
Defined.

(** ** Callback listener *)

Section ListenerFacts.

Variable urlparse : string -> result ParseResult.
Variable parse_qsl : string -> list (string * string).
Variable get_default_success_html : option string -> string.

Local Abbreviation serve := (serve_request urlparse parse_qsl get_default_success_html).
Local Abbreviation arrive := (inbound_request urlparse parse_qsl get_default_success_html).
Local Abbreviation listen := (run_listener urlparse parse_qsl get_default_success_html).

(** The query of a parsed target, as [do_GET] reads it. *)
Local Abbreviation query_of url := (dict_of_pairs (parse_qsl (query url))).

Lemma path_matches_parsed (srv : OAuthHTTPServer) (req : http_request)
    (url : ParseResult) :
  urlparse (target req) = Ok url ->
  path_matches urlparse srv req
  = String.eqb (py_strip "/" (path url)) (py_strip "/" (_redirect_path srv)).
Proof. intros Hu. unfold path_matches. now rewrite Hu. Qed.

Lemma path_matches_true (srv : OAuthHTTPServer) (req : http_request) :
  path_matches urlparse srv req = true ->
  exists url,
    urlparse (target req) = Ok url
    /\ String.eqb (py_strip "/" (path url)) (py_strip "/" (_redirect_path srv))
       = true.
Proof.
  unfold path_matches. destruct (urlparse (target req)) as [url|e];
    [|discriminate].
  intros H. now exists url.
Qed.

(** A GET whose target parses to a path off the redirect path: the handler
    takes the [else] branch and touches neither the queue nor the server. *)
Lemma serve_request_mismatch (srv : OAuthHTTPServer) (req : http_request)
    (url : ParseResult) :
  command req = "GET" ->
  urlparse (target req) = Ok url ->
  path_matches urlparse srv req = false ->
  serve req srv = (Ok tt, srv, [SendResponse 404]).
Proof.
  intros Hc Hu Hp. rewrite (path_matches_parsed _ _ _ Hu) in Hp.
  unfold serve_request, handle_one_request, do_GET. run.
  rewrite Hc. cbn [String.eqb Ascii.eqb Bool.eqb].
  rewrite Hu. cbv beta iota. rewrite Hp. reflexivity.
Qed.

(** A GET whose target [urlparse] rejects: the exception leaves [do_GET] and
    is handed to [handle_error]. *)
Lemma serve_request_unparsable (srv : OAuthHTTPServer) (req : http_request)
    (e : exn) :
  command req = "GET" ->
  urlparse (target req) = Raise e ->
  serve req srv = (Ok tt, srv, [HandleError e]).
Proof.
  intros Hc Hu. unfold serve_request, handle_one_request, do_GET. run.
  rewrite Hc. cbn [String.eqb Ascii.eqb Bool.eqb].
  rewrite Hu. reflexivity.
Qed.

(** A method without a [do_] handler is answered 501. *)
Lemma serve_request_other_method (srv : OAuthHTTPServer) (req : http_request) :
  command req <> "GET" ->
  serve req srv = (Ok tt, srv, [SendError 501]).
Proof.
  intros Hc. unfold serve_request, handle_one_request. run.
  apply String.eqb_neq in Hc. rewrite Hc. reflexivity.
Qed.

(** A request that is not a GET on the redirect path leaves the server as it
    was and puts nothing on the queue. *)
Lemma serve_request_off_path (srv : OAuthHTTPServer) (req : http_request) :
  command req <> "GET" \/ path_matches urlparse srv req = false ->
  self_of (serve req srv) = srv
  /\ List.filter is_put (trace_of (serve req srv)) = [].
Proof.
  intros H.
  destruct (String.eqb (command req) "GET") eqn:Hc.
  2:{ apply String.eqb_neq in Hc.
      now rewrite (serve_request_other_method _ _ Hc). }
  apply String.eqb_eq in Hc. destruct H as [H|Hp]; [contradiction|].
  destruct (urlparse (target req)) as [url|e] eqn:Hu.
  - now rewrite (serve_request_mismatch _ _ _ Hc Hu Hp).
  - now rewrite (serve_request_unparsable _ _ _ Hc Hu).
Qed.

(** The same request, with the calls the handler makes: the [else] branch of
    [do_GET], the exception of an unparsable target handed to
    [handle_error], or the base handler's 501. *)
Lemma serve_request_off_path_trace (srv : OAuthHTTPServer)
    (req : http_request) :
  command req <> "GET" \/ path_matches urlparse srv req = false ->
  self_of (serve req srv) = srv
  /\ (trace_of (serve req srv) = [SendResponse 404]
      \/ (exists e, trace_of (serve req srv) = [HandleError e])
      \/ trace_of (serve req srv) = [SendError 501]).
Proof.
  intros H.
  destruct (String.eqb (command req) "GET") eqn:Hc.
  2:{ apply String.eqb_neq in Hc.
      rewrite (serve_request_other_method _ _ Hc). split; [reflexivity|].
      now right; right. }
  apply String.eqb_eq in Hc. destruct H as [H|Hp]; [contradiction|].
  destruct (urlparse (target req)) as [url|e] eqn:Hu.
  - rewrite (serve_request_mismatch _ _ _ Hc Hu Hp). split; [reflexivity|].
    now left.
  - rewrite (serve_request_unparsable _ _ _ Hc Hu). split; [reflexivity|].
    right; left. now exists e.
Qed.

(** A GET on the redirect path that carries [code] and [state] puts the
    authorization code on the queue and closes the server. *)
Lemma serve_request_callback (srv : OAuthHTTPServer) (req : http_request)
    (url : ParseResult) (q : list AuthorizationCode) (c s : string) :
  command req = "GET" ->
  urlparse (target req) = Ok url ->
  path_matches urlparse srv req = true ->
  getitem (query_of url) "code" = Ok c ->
  getitem (query_of url) "state" = Ok s ->
  _queue srv = Some q ->
  exists t,
    serve req srv
    = (Ok tt,
       with_closed (with_queue srv (Some (q ++ [MkAuthorizationCode c s]))) true,
       t)
    /\ List.filter is_put t = [QueuePut (MkAuthorizationCode c s)].
Proof.
  intros Hc Hu Hp Hcode Hstate Hq. rewrite (path_matches_parsed _ _ _ Hu) in Hp.
  unfold serve_request, handle_one_request, do_GET, handle_login,
    handle_authorization_code. run.
  rewrite Hc. cbn [String.eqb Ascii.eqb Bool.eqb].
  rewrite Hu. cbv beta iota. rewrite Hp, Hcode, Hstate, Hq.
  cbn [with_closed with_queue _remote_metadata].
  destruct (success_html (_remote_metadata srv)); eexists; split; reflexivity.
Qed.

(** Whatever the request, the listener puts at most one code on the queue,
    and closes the server when it does. *)
Lemma serve_request_cases (srv : OAuthHTTPServer) (req : http_request) :
  (self_of (serve req srv) = srv
   /\ List.filter is_put (trace_of (serve req srv)) = [])
  \/ (exists q ac,
        _queue srv = Some q
        /\ self_of (serve req srv)
           = with_closed (with_queue srv (Some (q ++ [ac]))) true
        /\ List.filter is_put (trace_of (serve req srv)) = [QueuePut ac]).
Proof.
  destruct (String.eqb (command req) "GET") eqn:Hc.
  2:{ left. apply String.eqb_neq in Hc. apply serve_request_off_path. now left. }
  apply String.eqb_eq in Hc.
  destruct (path_matches urlparse srv req) eqn:Hp.
  2:{ left. apply serve_request_off_path. now right. }
  destruct (path_matches_true _ _ Hp) as (url & Hu & Hm).
  destruct (getitem (query_of url) "code") as [c|x] eqn:Hcode.
  2:{ left. unfold serve_request, handle_one_request, do_GET, handle_login. run.
      rewrite Hc. cbn [String.eqb Ascii.eqb Bool.eqb].
      rewrite Hu. cbv beta iota. rewrite Hm, Hcode. split; reflexivity. }
  destruct (getitem (query_of url) "state") as [s|x] eqn:Hstate.
  2:{ left. unfold serve_request, handle_one_request, do_GET, handle_login. run.
      rewrite Hc. cbn [String.eqb Ascii.eqb Bool.eqb].
      rewrite Hu. cbv beta iota. rewrite Hm, Hcode, Hstate. split; reflexivity. }
  destruct (_queue srv) as [q|] eqn:Hq.
  - right. exists q, (MkAuthorizationCode c s).
    destruct (serve_request_callback _ _ _ _ _ _ Hc Hu Hp Hcode Hstate Hq)
      as (t & -> & Ht).
    now repeat split.
  - left.
    unfold serve_request, handle_one_request, do_GET, handle_login,
      handle_authorization_code. run.
    rewrite Hc. cbn [String.eqb Ascii.eqb Bool.eqb].
    rewrite Hu. cbv beta iota. rewrite Hm, Hcode, Hstate, Hq. split; reflexivity.
Qed.

(** Once [handle_request] has returned, no request is read. *)
Lemma run_listener_returned (l : listener) (inbound : list http_request) :
  l_phase l = Returned -> listen l inbound = l.
Proof.
  intros H. induction inbound as [|req rest IH]; [reflexivity|].
  simpl. assert (arrive l req = l) as ->; [|exact IH].
  unfold inbound_request. now rewrite H.
Qed.

Lemma inbound_request_returns (l : listener) (req : http_request) :
  l_phase (arrive l req) = Returned.
Proof.
  unfold inbound_request. destruct (l_phase l) eqn:E; [|exact E].
  now destruct (serve req (l_server l)) as [[r s] t].
Qed.

(** Only the first request counts. *)
Lemma run_listener_first (l : listener) (req : http_request)
    (rest : list http_request) :
  listen l (req :: rest) = arrive l req.
Proof. simpl. apply run_listener_returned, inbound_request_returns. Qed.

Lemma listening_first (srv : OAuthHTTPServer) (q : list AuthorizationCode)
    (req : http_request) (rest : list http_request) :
  listen (listener_start srv q) (req :: rest)
  = {| l_server := self_of (serve req (with_queue srv (Some q)));
       l_phase := Returned;
       l_log := trace_of (serve req (with_queue srv (Some q))) |}.
Proof.
  rewrite run_listener_first. unfold inbound_request, listener_start.
  cbn [l_phase l_server l_log]. unfold self_of at 1, handle_request. run.
  cbn [fst snd].
  now destruct (serve req (with_queue srv (Some q))) as [[r s] t].
Qed.

End ListenerFacts.

(** C7, as stated, fails: after a GET off the redirect path the listener is
    not [Listening] any more, and the callback that follows it is not
    delivered, although the same callback arriving first is. *)
Lemma listener_stops_after_mismatch :
  let listen := callback_listener example_urlparse example_parse_qsl
                  example_html example_server in
  let stray := GET "/favicon.ico" in
  let callback := GET "/callback?code=XYZ&state=S1" in
  path_matches example_urlparse example_server stray = false
  /\ path_matches example_urlparse example_server callback = true
  /\ l_phase (listen [stray]) <> Listening
  /\ queue_content (l_server (listen [stray; callback])) = []
  /\ listen [stray; callback] = listen [stray]
  /\ queue_content (l_server (listen [callback]))
     = [MkAuthorizationCode "XYZ" "S1"].
Proof. cbv zeta. repeat split; try reflexivity. discriminate. Qed.

(** C7, amended: an inbound request whose path does not match the redirect
    path is not served the success page, puts nothing on the handoff queue
    and leaves the server socket as it was; it ends the single
    [handle_request] call of the listener: the listener has returned, and
    none of the requests that follow is served, a path-matching callback
    included. *)
Theorem mismatch_ends_listening
    (urlparse : string -> result ParseResult)
    (parse_qsl : string -> list (string * string))
    (get_default_success_html : option string -> string)
    (srv : OAuthHTTPServer) (q : list AuthorizationCode)
    (req : http_request) (rest : list http_request) :
  path_matches urlparse srv req = false ->
  let run := run_listener urlparse parse_qsl get_default_success_html in
  let l := run (listener_start srv q) (req :: rest) in
  ~ In (SendResponse 200) (l_log l)
  /\ List.filter is_put (l_log l) = []
  /\ queue_content (l_server l) = q
  /\ closed (l_server l) = closed srv
  /\ l_phase l = Returned
  /\ l = run (listener_start srv q) [req]
  /\ (forall later, run l later = l).
Proof.
  intros Hp run l. subst run l.
  assert (Hp' : path_matches urlparse (with_queue srv (Some q)) req = false)
    by exact Hp.
  rewrite !listening_first.
  destruct (serve_request_off_path_trace urlparse parse_qsl
              get_default_success_html (with_queue srv (Some q)) req
              (or_intror Hp')) as (Hs & Ht).
  rewrite Hs. cbn [l_log l_server l_phase].
  split; [|split; [|split; [|split; [|split; [|split]]]]];
    try reflexivity.
  - intros Hin.
    destruct Ht as [Ht|[[e Ht]|Ht]]; rewrite Ht in Hin;
      destruct Hin as [Hin|[]]; discriminate Hin.
  - destruct Ht as [Ht|[[e Ht]|Ht]]; now rewrite Ht.
  - intros later. now apply run_listener_returned.
Qed.

Lemma mismatch_ends_listening_witness :
  let run := run_listener example_urlparse example_parse_qsl example_html in
  let l := run (listener_start example_server [])
             [GET "/favicon.ico"; GET "/callback?code=XYZ&state=S1"] in
  ~ In (SendResponse 200) (l_log l)
  /\ List.filter is_put (l_log l) = []
  /\ queue_content (l_server l) = []
  /\ closed (l_server l) = closed example_server
  /\ l_phase l = Returned
  /\ l = run (listener_start example_server []) [GET "/favicon.ico"]
  /\ (forall later, run l later = l).
Proof.
  apply (mismatch_ends_listening example_urlparse example_parse_qsl
           example_html example_server [] (GET "/favicon.ico")
           [GET "/callback?code=XYZ&state=S1"]); reflexivity.
Defined.

(** C8: in one flow attempt the listener puts at most one authorization code
    on the handoff queue, which then holds that one code; when it has put one,
    the server is closed and the listener has returned; only the first request
    is processed, so that a callback arriving after the listener has returned
    changes nothing. *)
Theorem at_most_one_callback
    (urlparse : string -> result ParseResult)
    (parse_qsl : string -> list (string * string))
    (get_default_success_html : option string -> string)
    (srv : OAuthHTTPServer) (inbound : list http_request) :
  let run := run_listener urlparse parse_qsl get_default_success_html in
  let l := run (listener_start srv []) inbound in
  (length (List.filter is_put (l_log l)) <= 1)%nat
  /\ (length (queue_content (l_server l)) <= 1)%nat
  /\ (forall ac, In (QueuePut ac) (l_log l) ->
        queue_content (l_server l) = [ac]
        /\ closed (l_server l) = true
        /\ l_phase l = Returned)
  /\ (forall later, l_phase l = Returned -> run l later = l)
  /\ (forall req rest, inbound = req :: rest ->
        l = run (listener_start srv []) [req]
        /\ forall later, run l later = l).
Proof.
  cbv zeta.
  assert (Hfirst : forall req rest,
             let l := run_listener urlparse parse_qsl get_default_success_html
                        (listener_start srv []) (req :: rest) in
             (length (List.filter is_put (l_log l)) <= 1)%nat
             /\ (length (queue_content (l_server l)) <= 1)%nat
             /\ (forall ac, In (QueuePut ac) (l_log l) ->
                   queue_content (l_server l) = [ac]
                   /\ closed (l_server l) = true /\ l_phase l = Returned)).
  { intros req rest. cbv zeta. rewrite listening_first.
    cbn [l_log l_server l_phase].
    destruct (serve_request_cases urlparse parse_qsl get_default_success_html
                (with_queue srv (Some [])) req)
      as [[Hs Ht]|(q & ac & Hq & Hs & Ht)].
    - rewrite Hs, Ht. split; [cbn; lia|]. split; [cbn; lia|].
      intros ac Hin. exfalso.
      assert (Hf : In (QueuePut ac)
                     (List.filter is_put
                        (trace_of (serve_request urlparse parse_qsl
                           get_default_success_html req
                           (with_queue srv (Some []))))))
        by (apply filter_In; now split).
      rewrite Ht in Hf. destruct Hf.
    - cbn in Hq. injection Hq as <-. rewrite Hs, Ht.
      split; [cbn; lia|]. split; [cbn; lia|].
      intros ac' Hin.
      assert (Hf : In (QueuePut ac')
                     (List.filter is_put
                        (trace_of (serve_request urlparse parse_qsl
                           get_default_success_html req
                           (with_queue srv (Some []))))))
        by (apply filter_In; now split).
      rewrite Ht in Hf. destruct Hf as [[= ->]|[]]. now repeat split. }
  destruct inbound as [|req rest].
  - unfold listener_start, handle_request. run. cbn.
    split; [lia|]. split; [lia|]. split; [intros ac []|].
    split; [discriminate|]. discriminate.
  - destruct (Hfirst req rest) as (H1 & H2 & H3).
    split; [exact H1|]. split; [exact H2|]. split; [exact H3|]. split.
    + intros later. apply run_listener_returned.
    + intros req' rest' [= <- <-]. split.
      * now rewrite !run_listener_first.
      * intros later. apply run_listener_returned.
        rewrite run_listener_first. apply inbound_request_returns.
Qed.

(** ** The flow *)

Lemma dict_update_three {V} (d : list (string * V)) (k1 k2 k3 : string)
    (v1 v2 v3 : V) :
  dict_update d [(k1, v1); (k2, v2); (k3, v3)]
  = dict_set k3 v3 (dict_set k2 v2 (dict_set k1 v1 d)).
Proof. reflexivity. Qed.

Lemma exchange_params_get (self : AuthorizationClient)
    (auth_code : AuthorizationCode) :
  dict_get "code" (exchange_params self auth_code) = Some (Some (code auth_code))
  /\ dict_get "code_verifier" (exchange_params self auth_code)
     = Some (Some (_code_verifier self))
  /\ dict_get "grant_type" (exchange_params self auth_code)
     = Some (Some "authorization_code")
  /\ forall k, k <> "code" -> k <> "code_verifier" -> k <> "grant_type" ->
       dict_get k (exchange_params self auth_code) = dict_get k (_params self).
Proof.
  unfold exchange_params. rewrite dict_update_three. repeat split.
  - rewrite !dict_get_set_ne by discriminate. apply dict_get_set_eq.
  - rewrite dict_get_set_ne by discriminate. apply dict_get_set_eq.
  - apply dict_get_set_eq.
  - intros k H1 H2 H3. now rewrite !dict_get_set_ne.
Qed.

Section FlowFacts.

Variable urlparse : string -> result ParseResult.
Variable parse_qsl : string -> list (string * string).
Variable get_default_success_html : option string -> string.
Variable requests_post : PostRequest -> result Response.
Variable bind_failure : option string -> option Z -> option exn.

Local Abbreviation get_creds :=
  (get_creds_from_remote urlparse parse_qsl get_default_success_html
     requests_post bind_failure).
Local Abbreviation listener_of srv inbound :=
  (callback_listener urlparse parse_qsl get_default_success_html srv inbound).
Local Abbreviation query_of url := (dict_of_pairs (parse_qsl (query url))).

(** [_request_access_token] on a foreign state: nothing but the error. *)
Lemma request_access_token_mismatch (self : AuthorizationClient)
    (auth_code : AuthorizationCode) :
  state auth_code <> _state self ->
  _request_access_token requests_post auth_code self
  = (Raise (StateMismatch (state auth_code)), self, []).
Proof.
  intros H. unfold _request_access_token. run.
  assert (String.eqb (_state self) (state auth_code) = false) as ->
    by (apply String.eqb_neq; congruence).
  reflexivity.
Qed.

(** [_request_access_token] on the instance's own state: the parameter map
    is updated and exactly one request is posted, whatever the endpoint
    answers. *)
Lemma request_access_token_match (self : AuthorizationClient)
    (auth_code : AuthorizationCode) :
  state auth_code = _state self ->
  exists r,
    _request_access_token requests_post auth_code self
    = (r, with_params self (exchange_params self auth_code),
       [EvPost (exchange_request self auth_code)]).
Proof.
  intros H. unfold _request_access_token. run.
  rewrite H, String.eqb_refl. cbn [negb].
  fold (exchange_params self auth_code).
  change {| url := _token_endpoint _; data := _; headers := _;
            allow_redirects := _; verify := _ |}
    with (exchange_request self auth_code).
  destruct (requests_post (exchange_request self auth_code)) as [resp|x];
    [|eauto].
  destruct (negb (status_code resp =? 200)); [eauto|].
  destruct (credentials_from_response_pure resp
              (with_params self (exchange_params self auth_code))) as [r ->].
  eauto.
Qed.

(** The server that [_create_callback_server] returns listens on the path of
    the redirect URI, which parsed, and has no queue yet. *)
Lemma create_callback_server_ok (self : AuthorizationClient)
    (srv : OAuthHTTPServer) :
  _create_callback_server urlparse bind_failure self = Ok srv ->
  _queue srv = None /\ closed srv = false
  /\ _remote_metadata srv = _remote self
  /\ exists uri parsed,
       _redirect_uri self = Some uri
       /\ urlparse uri = Ok parsed
       /\ _redirect_path srv = path parsed.
Proof.
  unfold _create_callback_server.
  destruct (_redirect_uri self) as [uri|]; [|discriminate].
  destruct (urlparse uri) as [parsed|e] eqn:Hu; [|discriminate].
  cbn. destruct (port parsed) as [server_port|e]; [|discriminate].
  cbn. destruct (bind_failure _ _); [discriminate|].
  intros [= <-]. cbn. split; [reflexivity|]. split; [reflexivity|].
  split; [reflexivity|]. eauto.
Qed.

(** The callback that arrives first is the one delivered. *)
Lemma callback_delivered (srv : OAuthHTTPServer) (req : http_request)
    (url : ParseResult) (rest : list http_request) (c s : string) :
  command req = "GET" ->
  urlparse (target req) = Ok url ->
  path_matches urlparse srv req = true ->
  getitem (query_of url) "code" = Ok c ->
  getitem (query_of url) "state" = Ok s ->
  queue_content (l_server (listener_of srv (req :: rest)))
  = [MkAuthorizationCode c s].
Proof.
  intros Hc Hu Hp Hcode Hstate. unfold callback_listener.
  rewrite listening_first. cbn [l_server].
  assert (Hp' : path_matches urlparse (with_queue srv (Some [])) req = true)
    by exact Hp.
  destruct (serve_request_callback urlparse parse_qsl get_default_success_html
              (with_queue srv (Some [])) req url [] c s Hc Hu Hp' Hcode Hstate
              eq_refl)
    as (t & -> & _).
  reflexivity.
Qed.

(** [_request_authorization_code] on an authorization endpoint that parses:
    one browser tab, on the endpoint with the instance's parameters as its
    query. *)
Lemma request_authorization_code_ok (self : AuthorizationClient)
    (u : ParseResult) :
  urlparse (_auth_endpoint self) = Ok u ->
  _request_authorization_code urlparse self
  = (Ok tt, self,
     [EvOpenNewTab {| u_scheme := scheme u; u_netloc := netloc u;
                      u_path := path u;
                      u_query := urlencode (_params self) |}]).
Proof.
  intros Hu. unfold _request_authorization_code. run. now rewrite Hu.
Qed.

(** [_request_authorization_code] on an authorization endpoint that
    [urlparse] rejects: the exception, and no browser tab. *)
Lemma request_authorization_code_raise (self : AuthorizationClient) (e : exn) :
  urlparse (_auth_endpoint self) = Raise e ->
  _request_authorization_code urlparse self = (Raise e, self, []).
Proof.
  intros Hu. unfold _request_authorization_code. run. now rewrite Hu.
Qed.

(** The flow, once a code is delivered. *)
Lemma get_creds_delivered (self : AuthorizationClient) (srv : OAuthHTTPServer)
    (u : ParseResult) (inbound : list http_request)
    (auth_code : AuthorizationCode) (more : list AuthorizationCode) :
  _create_callback_server urlparse bind_failure self = Ok srv ->
  urlparse (_auth_endpoint self) = Ok u ->
  queue_content (l_server (listener_of srv inbound)) = auth_code :: more ->
  let x := _request_access_token requests_post auth_code self in
  get_creds inbound self
  = (Completes (outcome_of x), self_of x,
     EvProcessStart
     :: trace_of (_request_authorization_code urlparse self)
     ++ EvQueueGet :: trace_of x ++ [EvTerminate]).
Proof.
  intros Hs Hu Hq. cbv zeta. unfold get_creds_from_remote. rewrite Hs.
  rewrite (request_authorization_code_ok _ _ Hu).
  unfold mbind, prog_bind, emit. rewrite (request_authorization_code_ok _ _ Hu).
  cbn [app]. rewrite Hq. unfold finally.
  destruct (_request_access_token requests_post auth_code self) as [[r s'] t].
  reflexivity.
Qed.

(** The flow, when nothing is delivered. *)
Lemma get_creds_waiting (self : AuthorizationClient) (srv : OAuthHTTPServer)
    (u : ParseResult) (inbound : list http_request) :
  _create_callback_server urlparse bind_failure self = Ok srv ->
  urlparse (_auth_endpoint self) = Ok u ->
  queue_content (l_server (listener_of srv inbound)) = [] ->
  get_creds inbound self
  = (Blocks, self,
     EvProcessStart
     :: trace_of (_request_authorization_code urlparse self) ++ [EvQueueGet]).
Proof.
  intros Hs Hu Hq. unfold get_creds_from_remote. rewrite Hs.
  rewrite (request_authorization_code_ok _ _ Hu).
  unfold mbind, prog_bind, emit. rewrite (request_authorization_code_ok _ _ Hu).
  cbn [app]. now rewrite Hq.
Qed.

(** The flow, when the authorization endpoint does not parse: the listener
    process is started and terminated, and the exception leaves the call. *)
Lemma get_creds_unparsable (self : AuthorizationClient) (srv : OAuthHTTPServer)
    (e : exn) (inbound : list http_request) :
  _create_callback_server urlparse bind_failure self = Ok srv ->
  urlparse (_auth_endpoint self) = Raise e ->
  get_creds inbound self
  = (Completes (Raise e), self, [EvProcessStart; EvTerminate]).
Proof.
  intros Hs Hu. unfold get_creds_from_remote. rewrite Hs.
  unfold mbind, prog_bind, emit.
  rewrite (request_authorization_code_raise _ _ Hu). reflexivity.
Qed.

End FlowFacts.

(** C3: when the callback that is delivered carries a state other than the
    instance's, [get_creds_from_remote] raises the [ValueError] of the
    unexpected state, leaves the instance as it was and posts nothing to the
    token endpoint.  A callback is delivered in a flow that opened the
    browser on the authorization endpoint: the endpoint parsed. *)
Theorem state_mismatch_stops_flow
    (urlparse : string -> result ParseResult)
    (parse_qsl : string -> list (string * string))
    (get_default_success_html : option string -> string)
    (requests_post : PostRequest -> result Response)
    (bind_failure : option string -> option Z -> option exn)
    (self : AuthorizationClient) (srv : OAuthHTTPServer)
    (authorize callback : ParseResult)
    (req : http_request) (rest : list http_request) (c s : string) :
  _create_callback_server urlparse bind_failure self = Ok srv ->
  urlparse (_auth_endpoint self) = Ok authorize ->
  command req = "GET" ->
  urlparse (target req) = Ok callback ->
  path_matches urlparse srv req = true ->
  getitem (dict_of_pairs (parse_qsl (query callback))) "code" = Ok c ->
  getitem (dict_of_pairs (parse_qsl (query callback))) "state" = Ok s ->
  s <> _state self ->
  let x := get_creds_from_remote urlparse parse_qsl get_default_success_html
             requests_post bind_failure (req :: rest) self in
  x.1.1 = Completes (Raise (StateMismatch s))
  /\ x.1.2 = self
  /\ List.filter is_post x.2 = []
  /\ forall r, ~ In (EvPost r) x.2.
Proof.
  intros Hsrv Hau Hc Hu Hp Hcode Hstate Hne. cbv zeta.
  rewrite (get_creds_delivered _ _ _ _ _ self srv authorize (req :: rest)
             (MkAuthorizationCode c s) [] Hsrv Hau
             (callback_delivered _ _ _ srv req callback rest c s Hc Hu Hp
                Hcode Hstate)).
  rewrite request_access_token_mismatch by exact Hne.
  rewrite (request_authorization_code_ok _ _ _ Hau). cbn.
  repeat split. intros r [H|[H|[H|[H|[]]]]]; discriminate.
Qed.

Lemma state_mismatch_stops_flow_witness :
  let x := get_creds_from_remote example_urlparse example_parse_qsl
             example_html (fun _ => Ok token_full) (fun _ _ => None)
             [GET "/callback?code=XYZ&state=S2"] example_client in
  x.1.1 = Completes (Raise (StateMismatch "S2"))
  /\ x.1.2 = example_client
  /\ List.filter is_post x.2 = []
  /\ forall r, ~ In (EvPost r) x.2.
Proof.
  apply (state_mismatch_stops_flow example_urlparse example_parse_qsl
           example_html (fun _ => Ok token_full) (fun _ _ => None)
           example_client example_server
           (MkParseResult "https" "auth.example.org" "/authorize" ""
              (Some "auth.example.org") (Ok None))
           (MkParseResult "" "" "/callback" "code=XYZ&state=S2" None (Ok None))
           (GET "/callback?code=XYZ&state=S2") [] "XYZ" "S2");
    try reflexivity. discriminate.
Defined.

(** C4: when the callback that is delivered carries the instance's state,
    [get_creds_from_remote] posts one request to the token endpoint: the
    [authorization_code] grant with the code of that callback and the code
    verifier of the instance.  A callback is delivered in a flow that opened
    the browser on the authorization endpoint: the endpoint parsed. *)
Theorem state_match_exchanges_code
    (urlparse : string -> result ParseResult)
    (parse_qsl : string -> list (string * string))
    (get_default_success_html : option string -> string)
    (requests_post : PostRequest -> result Response)
    (bind_failure : option string -> option Z -> option exn)
    (self : AuthorizationClient) (srv : OAuthHTTPServer)
    (authorize callback : ParseResult)
    (req : http_request) (rest : list http_request) (c s : string) :
  _create_callback_server urlparse bind_failure self = Ok srv ->
  urlparse (_auth_endpoint self) = Ok authorize ->
  command req = "GET" ->
  urlparse (target req) = Ok callback ->
  path_matches urlparse srv req = true ->
  getitem (dict_of_pairs (parse_qsl (query callback))) "code" = Ok c ->
  getitem (dict_of_pairs (parse_qsl (query callback))) "state" = Ok s ->
  s = _state self ->
  let x := get_creds_from_remote urlparse parse_qsl get_default_success_html
             requests_post bind_failure (req :: rest) self in
  exists rq,
    List.filter is_post x.2 = [EvPost rq]
    /\ url rq = _token_endpoint self
    /\ headers rq = _headers self
    /\ dict_get "grant_type" (data rq) = Some (VStr "authorization_code")
    /\ dict_get "code" (data rq) = Some (VStr c)
    /\ dict_get "code_verifier" (data rq) = Some (VStr (_code_verifier self))
    /\ exists r, x.1.1 = Completes r.
Proof.
  intros Hsrv Hau Hc Hu Hp Hcode Hstate He. cbv zeta.
  rewrite (get_creds_delivered _ _ _ _ _ self srv authorize (req :: rest)
             (MkAuthorizationCode c s) [] Hsrv Hau
             (callback_delivered _ _ _ srv req callback rest c s Hc Hu Hp
                Hcode Hstate)).
  destruct (request_access_token_match requests_post self
              (MkAuthorizationCode c s) He) as [r ->].
  exists (exchange_request self (MkAuthorizationCode c s)).
  destruct (exchange_params_get self (MkAuthorizationCode c s))
    as (G1 & G2 & G3 & _).
  rewrite (request_authorization_code_ok _ _ _ Hau).
  unfold outcome_of, self_of, trace_of. cbn [fst snd].
  split; [reflexivity|]. split; [reflexivity|]. split; [reflexivity|].
  unfold exchange_request; cbn [data].
  rewrite !(dict_get_map of_opt), G1, G2, G3. repeat split. eauto.
Qed.

Lemma state_match_exchanges_code_witness :
  let x := get_creds_from_remote example_urlparse example_parse_qsl
             example_html (fun _ => Ok token_full) (fun _ _ => None)
             [GET "/callback?code=XYZ&state=S1"] example_client in
  exists rq,
    List.filter is_post x.2 = [EvPost rq]
    /\ url rq = _token_endpoint example_client
    /\ headers rq = _headers example_client
    /\ dict_get "grant_type" (data rq) = Some (VStr "authorization_code")
    /\ dict_get "code" (data rq) = Some (VStr "XYZ")
    /\ dict_get "code_verifier" (data rq)
       = Some (VStr (_code_verifier example_client))
    /\ exists r, x.1.1 = Completes r.
Proof.
  apply (state_match_exchanges_code example_urlparse example_parse_qsl
           example_html (fun _ => Ok token_full) (fun _ _ => None)
           example_client example_server
           (MkParseResult "https" "auth.example.org" "/authorize" ""
              (Some "auth.example.org") (Ok None))
           (MkParseResult "" "" "/callback" "code=XYZ&state=S1" None (Ok None))
           (GET "/callback?code=XYZ&state=S1") [] "XYZ" "S1");
    reflexivity.
Defined.

(** ** The registry *)

Section RegistryFacts.

Variable urlparse : string -> result ParseResult.
Variable sha256 : list Z -> list Z.

Local Abbreviation construct := (__call__ urlparse sha256).

(** A call whose key is registered returns the registered instance and
    changes nothing: [__init__] is not run, no entropy is drawn. *)
Lemma call_existing (c : call) (p : process) (key : string) (ref : nat) :
  call_key c = Ok key ->
  _instances p !! key = Some ref ->
  construct c p = (Ok ref, p, []).
Proof.
  unfold call_key, __call__. run. intros Hk Hl.
  destruct (args c) as [|a rest].
  - destruct (dict_get "auth_endpoint" (kwargs c)) as [a|]; [|discriminate].
    rewrite Hk, Hl. reflexivity.
  - rewrite Hk, Hl. reflexivity.
Qed.

(** After a call that returns, its key is registered for the instance it
    returned. *)
Lemma call_registers (c : call) (p p1 : process) (ref : nat) (t : list event) :
  construct c p = (Ok ref, p1, t) ->
  exists key, call_key c = Ok key /\ _instances p1 !! key = Some ref.
Proof.
  unfold call_key, __call__. run.
  assert (Hmain : forall a,
             match as_str a with
             | Ok a0 =>
                 match _instances p !! a0 with
                 | Some ref0 => (Ok ref0, p, [])
                 | None =>
                     match new_instance urlparse sha256 c p with
                     | (Ok a1, s1, t1) =>
                         (Ok a1,
                          with_instances s1 (<[a0:=a1]> (_instances s1)),
                          t1 ++ [] ++ [] ++ [])
                     | (Raise e, s1, t1) => (Raise e, s1, t1)
                     end
                 end
             | Raise e => (Raise e, p, [])
             end = (Ok ref, p1, t) ->
             exists key, as_str a = Ok key /\ _instances p1 !! key = Some ref).
  { intros a. destruct (as_str a) as [key|x]; [|discriminate].
    destruct (_instances p !! key) as [ref0|] eqn:Hl.
    - intros [= <- <- <-]. eauto.
    - destruct (new_instance urlparse sha256 c p) as [[[ref1|x] s1] t1];
        [|discriminate].
      intros [= <- <- <-]. exists key. split; [reflexivity|].
      cbn [_instances with_instances]. apply lookup_insert_eq. }
  destruct (args c) as [|a rest].
  - destruct (dict_get "auth_endpoint" (kwargs c)) as [a|]; [|discriminate].
    cbn [app]. intros H. apply Hmain. rewrite <- H.
    destruct (as_str a); [|reflexivity].
    destruct (_instances p !! a0); [reflexivity|].
    now destruct (new_instance urlparse sha256 c p) as [[[ref1|x] s1] t1].
  - cbn [app]. intros H. apply Hmain. rewrite <- H.
    destruct (as_str a); [|reflexivity].
    destruct (_instances p !! a0); [reflexivity|].
    now destruct (new_instance urlparse sha256 c p) as [[[ref1|x] s1] t1].
Qed.

End RegistryFacts.

(** A method call changes the object it is called on and nothing else. *)
Lemma invoke_lookup {A} (ref : nat) (m : prog AuthorizationClient event A)
    (p : process) (self : AuthorizationClient) :
  heap p !! ref = Some self ->
  invoke ref m p
  = (outcome_of (m self),
     with_heap p (<[ref := self_of (m self)]> (heap p)),
     trace_of (m self))
  /\ heap (self_of (invoke ref m p)) !! ref = Some (self_of (m self))
  /\ _instances (self_of (invoke ref m p)) = _instances p.
Proof.
  intros H. unfold invoke. rewrite H.
  destruct (m self) as [[r s] t]. cbn.
  repeat split. apply list_lookup_insert_eq. now apply lookup_lt_Some in H.
Qed.

(** ** The authorization URL after a token exchange *)

Lemma append_nil_r (s : string) : s +:+ "" = s.
Proof.
  induction s as [|c s IH]; [reflexivity|].
  change (String c (s +:+ "") = String c s). now rewrite IH.
Qed.

Lemma append_assoc (a b c : string) : (a +:+ b) +:+ c = a +:+ b +:+ c.
Proof.
  induction a as [|x a IH]; [reflexivity|].
  change (String x ((a +:+ b) +:+ c) = String x (a +:+ b +:+ c)).
  now rewrite IH.
Qed.

Lemma join_occurs (sep : string) (l : list string) (x : string) :
  In x l -> occurs_in x (join sep l).
Proof.
  induction l as [|s l IH]; [intros []|].
  intros [->|Hin].
  - destruct l as [|s' l].
    + exists "", "". change (x = x +:+ ""). symmetry. apply append_nil_r.
    + exists "", (sep +:+ join sep (s' :: l)). reflexivity.
  - destruct l as [|s' l]; [destruct Hin|].
    destruct (IH Hin) as (pre & suf & E).
    exists (s +:+ sep +:+ pre), suf.
    change (join sep (s :: s' :: l)) with (s +:+ sep +:+ join sep (s' :: l)).
    now rewrite E, !append_assoc.
Qed.

Lemma urlencode_occurs (d : list (string * option string)) (k : string)
    (v : option string) :
  dict_get k d = Some v ->
  occurs_in (urlencode_item (k, v)) (urlencode d).
Proof.
  intros H. apply join_occurs, in_map. now apply dict_get_In.
Qed.

(** C10: a token exchange updates the parameter map of the instance in
    place: after it, the instance that the registry returns for the same call
    is the same object, its map holds [code], [code_verifier] and
    [grant_type=authorization_code] next to the unchanged authorization
    parameters, it differs from a map that had no [grant_type], and the
    authorization URL opened from the instance, which is built when the
    authorization endpoint parses, carries the three fields in its query. *)
Theorem token_exchange_updates_params
    (urlparse : string -> result ParseResult) (sha256 : list Z -> list Z)
    (requests_post : PostRequest -> result Response)
    (c : call) (p p1 : process) (ref : nat) (t : list event)
    (self : AuthorizationClient) (auth_code : AuthorizationCode) :
  __call__ urlparse sha256 c p = (Ok ref, p1, t) ->
  heap p1 !! ref = Some self ->
  state auth_code = _state self ->
  let p2 :=
    self_of (invoke ref (_request_access_token requests_post auth_code) p1) in
  __call__ urlparse sha256 c p2 = (Ok ref, p2, [])
  /\ exists self',
       heap p2 !! ref = Some self'
       /\ dict_get "code" (_params self') = Some (Some (code auth_code))
       /\ dict_get "code_verifier" (_params self')
          = Some (Some (_code_verifier self))
       /\ dict_get "grant_type" (_params self') = Some (Some "authorization_code")
       /\ (forall k, k <> "code" -> k <> "code_verifier" -> k <> "grant_type" ->
             dict_get k (_params self') = dict_get k (_params self))
       /\ (dict_get "grant_type" (_params self) = None ->
           _params self' <> _params self)
       /\ forall authorize,
            urlparse (_auth_endpoint self) = Ok authorize ->
            exists u,
            trace_of (invoke ref (_request_authorization_code urlparse) p2)
            = [EvOpenNewTab u]
            /\ u_query u = urlencode (_params self')
            /\ occurs_in "grant_type=authorization_code" (u_query u)
            /\ occurs_in ("code=" +:+ quote_plus (code auth_code)) (u_query u)
            /\ occurs_in ("code_verifier=" +:+ quote_plus (_code_verifier self))
                         (u_query u).
Proof.
  intros Hcall Hheap Hstate p2.
  destruct (call_registers _ _ _ _ _ _ _ Hcall) as (key & Hkey & Hreg).
  destruct (invoke_lookup ref (_request_access_token requests_post auth_code)
              p1 self Hheap) as (_ & Hh2 & Hi2).
  fold p2 in Hh2, Hi2.
  destruct (request_access_token_match requests_post self auth_code Hstate)
    as [r Hr].
  rewrite Hr in Hh2. cbn [self_of fst snd] in Hh2.
  destruct (exchange_params_get self auth_code) as (G1 & G2 & G3 & G4).
  split.
  { apply (call_existing _ _ _ _ key); [exact Hkey | now rewrite Hi2]. }
  exists (with_params self (exchange_params self auth_code)).
  cbn [_params with_params].
  split; [exact Hh2|]. split; [exact G1|]. split; [exact G2|].
  split; [exact G3|]. split; [exact G4|]. split.
  { intros Hnone E. rewrite E in G3. congruence. }
  intros authorize Hau.
  destruct (invoke_lookup ref (_request_authorization_code urlparse) p2 _ Hh2)
    as (-> & _ & _).
  rewrite (request_authorization_code_ok urlparse
             (with_params self (exchange_params self auth_code)) authorize Hau).
  cbn [fst snd _params with_params].
  eexists. split; [reflexivity|]. cbn [u_query].
  split; [reflexivity|]. split; [|split].
  - exact (urlencode_occurs _ _ _ G3).
  - exact (urlencode_occurs _ _ _ G1).
  - exact (urlencode_occurs _ _ _ G2).
Qed.

Lemma token_exchange_updates_params_witness :
  let c := MkCall [] [("endpoint", AStr "flyte.example.org");
                      ("auth_endpoint", AStr "https://auth.example.org/authorize");
                      ("token_endpoint", AStr "https://auth.example.org/token")] in
  let p1 := self_of (__call__ example_urlparse example_sha256 c example_process) in
  let self := nth 0 (heap p1) example_client in
  let auth_code := MkAuthorizationCode "XYZ" (_state self) in
  let p2 :=
    self_of (invoke 0 (_request_access_token (fun _ => Ok token_full) auth_code)
               p1) in
  __call__ example_urlparse example_sha256 c p2 = (Ok 0%nat, p2, [])
  /\ exists self',
       heap p2 !! 0%nat = Some self'
       /\ dict_get "code" (_params self') = Some (Some (code auth_code))
       /\ dict_get "code_verifier" (_params self')
          = Some (Some (_code_verifier self))
       /\ dict_get "grant_type" (_params self') = Some (Some "authorization_code")
       /\ (forall k, k <> "code" -> k <> "code_verifier" -> k <> "grant_type" ->
             dict_get k (_params self') = dict_get k (_params self))
       /\ (dict_get "grant_type" (_params self) = None ->
           _params self' <> _params self)
       /\ forall authorize,
            example_urlparse (_auth_endpoint self) = Ok authorize ->
            exists u,
            trace_of (invoke 0 (_request_authorization_code example_urlparse) p2)
            = [EvOpenNewTab u]
            /\ u_query u = urlencode (_params self')
            /\ occurs_in "grant_type=authorization_code" (u_query u)
            /\ occurs_in ("code=" +:+ quote_plus (code auth_code)) (u_query u)
            /\ occurs_in ("code_verifier=" +:+ quote_plus (_code_verifier self))
                         (u_query u).
Proof.
  intros c p1 self auth_code.
  apply (token_exchange_updates_params example_urlparse example_sha256
           (fun _ => Ok token_full) c example_process p1 0 [] self auth_code).
  - vm_compute. reflexivity.
  - vm_compute. reflexivity.
  - reflexivity.
Defined.

(** ** One instance per registry key *)

Section SingletonFacts.

Variable urlparse : string -> result ParseResult.
Variable sha256 : list Z -> list Z.

Local Abbreviation construct := (__call__ urlparse sha256).

Lemma draws_only_lift {A} (r : result A) : draws_only (lift r).
Proof. intros p. exists r, (rng p). now destruct p. Qed.

Lemma draws_only_ret {A} (a : A) : draws_only (mret a).
Proof. intros p. exists (Ok a), (rng p). now destruct p. Qed.

Lemma draws_only_draw {A} (gen : entropy -> A * entropy) :
  draws_only (draw gen).
Proof. intros p. unfold draw. destruct (gen (rng p)) as [a e]. eauto. Qed.

Lemma draws_only_bind {A B} (m : prog process event A)
    (f : A -> prog process event B) :
  draws_only m -> (forall a, draws_only (f a)) -> draws_only (m ≫= f).
Proof.
  intros Hm Hf p. unfold mbind, prog_bind.
  destruct (Hm p) as (r & e & ->). destruct r as [a|x]; [|eauto].
  destruct (Hf a (with_rng p e)) as (r' & e' & ->). eauto.
Qed.

(** [__init__] draws entropy and touches neither the registry nor the
    heap. *)
Lemma init_frame (bound : list (string * arg)) :
  draws_only (__init__ urlparse sha256 bound).
Proof.
  unfold __init__.
  repeat first
    [ apply draws_only_bind; [|intros ?]
    | apply draws_only_lift
    | apply draws_only_draw
    | apply draws_only_ret ].
Qed.

(** A new instance is allocated at the end of the heap. *)
Lemma new_instance_frame (c : call) (p : process) :
  (exists x e, new_instance urlparse sha256 c p = (Raise x, with_rng p e, []))
  \/ (exists self e,
        new_instance urlparse sha256 c p
        = (Ok (length (heap p)),
           with_heap (with_rng p e) (heap p ++ [self]), [])).
Proof.
  unfold new_instance. run.
  destruct (bind_arguments c) as [bound|x];
    [|left; exists x, (rng p); now destruct p].
  destruct (init_frame bound p) as (r & e & ->).
  destruct r as [self|x]; [|left; eauto].
  right. exists self, e. reflexivity.
Qed.

(** [__call__] keeps the registry well formed. *)
Lemma call_keeps_registry_ok (c : call) (p : process) :
  registry_ok p -> registry_ok (self_of (construct c p)).
Proof.
  intros [Hlt Hinj]. unfold __call__. run.
  assert (Hmain : forall (a : result arg),
    registry_ok
      (match (match a with
              | Ok a0 =>
                  match as_str a0 with
                  | Ok key =>
                      match _instances p !! key with
                      | Some ref => (Ok ref, p, [])
                      | None =>
                          match new_instance urlparse sha256 c p with
                          | (Ok ref, s1, t1) =>
                              (Ok ref,
                               with_instances s1 (<[key:=ref]> (_instances s1)),
                               t1)
                          | (Raise e, s1, t1) => (Raise e, s1, t1)
                          end
                      end
                  | Raise e => (Raise e, p, [])
                  end
              | Raise e => (Raise e, p, @nil event)
              end) with (_, s, _) => s end)).
  { intros [a|x]; [|now split].
    destruct (as_str a) as [key|x]; [|now split].
    destruct (_instances p !! key) as [ref|] eqn:Hl; [now split|].
    destruct (new_instance_frame c p) as [(x & e & ->)|(self & e & ->)];
      [now split|].
    split; cbn [_instances heap with_instances with_heap with_rng].
    - intros k r. rewrite length_app. cbn [length].
      destruct (decide (key = k)) as [->|Hne].
      + rewrite lookup_insert_eq. intros [= <-]. lia.
      + rewrite lookup_insert_ne by exact Hne. intros H%Hlt. lia.
    - intros k1 k2 r.
      destruct (decide (key = k1)) as [<-|Hne1];
        destruct (decide (key = k2)) as [<-|Hne2];
        rewrite ?lookup_insert_eq, ?lookup_insert_ne by assumption.
      + reflexivity.
      + intros [= <-] H%Hlt. lia.
      + intros H%Hlt [= <-]. lia.
      + apply Hinj. }
  destruct (args c) as [|a rest].
  - destruct (dict_get "auth_endpoint" (kwargs c)) as [a|].
    + specialize (Hmain (Ok a)). cbv beta iota in Hmain.
      destruct (as_str a); [|exact Hmain].
      destruct (_instances p !! a0); [exact Hmain|].
      now destruct (new_instance urlparse sha256 c p) as [[[ref1|x] s1] t1].
    + now split.
  - specialize (Hmain (Ok a)). cbv beta iota in Hmain.
    destruct (as_str a); [|exact Hmain].
    destruct (_instances p !! a0); [exact Hmain|].
    now destruct (new_instance urlparse sha256 c p) as [[[ref1|x] s1] t1].
Qed.

(** [__call__] never removes or changes an entry of the registry. *)
Lemma call_extends_registry (c : call) (p : process) (k : string) (r : nat) :
  _instances p !! k = Some r ->
  _instances (self_of (construct c p)) !! k = Some r.
Proof.
  intros Hk. unfold __call__. run.
  assert (Hmain : forall a : arg,
    _instances
      (match (match as_str a with
              | Ok key =>
                  match _instances p !! key with
                  | Some ref => (Ok ref, p, [])
                  | None =>
                      match new_instance urlparse sha256 c p with
                      | (Ok ref, s1, t1) =>
                          (Ok ref,
                           with_instances s1 (<[key:=ref]> (_instances s1)),
                           t1)
                      | (Raise e, s1, t1) => (Raise e, s1, t1)
                      end
                  end
              | Raise e => (Raise e, p, @nil event)
              end) with (_, s, _) => s end) !! k = Some r).
  { intros a. destruct (as_str a) as [key|x]; [|exact Hk].
    destruct (_instances p !! key) as [ref|] eqn:Hl; [exact Hk|].
    destruct (new_instance_frame c p) as [(x & e & ->)|(self & e & ->)];
      [exact Hk|].
    cbn [_instances heap with_instances with_heap with_rng].
    rewrite lookup_insert_ne; [exact Hk | congruence]. }
  destruct (args c) as [|a rest].
  - destruct (dict_get "auth_endpoint" (kwargs c)) as [a|]; [|exact Hk].
    specialize (Hmain a).
    destruct (as_str a); [|exact Hmain].
    destruct (_instances p !! a0); [exact Hmain|].
    now destruct (new_instance urlparse sha256 c p) as [[[ref1|x] s1] t1].
  - specialize (Hmain a).
    destruct (as_str a); [|exact Hmain].
    destruct (_instances p !! a0); [exact Hmain|].
    now destruct (new_instance urlparse sha256 c p) as [[[ref1|x] s1] t1].
Qed.

(** What the metaclass guarantees: two calls return the identical instance
    exactly when their registry keys are equal. *)
Lemma same_instance_iff_same_key (c1 c2 : call) (p p1 p2 : process)
    (r1 r2 : nat) (t1 t2 : list event) :
  registry_ok p ->
  construct c1 p = (Ok r1, p1, t1) ->
  construct c2 p1 = (Ok r2, p2, t2) ->
  r1 = r2 <-> call_key c1 = call_key c2.
Proof.
  intros Hok H1 H2.
  pose proof (call_keeps_registry_ok c1 p Hok) as Hok1.
  rewrite H1 in Hok1. cbn [self_of fst snd] in Hok1.
  pose proof (call_keeps_registry_ok c2 p1 Hok1) as Hok2.
  rewrite H2 in Hok2. cbn [self_of fst snd] in Hok2.
  destruct (call_registers _ _ _ _ _ _ _ H1) as (k1 & Hk1 & Hr1).
  destruct (call_registers _ _ _ _ _ _ _ H2) as (k2 & Hk2 & Hr2).
  pose proof (call_extends_registry c2 p1 k1 r1 Hr1) as Hr1'.
  rewrite H2 in Hr1'. cbn [self_of fst snd] in Hr1'.
  rewrite Hk1, Hk2. split.
  - intros <-. f_equal. exact (proj2 Hok2 _ _ _ Hr1' Hr2).
  - intros [= <-]. congruence.
Qed.

End SingletonFacts.

(** With keyword arguments only, the key is the [auth_endpoint]. *)
Lemma keyword_call_key (kw : list (string * arg)) (a : string) :
  dict_get "auth_endpoint" kw = Some (AStr a) ->
  call_key (MkCall [] kw) = Ok a.
Proof. unfold call_key. cbn [args kwargs]. now intros ->. Qed.

(** With positional arguments, the key is the first of them, which
    [__init__] binds to [endpoint]; the [auth_endpoint] plays no part. *)
Lemma positional_call_key (e : string) (rest : list arg)
    (kw : list (string * arg)) :
  call_key (MkCall (AStr e :: rest) kw) = Ok e.
Proof. reflexivity. Qed.

Lemma positional_calls_share_by_endpoint
    (urlparse : string -> result ParseResult) (sha256 : list Z -> list Z)
    (e1 e2 : string) (rest1 rest2 : list arg) (kw1 kw2 : list (string * arg))
    (p p1 p2 : process) (r1 r2 : nat) (t1 t2 : list event) :
  registry_ok p ->
  __call__ urlparse sha256 (MkCall (AStr e1 :: rest1) kw1) p = (Ok r1, p1, t1) ->
  __call__ urlparse sha256 (MkCall (AStr e2 :: rest2) kw2) p1 = (Ok r2, p2, t2) ->
  r1 = r2 <-> e1 = e2.
Proof.
  intros Hok H1 H2.
  rewrite (same_instance_iff_same_key _ _ _ _ _ _ _ _ _ _ _ Hok H1 H2).
  rewrite !positional_call_key. split; congruence.
Qed.

(** X19: with keyword arguments only, two constructions return the
    identical instance exactly when their [auth_endpoint]s are equal
    (starting from a well-formed registry). *)
Lemma keyword_calls_share_by_auth_endpoint
    (urlparse : string -> result ParseResult) (sha256 : list Z -> list Z)
    (a1 a2 : string) (kw1 kw2 : list (string * arg))
    (p p1 p2 : process) (r1 r2 : nat) (t1 t2 : list event) :
  registry_ok p ->
  dict_get "auth_endpoint" kw1 = Some (AStr a1) ->
  dict_get "auth_endpoint" kw2 = Some (AStr a2) ->
  __call__ urlparse sha256 (MkCall [] kw1) p = (Ok r1, p1, t1) ->
  __call__ urlparse sha256 (MkCall [] kw2) p1 = (Ok r2, p2, t2) ->
  r1 = r2 <-> a1 = a2.
Proof.
  intros Hok Ha1 Ha2 H1 H2.
  rewrite (same_instance_iff_same_key _ _ _ _ _ _ _ _ _ _ _ Hok H1 H2).
  rewrite (keyword_call_key _ _ Ha1), (keyword_call_key _ _ Ha2).
  split; congruence.
Qed.

(** C2: with positional arguments the registry is keyed by the first
    argument, [endpoint]: two constructions with one [endpoint] and different
    [auth_endpoint]s return the same instance (which keeps the first
    [auth_endpoint]), and two constructions with one [auth_endpoint] and
    different [endpoint]s return two instances; with keyword arguments the
    registry is keyed by [auth_endpoint]. *)
Theorem positional_construction_keyed_by_endpoint :
  let construct := __call__ example_urlparse example_sha256 in
  let token := AStr "https://auth.example.org/token" in
  let auth := "https://auth.example.org/authorize" in
  let login := "https://login.example.org/authorize" in
  let c1 := MkCall [AStr "flyte.example.org"; AStr auth; token] [] in
  let c2 := MkCall [AStr "flyte.example.org"; AStr login; token] [] in
  let c3 := MkCall [AStr "other.example.org"; AStr auth; token] [] in
  let r1 := construct c1 example_process in
  let r2 := construct c2 (self_of r1) in
  let r3 := construct c3 (self_of r2) in
  let k1 := MkCall [] [("endpoint", AStr "flyte.example.org");
                       ("auth_endpoint", AStr auth);
                       ("token_endpoint", token)] in
  let k2 := MkCall [] [("endpoint", AStr "other.example.org");
                       ("auth_endpoint", AStr auth);
                       ("token_endpoint", token)] in
  let s1 := construct k1 example_process in
  let s2 := construct k2 (self_of s1) in
  (outcome_of r1 = Ok 0%nat /\ outcome_of r2 = Ok 0%nat
   /\ _auth_endpoint <$> heap (self_of r2) !! 0%nat = Some auth
   /\ length (heap (self_of r2)) = 1%nat)
  /\ (outcome_of r3 = Ok 1%nat
      /\ _auth_endpoint <$> heap (self_of r3) !! 0%nat = Some auth
      /\ _auth_endpoint <$> heap (self_of r3) !! 1%nat = Some auth)
  /\ (outcome_of s1 = Ok 0%nat /\ outcome_of s2 = Ok 0%nat).
Proof. vm_compute. repeat split. Qed.

(** * Further properties *)

(** ** PKCE generator: shape of the generated values *)

Lemma b64_digit_urlsafe (i : Z) : 0 <= i < 64 -> urlsafe (b64_digit i) = true.
Proof.
  intros Hi. unfold b64_digit.
  assert (Hn : (Z.to_nat i < 64)%nat) by lia.
  revert Hn. generalize (Z.to_nat i). intros n Hn.
  do 64 (destruct n as [|n]; [reflexivity|]). lia.
Qed.

(** The encoder writes digits of the alphabet and padding, nothing else. *)
Lemma b64encode_chars (bs : list Z) :
  forallb (fun c => urlsafe c || Ascii.eqb c "="%char) (urlsafe_b64encode bs)
  = true.
Proof.
  induction bs as [|a|a b|a b c l IH] using list_ind3.
  - reflexivity.
  - cbn [urlsafe_b64encode forallb].
    rewrite !b64_digit_urlsafe by apply six_bits. reflexivity.
  - cbn [urlsafe_b64encode forallb].
    rewrite !b64_digit_urlsafe by apply six_bits. reflexivity.
  - cbn [urlsafe_b64encode forallb].
    rewrite !b64_digit_urlsafe by apply six_bits. exact IH.
Qed.

(** What a class without the padding character keeps of an encoding is
    made of digits of the alphabet. *)
Lemma cleaned_urlsafe (class : ascii -> bool) (bs : list Z) :
  class "="%char = false ->
  all_chars urlsafe (re_sub_outside class (urlsafe_b64encode bs)) = true.
Proof.
  intros Hp. unfold all_chars, re_sub_outside.
  rewrite chars_of_string_of_chars.
  pose proof (b64encode_chars bs) as H. revert H.
  generalize (urlsafe_b64encode bs). intros l.
  induction l as [|c l IH]; [reflexivity|].
  cbn [forallb List.filter]. intros [Hc Hl]%andb_prop.
  destruct (class c) eqn:E; [|now apply IH].
  cbn [forallb]. rewrite (IH Hl), andb_true_r.
  destruct (urlsafe c); [reflexivity|].
  cbn in Hc. apply Ascii.eqb_eq in Hc. congruence.
Qed.

Lemma cleaned_in_class (class : ascii -> bool) (l : list ascii) :
  all_chars class (re_sub_outside class l) = true.
Proof.
  unfold all_chars, re_sub_outside. rewrite chars_of_string_of_chars.
  induction l as [|c l IH]; [reflexivity|].
  cbn [List.filter]. destruct (class c) eqn:E; [|exact IH].
  cbn [forallb]. now rewrite E, IH.
Qed.

(** X1: [_generate_code_verifier] never raises: it consumes 64 octets of
    entropy and returns a verifier of exactly 86 characters, all of them
    digits of the url-safe alphabet and in the verifier's character class. *)
Theorem code_verifier_always_86 (e : entropy) :
  _generate_code_verifier e
  = (Ok (cleaned_verifier e), (urandom _code_verifier_length e).2)
  /\ len (cleaned_verifier e) = 86
  /\ all_chars urlsafe (cleaned_verifier e) = true
  /\ all_chars verifier_char (cleaned_verifier e) = true
  /\ drawn (_generate_code_verifier e).2 = (drawn e + 64)%nat.
Proof.
  split; [apply generate_code_verifier_succeeds|].
  split; [apply cleaned_verifier_len|].
  split; [now apply cleaned_urlsafe|].
  split; [apply cleaned_in_class|].
  now rewrite generate_code_verifier_succeeds.
Qed.

Lemma generate_state_parameter_unfold (e : entropy) :
  _generate_state_parameter e
  = (cleaned_state e, (urandom _random_seed_length e).2).
Proof.
  unfold _generate_state_parameter.
  generalize (urandom _random_seed_length e). now intros [bs e'].
Qed.

Lemma state_parameter_always_54_aux (e : entropy) :
  len (cleaned_state e) = 54 /\ all_chars urlsafe (cleaned_state e) = true.
Proof.
  split; [|now apply cleaned_urlsafe].
  unfold len, re_sub_outside.
  rewrite length_string_of_chars, b64_filter_length.
  - now rewrite urandom_length.
  - intros i Hi. now apply b64_digit_classes.
  - reflexivity.
Qed.

(** X2: [_generate_state_parameter] consumes 40 octets of entropy and returns
    a state of exactly 54 characters, all of them digits of the url-safe
    alphabet. *)
Theorem state_parameter_always_54 (e : entropy) :
  _generate_state_parameter e
  = (cleaned_state e, (urandom _random_seed_length e).2)
  /\ len (cleaned_state e) = 54
  /\ all_chars urlsafe (cleaned_state e) = true
  /\ drawn (_generate_state_parameter e).2 = (drawn e + 40)%nat.
Proof.
  split; [apply generate_state_parameter_unfold|]. split.
  { unfold len, re_sub_outside.
    rewrite length_string_of_chars, b64_filter_length.
    - now rewrite urandom_length.
    - intros i Hi. now apply b64_digit_classes.
    - reflexivity. }
  split; [now apply cleaned_urlsafe|].
  now rewrite generate_state_parameter_unfold.
Qed.

Lemma code_challenge_chars (sha256 : list Z -> list Z) (code_verifier : string) :
  all_chars urlsafe (_create_code_challenge sha256 code_verifier) = true
  /\ all_chars (fun c => negb (Ascii.eqb c "="%char))
       (_create_code_challenge sha256 code_verifier) = true.
Proof.
  unfold _create_code_challenge, remove_char.
  rewrite chars_of_string_of_chars.
  generalize (sha256 (map (fun c => Z.of_nat (nat_of_ascii c))
                          (chars_of_string code_verifier))).
  intros digest.
  change (string_of_chars
            (List.filter (fun x => negb (Ascii.eqb x "="%char))
               (urlsafe_b64encode digest)))
    with (re_sub_outside (fun x => negb (Ascii.eqb x "="%char))
            (urlsafe_b64encode digest)).
  split; [now apply cleaned_urlsafe|].
  apply (cleaned_in_class (fun x => negb (Ascii.eqb x "="%char))).
Qed.

(** X3: the code challenge has no padding and consists of digits of the
    url-safe alphabet, whatever the digest; for a digest of 32 octets it has
    43 characters. *)
Theorem code_challenge_shape (sha256 : list Z -> list Z) (code_verifier : string) :
  let challenge := _create_code_challenge sha256 code_verifier in
  all_chars urlsafe challenge = true
  /\ all_chars (fun c => negb (Ascii.eqb c "="%char)) challenge = true
  /\ (length (sha256 (map (fun c => Z.of_nat (nat_of_ascii c))
                          (chars_of_string code_verifier))) = 32%nat ->
      len challenge = 43).
Proof.
  cbv zeta. unfold _create_code_challenge, remove_char.
  rewrite chars_of_string_of_chars.
  generalize (sha256 (map (fun c => Z.of_nat (nat_of_ascii c))
                          (chars_of_string code_verifier))).
  intros digest.
  change (string_of_chars
            (List.filter (fun x => negb (Ascii.eqb x "="%char))
               (urlsafe_b64encode digest)))
    with (re_sub_outside (fun x => negb (Ascii.eqb x "="%char))
            (urlsafe_b64encode digest)).
  split; [now apply cleaned_urlsafe|].
  split; [apply (cleaned_in_class (fun x => negb (Ascii.eqb x "="%char)))|].
  intros Hlen. unfold len, re_sub_outside.
  rewrite length_string_of_chars, b64_filter_length.
  - now rewrite Hlen.
  - intros i Hi. unfold b64_digit.
    assert (Hn : (Z.to_nat i < 64)%nat) by lia.
    revert Hn. generalize (Z.to_nat i). intros n Hn.
    do 64 (destruct n as [|n]; [reflexivity|]). lia.
  - reflexivity.
Qed.

Lemma code_challenge_shape_witness :
  len (_create_code_challenge example_sha256 "V") = 43.
Proof.
  apply (code_challenge_shape example_sha256 "V"). reflexivity.
Defined.

(** ** Callback listener: the answers it writes *)

(** X4: a callback on the redirect path that carries [code] and [state] is
    answered 200 with the HTML content type; the authorization code is put on
    the queue and the server closed before the page is written; the default
    page is written when no success page is supplied, and when one is
    supplied no body is written at all. *)
Theorem callback_response_sequence
    (urlparse : string -> result ParseResult)
    (parse_qsl : string -> list (string * string))
    (get_default_success_html : option string -> string)
    (srv : OAuthHTTPServer) (req : http_request) (callback : ParseResult)
    (q : list AuthorizationCode) (c s : string) :
  command req = "GET" ->
  urlparse (target req) = Ok callback ->
  path_matches urlparse srv req = true ->
  getitem (dict_of_pairs (parse_qsl (query callback))) "code" = Ok c ->
  getitem (dict_of_pairs (parse_qsl (query callback))) "state" = Ok s ->
  _queue srv = Some q ->
  serve_request urlparse parse_qsl get_default_success_html req srv
  = (Ok tt,
     with_closed (with_queue srv (Some (q ++ [MkAuthorizationCode c s]))) true,
     [SendResponse 200; SendHeader "Content-type" "text/html"; EndHeaders;
      QueuePut (MkAuthorizationCode c s); ServerClose]
     ++ match success_html (_remote_metadata srv) with
        | None =>
            [WfileWrite
               (get_default_success_html (endpoint (_remote_metadata srv)))]
        | Some _ => []
        end
     ++ [WfileFlush]).
Proof.
  intros Hc Hu Hp Hcode Hstate Hq.
  rewrite (path_matches_parsed _ _ _ _ Hu) in Hp.
  unfold serve_request, handle_one_request, do_GET, handle_login,
    handle_authorization_code. run.
  rewrite Hc. cbn [String.eqb Ascii.eqb Bool.eqb].
  rewrite Hu. cbv beta iota. rewrite Hp, Hcode, Hstate, Hq.
  cbn [with_closed with_queue _remote_metadata].
  destruct (success_html (_remote_metadata srv)); reflexivity.
Qed.

Lemma callback_response_sequence_witness :
  serve_request example_urlparse example_parse_qsl example_html
    (GET "/callback?code=XYZ&state=S1") (with_queue example_server (Some []))
  = (Ok tt,
     with_closed (with_queue (with_queue example_server (Some []))
                    (Some ([] ++ [MkAuthorizationCode "XYZ" "S1"]))) true,
     [SendResponse 200; SendHeader "Content-type" "text/html"; EndHeaders;
      QueuePut (MkAuthorizationCode "XYZ" "S1"); ServerClose]
     ++ match success_html (_remote_metadata
                              (with_queue example_server (Some []))) with
        | None =>
            [WfileWrite
               (example_html
                  (endpoint (_remote_metadata
                               (with_queue example_server (Some [])))))]
        | Some _ => []
        end
     ++ [WfileFlush]).
Proof.
  apply (callback_response_sequence example_urlparse example_parse_qsl
           example_html (with_queue example_server (Some []))
           (GET "/callback?code=XYZ&state=S1")
           (MkParseResult "" "" "/callback" "code=XYZ&state=S1" None (Ok None))
           [] "XYZ" "S1"); reflexivity.
Defined.

(** X5: a callback on the redirect path whose query lacks [code], or has
    [code] and lacks [state], is answered 200 all the same; the [KeyError] of
    the lookup goes to [handle_error], nothing is put on the queue, the server
    stays open, no page is written, and the listener has returned. *)
Theorem callback_without_code_or_state
    (urlparse : string -> result ParseResult)
    (parse_qsl : string -> list (string * string))
    (get_default_success_html : option string -> string)
    (srv : OAuthHTTPServer) (q : list AuthorizationCode)
    (req : http_request) (callback : ParseResult) (rest : list http_request)
    (key : string) :
  command req = "GET" ->
  urlparse (target req) = Ok callback ->
  path_matches urlparse srv req = true ->
  (getitem (dict_of_pairs (parse_qsl (query callback))) "code"
   = Raise (KeyError key)
   \/ (exists c,
         getitem (dict_of_pairs (parse_qsl (query callback))) "code" = Ok c)
      /\ getitem (dict_of_pairs (parse_qsl (query callback))) "state"
         = Raise (KeyError key)) ->
  let l := run_listener urlparse parse_qsl get_default_success_html
             (listener_start srv q) (req :: rest) in
  l_log l = [SendResponse 200; SendHeader "Content-type" "text/html";
             EndHeaders; HandleError (KeyError key)]
  /\ queue_content (l_server l) = q
  /\ closed (l_server l) = closed srv
  /\ l_phase l = Returned.
Proof.
  intros Hc Hu Hp Hmiss l. subst l. rewrite listening_first.
  rewrite (path_matches_parsed _ _ _ _ Hu) in Hp.
  assert (Hp' : String.eqb (py_strip "/" (path callback))
                  (py_strip "/" (_redirect_path (with_queue srv (Some q))))
                = true) by exact Hp.
  assert (E : serve_request urlparse parse_qsl get_default_success_html req
                (with_queue srv (Some q))
              = (Ok tt, with_queue srv (Some q),
                 [SendResponse 200; SendHeader "Content-type" "text/html";
                  EndHeaders; HandleError (KeyError key)])).
  { unfold serve_request, handle_one_request, do_GET, handle_login. run.
    rewrite Hc. cbn [String.eqb Ascii.eqb Bool.eqb].
    rewrite Hu. cbv beta iota. rewrite Hp'.
    destruct Hmiss as [->|[[c ->] ->]]; reflexivity. }
  rewrite E. now repeat split.
Qed.

Lemma callback_without_code_or_state_witness :
  let l := run_listener example_urlparse example_parse_qsl example_html
             (listener_start example_server []) [GET "/callback"] in
  l_log l = [SendResponse 200; SendHeader "Content-type" "text/html";
             EndHeaders; HandleError (KeyError "code")]
  /\ queue_content (l_server l) = []
  /\ closed (l_server l) = closed example_server
  /\ l_phase l = Returned.
Proof.
  apply (callback_without_code_or_state example_urlparse example_parse_qsl
           example_html example_server [] (GET "/callback")
           (MkParseResult "" "" "/callback" "" None (Ok None)) [] "code");
    try reflexivity. now left.
Defined.

(** ** Path matching *)

Lemma lstrip_chars_snoc (set : string) (l : list ascii) (c : ascii) :
  char_in c set = true ->
  lstrip_chars set (rev (lstrip_chars set (l ++ [c])))
  = lstrip_chars set (rev (lstrip_chars set l)).
Proof.
  intros Hc. induction l as [|a l IH].
  - cbn. now rewrite Hc.
  - cbn [app lstrip_chars]. destruct (char_in a set); [exact IH|].
    change (a :: l ++ [c]) with ((a :: l) ++ [c]).
    rewrite rev_app_distr. cbn [rev app lstrip_chars]. now rewrite Hc.
Qed.

Lemma chars_of_string_append (a b : string) :
  chars_of_string (a +:+ b) = chars_of_string a ++ chars_of_string b.
Proof.
  induction a as [|x a IH]; [reflexivity|].
  change (x :: chars_of_string (a +:+ b)
          = x :: (chars_of_string a ++ chars_of_string b)).
  now rewrite IH.
Qed.

(** X6: [strip("/")] makes the comparison of [do_GET] blind to slashes
    around the path: a request path with one more slash in front or behind
    matches exactly when the path itself does, and so does a redirect path
    with one more slash. *)
Theorem path_match_ignores_outer_slashes
    (urlparse : string -> result ParseResult)
    (srv : OAuthHTTPServer) (req req' : http_request) (u u' : ParseResult) :
  urlparse (target req) = Ok u ->
  urlparse (target req') = Ok u' ->
  (path u' = "/" +:+ path u \/ path u' = path u +:+ "/") ->
  path_matches urlparse srv req' = path_matches urlparse srv req
  /\ path_matches urlparse
       {| _redirect_path := "/" +:+ _redirect_path srv;
          _remote_metadata := _remote_metadata srv;
          _queue := _queue srv; closed := closed srv |} req
     = path_matches urlparse srv req
  /\ path_matches urlparse
       {| _redirect_path := _redirect_path srv +:+ "/";
          _remote_metadata := _remote_metadata srv;
          _queue := _queue srv; closed := closed srv |} req
     = path_matches urlparse srv req.
Proof.
  assert (Hfront : forall s, py_strip "/" ("/" +:+ s) = py_strip "/" s)
    by reflexivity.
  assert (Hback : forall s, py_strip "/" (s +:+ "/") = py_strip "/" s).
  { intros s. unfold py_strip. rewrite chars_of_string_append.
    cbn [chars_of_string]. now rewrite lstrip_chars_snoc. }
  intros Hu Hu' H. unfold path_matches. rewrite Hu, Hu'. cbn [_redirect_path].
  rewrite Hfront, Hback. split; [|now split].
  destruct H as [-> | ->]; now rewrite ?Hfront, ?Hback.
Qed.

Lemma path_match_ignores_outer_slashes_witness :
  path_matches example_urlparse example_server (GET "/callback/")
  = path_matches example_urlparse example_server (GET "/callback").
Proof.
  apply (path_match_ignores_outer_slashes example_urlparse example_server
           (GET "/callback") (GET "/callback/")
           (MkParseResult "" "" "/callback" "" None (Ok None))
           (MkParseResult "" "" "/callback/" "" None (Ok None)));
    [reflexivity | reflexivity | right; reflexivity].
Defined.

(** ** Token exchanger: failures and results *)

(** X7: when the token endpoint answers the code exchange with a status
    other than 200, or the transport raises, [_request_access_token] raises
    (the bare exception with status and content, or the transport's own),
    after exactly one POST, and the grant fields it wrote into the parameter
    map stay on the instance. *)
Theorem exchange_failure_keeps_update
    (post : PostRequest -> result Response)
    (self : AuthorizationClient) (auth_code : AuthorizationCode) (x : exn) :
  state auth_code = _state self ->
  (post (exchange_request self auth_code) = Raise x
   \/ exists resp, post (exchange_request self auth_code) = Ok resp
                   /\ status_code resp <> 200
                   /\ x = Exception_ (status_code resp) (content resp)) ->
  _request_access_token post auth_code self
  = (Raise x, with_params self (exchange_params self auth_code),
     [EvPost (exchange_request self auth_code)]).
Proof.
  intros Hst Hfail. unfold _request_access_token. run.
  rewrite Hst, String.eqb_refl. cbn [negb].
  fold (exchange_params self auth_code).
  change {| url := _token_endpoint _; data := _; headers := _;
            allow_redirects := _; verify := _ |}
    with (exchange_request self auth_code).
  destruct Hfail as [->|(resp & -> & Hs & ->)]; [reflexivity|].
  apply Z.eqb_neq in Hs. now rewrite Hs.
Qed.

Lemma exchange_failure_keeps_update_witness :
  _request_access_token (fun _ => Ok (MkResponse 404 "not found" (Raise JSONDecodeError)))
    (MkAuthorizationCode "XYZ" "S1") example_client
  = (Raise (Exception_ 404 "not found"),
     with_params example_client
       (exchange_params example_client (MkAuthorizationCode "XYZ" "S1")),
     [EvPost (exchange_request example_client (MkAuthorizationCode "XYZ" "S1"))]).
Proof.
  apply (exchange_failure_keeps_update
           (fun _ => Ok (MkResponse 404 "not found" (Raise JSONDecodeError)))
           example_client (MkAuthorizationCode "XYZ" "S1")
           (Exception_ 404 "not found")); [reflexivity|].
  right. eexists. split; [reflexivity|]. split; [discriminate|reflexivity].
Defined.

(** X8: [refresh_access_token] never changes the instance it is called on
    and issues at most one POST, the refresh request; a status other than 200
    raises [AccessTokenNotFoundError] with that status, without the body
    being parsed. *)
Theorem refresh_leaves_instance
    (post : PostRequest -> result Response)
    (self : AuthorizationClient) (credentials : Credentials) :
  self_of (refresh_access_token post credentials self) = self
  /\ (trace_of (refresh_access_token post credentials self) = []
      \/ trace_of (refresh_access_token post credentials self)
         = [EvPost (refresh_request self credentials)])
  /\ (forall resp,
        refresh_token credentials <> VNone ->
        post (refresh_request self credentials) = Ok resp ->
        status_code resp <> 200 ->
        outcome_of (refresh_access_token post credentials self)
        = Raise (AccessTokenNotFoundError (status_code resp))).
Proof.
  unfold refresh_access_token. run.
  fold (refresh_request self credentials).
  destruct (refresh_token credentials) eqn:E;
    [repeat split; [now left | congruence]| | | | |];
    (destruct (post (refresh_request self credentials)) as [resp|x] eqn:P;
     [ destruct (status_code resp =? 200) eqn:S; cbn [negb];
       [ destruct (credentials_from_response_pure resp self) as [r ->];
         cbn [fst snd app];
         split; [reflexivity|]; split; [now right|];
         intros resp' _ [= <-] Hs; apply Z.eqb_eq in S; contradiction
       | cbn [fst snd app];
         split; [reflexivity|]; split; [now right|];
         intros resp' _ [= <-] _; reflexivity ]
     | cbn [fst snd app];
       split; [reflexivity|]; split; [now right|];
       intros resp' _ [=] ]).
Qed.

Lemma refresh_leaves_instance_witness :
  outcome_of (refresh_access_token
                (fun _ => Ok (MkResponse 401 "" (Raise JSONDecodeError)))
                (MkCredentials (VStr "tok") (VStr "ref") "flyte.example.org"
                               (VInt 3600)) example_client)
  = Raise (AccessTokenNotFoundError 401).
Proof.
  apply (proj2 (proj2 (refresh_leaves_instance
                  (fun _ => Ok (MkResponse 401 "" (Raise JSONDecodeError)))
                  example_client
                  (MkCredentials (VStr "tok") (VStr "ref") "flyte.example.org"
                                 (VInt 3600))))
           (MkResponse 401 "" (Raise JSONDecodeError)));
    [discriminate | reflexivity | discriminate].
Defined.

(** X9: a successful refresh returns credentials made of the response alone:
    the access token and lifetime of the body, the instance's endpoint, and
    the body's refresh token.  When the body has no [refresh_token], the new
    credentials have none: the token that was used is not carried over. *)
Theorem refresh_result_from_response
    (post : PostRequest -> result Response)
    (self : AuthorizationClient) (credentials : Credentials)
    (resp : Response) (d : list (string * value)) (a x : value) :
  refresh_token credentials <> VNone ->
  post (refresh_request self credentials) = Ok resp ->
  status_code resp = 200 ->
  json resp = Ok (VDict d) ->
  last_member "access_token" d = Some a ->
  last_member "expires_in" d = Some x ->
  refresh_access_token post credentials self
  = (Ok {| access_token := a;
           refresh_token := default VNone (last_member "refresh_token" d);
           for_endpoint := _endpoint self;
           expires_in := x |},
     self, [EvPost (refresh_request self credentials)])
  /\ (has_key "refresh_token" d = false ->
      exists creds,
        outcome_of (refresh_access_token post credentials self) = Ok creds
        /\ outcome_of (refresh_access_token post creds self)
           = Raise NoRefreshToken).
Proof.
  intros Hr Hp Hs Hj Ha Hx.
  assert (E : refresh_access_token post credentials self
              = (Ok {| access_token := a;
                       refresh_token :=
                         default VNone (last_member "refresh_token" d);
                       for_endpoint := _endpoint self;
                       expires_in := x |},
                 self, [EvPost (refresh_request self credentials)])).
  { unfold refresh_access_token. run.
    fold (refresh_request self credentials).
    destruct (refresh_token credentials) eqn:E; try congruence;
      rewrite Hp, Hs; cbn [Z.eqb Pos.eqb negb];
      now rewrite (credentials_from_response_with_expires_in
                     self resp d a x Hj Ha Hx). }
  split; [exact E|]. intros Hno. eexists. rewrite E. split; [reflexivity|].
  rewrite (last_member_no_key _ _ Hno). cbn [default].
  unfold refresh_access_token. run. reflexivity.
Qed.

Lemma refresh_result_from_response_witness :
  refresh_access_token (fun _ => Ok token_full)
    (MkCredentials (VStr "old") (VStr "ref0") "flyte.example.org" (VInt 1))
    example_client
  = (Ok {| access_token := VStr "tok";
           refresh_token :=
             default VNone
               (last_member "refresh_token"
                  [("access_token", VStr "tok"); ("refresh_token", VStr "ref");
                   ("expires_in", VInt 3600)]);
           for_endpoint := _endpoint example_client;
           expires_in := VInt 3600 |},
     example_client,
     [EvPost (refresh_request example_client
                (MkCredentials (VStr "old") (VStr "ref0") "flyte.example.org"
                               (VInt 1)))]).
Proof.
  apply (proj1 (refresh_result_from_response (fun _ => Ok token_full)
                  example_client
                  (MkCredentials (VStr "old") (VStr "ref0")
                                 "flyte.example.org" (VInt 1))
                  token_full
                  [("access_token", VStr "tok"); ("refresh_token", VStr "ref");
                   ("expires_in", VInt 3600)]
                  (VStr "tok") (VInt 3600)
                  ltac:(discriminate) eq_refl eq_refl eq_refl eq_refl eq_refl)).
Defined.

Lemma credentials_need_access_token_witness :
  exists d, json token_full = Ok (VDict d)
            /\ last_member "access_token" d
               = Some (access_token
                         (MkCredentials (VStr "tok") (VStr "ref")
                            "flyte.example.org" (VInt 3600))).
Proof.
  apply (credentials_need_access_token token_full example_client
           (MkCredentials (VStr "tok") (VStr "ref") "flyte.example.org"
                          (VInt 3600))).
  reflexivity.
Defined.

(** ** The parameter map over repeated exchanges *)

Lemma dict_set_same {V} (k : string) (v : V) (d : list (string * V)) :
  dict_get k d = Some v -> dict_set k v d = d.
Proof.
  induction d as [|[k' v'] d IH]; simpl; [discriminate|].
  destruct (String.eqb k k') eqn:E.
  - apply String.eqb_eq in E. intros [= ->]. now subst.
  - intros H. now rewrite (IH H).
Qed.

Lemma dict_keys_set_present {V} (k : string) (v : V) (d : list (string * V)) :
  has_key k d = true -> dict_keys (dict_set k v d) = dict_keys d.
Proof.
  unfold has_key, dict_keys.
  induction d as [|[k' v'] d IH]; simpl; [discriminate|].
  destruct (String.eqb k k') eqn:E; simpl.
  - apply String.eqb_eq in E. now subst.
  - intros H. now rewrite (IH H).
Qed.

Lemma dict_get_has_key {V} (k : string) (v : V) (d : list (string * V)) :
  dict_get k d = Some v -> has_key k d = true.
Proof.
  unfold has_key, dict_keys.
  induction d as [|[k' v'] d IH]; simpl; [discriminate|].
  destruct (String.eqb k k'); [reflexivity|]. exact IH.
Qed.

Lemma dict_set_length {V} (k : string) (v : V) (d : list (string * V)) :
  (length d <= length (dict_set k v d) <= S (length d))%nat.
Proof.
  induction d as [|[k' v'] d IH]; simpl; [lia|].
  destruct (String.eqb k k'); simpl; lia.
Qed.

(** A second update of the parameter map rewrites [code] only: the other
    two fields are there already, with the values it writes. *)
Lemma exchange_params_again (self : AuthorizationClient)
    (auth_code auth_code' : AuthorizationCode) :
  exchange_params (with_params self (exchange_params self auth_code)) auth_code'
  = dict_set "code" (Some (code auth_code')) (exchange_params self auth_code).
Proof.
  destruct (exchange_params_get self auth_code) as (_ & G2 & G3 & _).
  unfold exchange_params at 1. cbn [_params with_params _code_verifier].
  rewrite dict_update_three.
  rewrite (dict_set_same "code_verifier")
    by (rewrite dict_get_set_ne by discriminate; exact G2).
  rewrite (dict_set_same "grant_type")
    by (rewrite dict_get_set_ne by discriminate; exact G3).
  reflexivity.
Qed.

(** X11: token exchanges do not pile up parameters.  After a first
    [_request_access_token] the map of the instance has at most three
    entries more than before and every key but the three grant fields has
    the value it had; a second [_request_access_token] on the instance posts
    the map with the new code, keeps the keys in place, replaces the value
    of [code] and leaves the value of every other key unchanged; with the
    same code it leaves the map as it is. *)
Theorem repeated_exchange_stable
    (post post' : PostRequest -> result Response)
    (self : AuthorizationClient) (auth_code auth_code' : AuthorizationCode) :
  state auth_code = _state self ->
  state auth_code' = _state self ->
  let self1 := self_of (_request_access_token post auth_code self) in
  let second := _request_access_token post' auth_code' self1 in
  let self2 := self_of second in
  (length (_params self) <= length (_params self1)
   <= length (_params self) + 3)%nat
  /\ (forall k, k <> "code" -> k <> "code_verifier" -> k <> "grant_type" ->
        dict_get k (_params self1) = dict_get k (_params self))
  /\ trace_of second = [EvPost (exchange_request self1 auth_code')]
  /\ data (exchange_request self1 auth_code')
     = map (fun kv => (fst kv, of_opt (snd kv))) (_params self2)
  /\ _params self2 = dict_set "code" (Some (code auth_code')) (_params self1)
  /\ dict_keys (_params self2) = dict_keys (_params self1)
  /\ dict_get "code" (_params self2) = Some (Some (code auth_code'))
  /\ (forall k, k <> "code" ->
        dict_get k (_params self2) = dict_get k (_params self1))
  /\ (code auth_code' = code auth_code -> _params self2 = _params self1).
Proof.
  intros Hst Hst'. cbv zeta.
  destruct (request_access_token_match post self auth_code Hst) as [r ->].
  cbn [self_of fst snd].
  assert (Hst1 : state auth_code'
                 = _state (with_params self (exchange_params self auth_code)))
    by exact Hst'.
  destruct (request_access_token_match post'
              (with_params self (exchange_params self auth_code)) auth_code'
              Hst1) as [r' ->].
  cbn [self_of trace_of fst snd _params with_params].
  rewrite exchange_params_again.
  destruct (exchange_params_get self auth_code) as (G1 & G2 & G3 & G4).
  split.
  { unfold exchange_params. rewrite dict_update_three.
    pose proof (dict_set_length "code" (Some (code auth_code)) (_params self)).
    pose proof (dict_set_length "code_verifier" (Some (_code_verifier self))
                  (dict_set "code" (Some (code auth_code)) (_params self))).
    pose proof (dict_set_length "grant_type" (Some "authorization_code")
                  (dict_set "code_verifier" (Some (_code_verifier self))
                     (dict_set "code" (Some (code auth_code)) (_params self)))).
    lia. }
  split; [exact G4|]. split; [reflexivity|]. split.
  { unfold exchange_request. cbn [data]. now rewrite exchange_params_again. }
  split; [reflexivity|]. split.
  { apply dict_keys_set_present. exact (dict_get_has_key _ _ _ G1). }
  split; [apply dict_get_set_eq|]. split.
  { intros k Hk. now apply dict_get_set_ne. }
  intros Hsame. apply dict_set_same. now rewrite Hsame.
Qed.

Lemma repeated_exchange_stable_witness :
  let post := fun _ : PostRequest => Ok token_full in
  let self1 :=
    self_of (_request_access_token post (MkAuthorizationCode "XYZ" "S1")
               example_client) in
  let second := _request_access_token post (MkAuthorizationCode "UVW" "S1") self1 in
  let self2 := self_of second in
  (length (_params example_client) <= length (_params self1)
   <= length (_params example_client) + 3)%nat
  /\ (forall k, k <> "code" -> k <> "code_verifier" -> k <> "grant_type" ->
        dict_get k (_params self1) = dict_get k (_params example_client))
  /\ trace_of second
     = [EvPost (exchange_request self1 (MkAuthorizationCode "UVW" "S1"))]
  /\ data (exchange_request self1 (MkAuthorizationCode "UVW" "S1"))
     = map (fun kv => (fst kv, of_opt (snd kv))) (_params self2)
  /\ _params self2 = dict_set "code" (Some "UVW") (_params self1)
  /\ dict_keys (_params self2) = dict_keys (_params self1)
  /\ dict_get "code" (_params self2) = Some (Some "UVW")
  /\ (forall k, k <> "code" ->
        dict_get k (_params self2) = dict_get k (_params self1))
  /\ ("UVW" = "XYZ" -> _params self2 = _params self1).
Proof.
  apply (repeated_exchange_stable (fun _ => Ok token_full)
           (fun _ => Ok token_full) example_client
           (MkAuthorizationCode "XYZ" "S1") (MkAuthorizationCode "UVW" "S1"));
    reflexivity.
Defined.

(** ** The flow as a whole *)

Lemma request_access_token_trace
    (post : PostRequest -> result Response)
    (self : AuthorizationClient) (auth_code : AuthorizationCode) :
  trace_of (_request_access_token post auth_code self) = []
  \/ trace_of (_request_access_token post auth_code self)
     = [EvPost (exchange_request self auth_code)].
Proof.
  destruct (String.eqb (state auth_code) (_state self)) eqn:E.
  - apply String.eqb_eq in E.
    destruct (request_access_token_match post self auth_code E) as [r ->].
    now right.
  - apply String.eqb_neq in E.
    rewrite (request_access_token_mismatch post self auth_code E). now left.
Qed.

(** X12: once an authorization code is delivered, [get_creds_from_remote]
    completes with the outcome of the token exchange, whatever it is, and the
    [finally] clause has run: the trace is the process start, one browser
    launch, the wait on the queue, at most one POST, and the termination of
    the listener process as the last event. *)
Theorem delivered_code_completes_and_terminates
    (urlparse : string -> result ParseResult)
    (parse_qsl : string -> list (string * string))
    (get_default_success_html : option string -> string)
    (requests_post : PostRequest -> result Response)
    (bind_failure : option string -> option Z -> option exn)
    (self : AuthorizationClient) (srv : OAuthHTTPServer)
    (authorize : ParseResult)
    (inbound : list http_request) (auth_code : AuthorizationCode)
    (more : list AuthorizationCode) :
  _create_callback_server urlparse bind_failure self = Ok srv ->
  urlparse (_auth_endpoint self) = Ok authorize ->
  queue_content
    (l_server (callback_listener urlparse parse_qsl get_default_success_html
                 srv inbound)) = auth_code :: more ->
  let x := get_creds_from_remote urlparse parse_qsl get_default_success_html
             requests_post bind_failure inbound self in
  x.1.1 = Completes (outcome_of (_request_access_token requests_post auth_code self))
  /\ exists u posts,
       x.2 = [EvProcessStart; EvOpenNewTab u; EvQueueGet] ++ posts ++ [EvTerminate]
       /\ u_query u = urlencode (_params self)
       /\ (posts = [] \/ posts = [EvPost (exchange_request self auth_code)]).
Proof.
  intros Hsrv Hau Hq. cbv zeta.
  rewrite (get_creds_delivered _ _ _ _ _ self srv authorize inbound auth_code
             more Hsrv Hau Hq).
  cbn [fst snd]. split; [reflexivity|].
  rewrite (request_authorization_code_ok _ _ _ Hau).
  unfold trace_of at 1. cbn [fst snd app].
  eexists. exists (trace_of (_request_access_token requests_post auth_code self)).
  split; [reflexivity|]. split; [reflexivity|].
  apply request_access_token_trace.
Qed.

Lemma delivered_code_completes_and_terminates_witness :
  let x := get_creds_from_remote example_urlparse example_parse_qsl
             example_html (fun _ => Ok token_full) (fun _ _ => None)
             [GET "/callback?code=XYZ&state=S2"] example_client in
  x.1.1 = Completes (outcome_of (_request_access_token (fun _ => Ok token_full)
                                   (MkAuthorizationCode "XYZ" "S2")
                                   example_client))
  /\ exists u posts,
       x.2 = [EvProcessStart; EvOpenNewTab u; EvQueueGet] ++ posts ++ [EvTerminate]
       /\ u_query u = urlencode (_params example_client)
       /\ (posts = []
           \/ posts = [EvPost (exchange_request example_client
                                 (MkAuthorizationCode "XYZ" "S2"))]).
Proof.
  apply (delivered_code_completes_and_terminates example_urlparse
           example_parse_qsl example_html (fun _ => Ok token_full)
           (fun _ _ => None) example_client example_server
           (MkParseResult "https" "auth.example.org" "/authorize" ""
              (Some "auth.example.org") (Ok None))
           [GET "/callback?code=XYZ&state=S2"]
           (MkAuthorizationCode "XYZ" "S2") []); reflexivity.
Defined.

(** X13: on an instance whose authorization endpoint parses, when no
    request reaches the listener, or the first one is not a GET on the
    redirect path, no authorization code is ever delivered and
    [get_creds_from_remote] waits on the queue for ever: it has started the
    listener and opened the browser, it posts nothing, it does not terminate
    the listener process, and the instance is unchanged. *)
Theorem stray_request_blocks_flow
    (urlparse : string -> result ParseResult)
    (parse_qsl : string -> list (string * string))
    (get_default_success_html : option string -> string)
    (requests_post : PostRequest -> result Response)
    (bind_failure : option string -> option Z -> option exn)
    (self : AuthorizationClient) (srv : OAuthHTTPServer)
    (authorize : ParseResult) (inbound : list http_request) :
  _create_callback_server urlparse bind_failure self = Ok srv ->
  urlparse (_auth_endpoint self) = Ok authorize ->
  (inbound = []
   \/ exists req rest,
        inbound = req :: rest
        /\ (command req <> "GET" \/ path_matches urlparse srv req = false)) ->
  exists u,
    get_creds_from_remote urlparse parse_qsl get_default_success_html
      requests_post bind_failure inbound self
    = (Blocks, self, [EvProcessStart; EvOpenNewTab u; EvQueueGet])
    /\ u_scheme u = scheme authorize
    /\ u_netloc u = netloc authorize
    /\ u_path u = path authorize
    /\ u_query u = urlencode (_params self).
Proof.
  intros Hsrv Hau Hin.
  assert (Hq : queue_content
                 (l_server (callback_listener urlparse parse_qsl
                              get_default_success_html srv inbound)) = []).
  { destruct Hin as [->|(req & rest & -> & Hoff)]; [reflexivity|].
    unfold callback_listener. rewrite listening_first.
    assert (Hoff' : command req <> "GET"
                    \/ path_matches urlparse (with_queue srv (Some [])) req
                       = false) by exact Hoff.
    destruct (serve_request_off_path urlparse parse_qsl
                get_default_success_html _ _ Hoff') as [-> _].
    reflexivity. }
  rewrite (get_creds_waiting _ _ _ _ _ self srv authorize inbound Hsrv Hau Hq).
  rewrite (request_authorization_code_ok _ _ _ Hau).
  eexists. split; [reflexivity|]. now repeat split.
Qed.

Lemma stray_request_blocks_flow_witness :
  exists u,
    get_creds_from_remote example_urlparse example_parse_qsl example_html
      (fun _ => Ok token_full) (fun _ _ => None)
      [GET "/favicon.ico"; GET "/callback?code=XYZ&state=S1"] example_client
    = (Blocks, example_client, [EvProcessStart; EvOpenNewTab u; EvQueueGet])
    /\ u_scheme u = "https"
    /\ u_netloc u = "auth.example.org"
    /\ u_path u = "/authorize"
    /\ u_query u = urlencode (_params example_client).
Proof.
  apply (stray_request_blocks_flow example_urlparse example_parse_qsl
           example_html (fun _ => Ok token_full) (fun _ _ => None)
           example_client example_server
           (MkParseResult "https" "auth.example.org" "/authorize" ""
              (Some "auth.example.org") (Ok None))
           [GET "/favicon.ico"; GET "/callback?code=XYZ&state=S1"]);
    [reflexivity | reflexivity |].
  right. exists (GET "/favicon.ico"), [GET "/callback?code=XYZ&state=S1"].
  split; [reflexivity|]. right. reflexivity.
Defined.

(** X14: the whole flow on its good path.  When the first request is the
    callback with the instance's state and the token endpoint answers 200
    with an access token and a lifetime, [get_creds_from_remote] returns the
    credentials of that answer for the instance's endpoint, after one POST,
    and has terminated the listener process. *)
Theorem flow_returns_credentials
    (urlparse : string -> result ParseResult)
    (parse_qsl : string -> list (string * string))
    (get_default_success_html : option string -> string)
    (requests_post : PostRequest -> result Response)
    (bind_failure : option string -> option Z -> option exn)
    (self : AuthorizationClient) (srv : OAuthHTTPServer)
    (authorize callback : ParseResult)
    (req : http_request) (rest : list http_request) (c : string)
    (resp : Response) (d : list (string * value)) (a x : value) :
  _create_callback_server urlparse bind_failure self = Ok srv ->
  urlparse (_auth_endpoint self) = Ok authorize ->
  command req = "GET" ->
  urlparse (target req) = Ok callback ->
  path_matches urlparse srv req = true ->
  getitem (dict_of_pairs (parse_qsl (query callback))) "code" = Ok c ->
  getitem (dict_of_pairs (parse_qsl (query callback))) "state"
  = Ok (_state self) ->
  requests_post (exchange_request self (MkAuthorizationCode c (_state self)))
  = Ok resp ->
  status_code resp = 200 ->
  json resp = Ok (VDict d) ->
  last_member "access_token" d = Some a ->
  last_member "expires_in" d = Some x ->
  exists u,
    get_creds_from_remote urlparse parse_qsl get_default_success_html
      requests_post bind_failure (req :: rest) self
    = (Completes
         (Ok {| access_token := a;
                refresh_token := default VNone (last_member "refresh_token" d);
                for_endpoint := _endpoint self;
                expires_in := x |}),
       with_params self
         (exchange_params self (MkAuthorizationCode c (_state self))),
       [EvProcessStart; EvOpenNewTab u; EvQueueGet;
        EvPost (exchange_request self (MkAuthorizationCode c (_state self)));
        EvTerminate]).
Proof.
  intros Hsrv Hau Hc Hu Hp Hcode Hstate Hpost Hs Hj Ha Hx.
  rewrite (get_creds_delivered _ _ _ _ _ self srv authorize (req :: rest)
             (MkAuthorizationCode c (_state self)) [] Hsrv Hau
             (callback_delivered _ _ _ srv req callback rest c (_state self)
                Hc Hu Hp Hcode Hstate)).
  assert (E : _request_access_token requests_post
                (MkAuthorizationCode c (_state self)) self
              = (Ok {| access_token := a;
                       refresh_token :=
                         default VNone (last_member "refresh_token" d);
                       for_endpoint := _endpoint self;
                       expires_in := x |},
                 with_params self
                   (exchange_params self (MkAuthorizationCode c (_state self))),
                 [EvPost (exchange_request self
                            (MkAuthorizationCode c (_state self)))])).
  { unfold _request_access_token. run. cbn [state].
    rewrite String.eqb_refl. cbn [negb].
    fold (exchange_params self (MkAuthorizationCode c (_state self))).
    change {| url := _token_endpoint _; data := _; headers := _;
              allow_redirects := _; verify := _ |}
      with (exchange_request self (MkAuthorizationCode c (_state self))).
    rewrite Hpost, Hs. cbn [Z.eqb Pos.eqb negb].
    now rewrite (credentials_from_response_with_expires_in _ resp d a x Hj Ha Hx). }
  rewrite E. rewrite (request_authorization_code_ok _ _ _ Hau).
  unfold outcome_of, self_of, trace_of. cbn [fst snd app].
  eexists. reflexivity.
Qed.

Lemma flow_returns_credentials_witness :
  exists u,
    get_creds_from_remote example_urlparse example_parse_qsl example_html
      (fun _ => Ok token_full) (fun _ _ => None)
      [GET "/callback?code=XYZ&state=S1"] example_client
    = (Completes
         (Ok {| access_token := VStr "tok";
                refresh_token :=
                  default VNone
                    (last_member "refresh_token"
                       [("access_token", VStr "tok");
                        ("refresh_token", VStr "ref");
                        ("expires_in", VInt 3600)]);
                for_endpoint := _endpoint example_client;
                expires_in := VInt 3600 |}),
       with_params example_client
         (exchange_params example_client
            (MkAuthorizationCode "XYZ" (_state example_client))),
       [EvProcessStart; EvOpenNewTab u; EvQueueGet;
        EvPost (exchange_request example_client
                  (MkAuthorizationCode "XYZ" (_state example_client)));
        EvTerminate]).
Proof.
  apply (flow_returns_credentials example_urlparse example_parse_qsl
           example_html (fun _ => Ok token_full) (fun _ _ => None)
           example_client example_server
           (MkParseResult "https" "auth.example.org" "/authorize" ""
              (Some "auth.example.org") (Ok None))
           (MkParseResult "" "" "/callback" "code=XYZ&state=S1" None (Ok None))
           (GET "/callback?code=XYZ&state=S1") [] "XYZ" token_full
           [("access_token", VStr "tok"); ("refresh_token", VStr "ref");
            ("expires_in", VInt 3600)] (VStr "tok") (VInt 3600));
    reflexivity.
Defined.

(** ** Construction *)

Lemma urlsafe_unreserved (c : ascii) : urlsafe c = true -> unreserved c = true.
Proof.
  unfold urlsafe, char_in. intros H.
  apply existsb_exists in H. destruct H as (x & Hin & Heq).
  apply Ascii.eqb_eq in Heq. subst x. cbn in Hin.
  repeat (destruct Hin as [<-|Hin]; [reflexivity|]). destruct Hin.
Qed.

(** [quote_plus] leaves a string of unreserved characters as it is. *)
Lemma quote_plus_unreserved (s : string) :
  all_chars unreserved s = true -> quote_plus s = s.
Proof.
  unfold all_chars, quote_plus.
  induction s as [|c s IH]; [reflexivity|].
  cbn [chars_of_string forallb flat_map]. intros [Hc Hs]%andb_prop.
  unfold quote_char at 1. rewrite Hc. cbn [app string_of_chars].
  now rewrite (IH Hs).
Qed.

Lemma quote_plus_urlsafe (s : string) :
  all_chars urlsafe s = true -> quote_plus s = s.
Proof.
  intros H. apply quote_plus_unreserved. unfold all_chars in *.
  rewrite forallb_forall in *. intros c Hc. apply urlsafe_unreserved. auto.
Qed.

(** What [__init__] returns, when it returns. *)
Lemma init_result (urlparse : string -> result ParseResult)
    (sha256 : list Z -> list Z) (bound : list (string * arg))
    (p p' : process) (self : AuthorizationClient) (t : list event) :
  __init__ urlparse sha256 bound p = (Ok self, p', t) ->
  _code_verifier self = cleaned_verifier (rng p)
  /\ _state self
     = cleaned_state (urandom _code_verifier_length (rng p)).2
  /\ _code_challenge self = _create_code_challenge sha256 (_code_verifier self)
  /\ _params self = authorization_params self
  /\ _headers self = [("content-type", "application/x-www-form-urlencoded")]
  /\ p' = with_rng p
            (urandom _random_seed_length
               (urandom _code_verifier_length (rng p)).2).2.
Proof.
  unfold __init__. run.
  destruct (match required bound "endpoint" with
            | Ok a => as_str a | Raise e => Raise e end); [|discriminate].
  destruct (match required bound "auth_endpoint" with
            | Ok a => as_str a | Raise e => Raise e end); [|discriminate].
  destruct (match required bound "token_endpoint" with
            | Ok a => as_str a | Raise e => Raise e end); [|discriminate].
  destruct (as_optional_list _); [|discriminate].
  destruct (as_optional_str _); [|discriminate].
  destruct (as_optional_str _); [|discriminate].
  destruct (as_optional_metadata _) as [metadata|]; [|discriminate].
  destruct (as_optional_verify _); [|discriminate].
  destruct (match metadata with
            | Some m => Ok m
            | None => _
            end) as [remote|]; [|discriminate].
  unfold draw. rewrite generate_code_verifier_succeeds.
  cbn [rng with_rng]. rewrite generate_state_parameter_unfold.
  intros [= <- <- <-]. cbn [_code_verifier _state _code_challenge _params
                             _headers _client_id _scopes _redirect_uri].
  unfold authorization_params.
  cbn [_code_verifier _state _code_challenge _params
       _headers _client_id _scopes _redirect_uri].
  repeat split.
Qed.

(** X15: with arguments of the annotated types, and an authorization
    endpoint that parses when no endpoint metadata is supplied, [__init__]
    returns an instance: the verifier's length check cannot fail.  It draws
    104 octets of entropy, and the instance it returns has a verifier of 86
    characters, a state of 54, the challenge of its verifier, and the seven
    authorization parameters built from its own fields, without any grant
    field. *)
Theorem init_builds_consistent_instance
    (urlparse : string -> result ParseResult) (sha256 : list Z -> list Z)
    (bound : list (string * arg)) (auth_endpoint : string) (p : process) :
  well_typed bound ->
  required bound "auth_endpoint" ≫= as_str = Ok auth_endpoint ->
  (as_optional_metadata (optional bound "endpoint_metadata") = Ok None ->
   exists parsed, urlparse auth_endpoint = Ok parsed) ->
  exists self p',
    __init__ urlparse sha256 bound p = (Ok self, p', [])
    /\ _instances p' = _instances p /\ heap p' = heap p
    /\ drawn (rng p') = (drawn (rng p) + 104)%nat
    /\ _auth_endpoint self = auth_endpoint
    /\ len (_code_verifier self) = 86
    /\ len (_state self) = 54
    /\ _code_challenge self = _create_code_challenge sha256 (_code_verifier self)
    /\ _params self = authorization_params self
    /\ dict_keys (_params self)
       = ["client_id"; "response_type"; "scope"; "redirect_uri"; "state";
          "code_challenge"; "code_challenge_method"].
Proof.
  intros (H1 & H2 & H3 & H4 & H5 & H6 & H7 & H8) Hauth Hparse.
  destruct H1 as [v1 H1], H2 as [v2 H2], H3 as [v3 H3], H4 as [v4 H4],
    H5 as [v5 H5], H6 as [v6 H6], H7 as [v7 H7], H8 as [v8 H8].
  assert (v2 = auth_endpoint) as -> by congruence.
  destruct (init_frame urlparse sha256 bound p) as (r & e & E).
  assert (Hok : exists self, r = Ok self /\ _auth_endpoint self = auth_endpoint).
  { revert E. unfold __init__.
    unfold mbind at 1, prog_bind at 1, lift at 1. rewrite H1.
    unfold mbind at 1, prog_bind at 1, lift at 1. rewrite H2.
    unfold mbind at 1, prog_bind at 1, lift at 1. rewrite H3.
    unfold mbind at 1, prog_bind at 1, lift at 1. rewrite H4.
    unfold mbind at 1, prog_bind at 1, lift at 1. rewrite H5.
    unfold mbind at 1, prog_bind at 1, lift at 1. rewrite H6.
    unfold mbind at 1, prog_bind at 1, lift at 1. rewrite H7.
    unfold mbind at 1, prog_bind at 1, lift at 1. rewrite H8.
    assert (Hremote : exists remote,
               match v7 with
               | None =>
                   remote_url ← urlparse auth_endpoint;
                   mret (MkEndpointMetadata (hostname remote_url) None None)
               | Some m => mret m
               end = Ok remote).
    { destruct v7 as [m|]; [now exists m|].
      destruct (Hparse H7) as [parsed ->]. eexists. reflexivity. }
    destruct Hremote as [remote ->].
    run. unfold draw. rewrite generate_code_verifier_succeeds.
    cbn [rng with_rng]. rewrite generate_state_parameter_unfold.
    intros [= <- _]. eauto. }
  destruct Hok as (self & -> & Hae).
  destruct (init_result _ _ _ _ _ _ _ E) as (Hv & Hs & Hc & Hp & _ & He).
  exists self, (with_rng p e). split; [exact E|].
  split; [reflexivity|]. split; [reflexivity|].
  split. { rewrite He. cbn [rng with_rng]. rewrite !urandom_drawn.
           unfold _code_verifier_length, _random_seed_length. lia. }
  split; [exact Hae|].
  split. { rewrite Hv. apply cleaned_verifier_len. }
  split. { rewrite Hs.
           destruct (state_parameter_always_54_aux
                       (urandom _code_verifier_length (rng p)).2) as [H _].
           exact H. }
  split; [exact Hc|]. split; [exact Hp|]. now rewrite Hp.
Qed.

Lemma init_builds_consistent_instance_witness :
  let bound := [("endpoint", AStr "flyte.example.org");
                ("auth_endpoint", AStr "https://auth.example.org/authorize");
                ("token_endpoint", AStr "https://auth.example.org/token")] in
  exists self p',
    __init__ example_urlparse example_sha256 bound example_process
    = (Ok self, p', [])
    /\ _instances p' = _instances example_process
    /\ heap p' = heap example_process
    /\ drawn (rng p') = (drawn (rng example_process) + 104)%nat
    /\ _auth_endpoint self = "https://auth.example.org/authorize"
    /\ len (_code_verifier self) = 86
    /\ len (_state self) = 54
    /\ _code_challenge self
       = _create_code_challenge example_sha256 (_code_verifier self)
    /\ _params self = authorization_params self
    /\ dict_keys (_params self)
       = ["client_id"; "response_type"; "scope"; "redirect_uri"; "state";
          "code_challenge"; "code_challenge_method"].
Proof.
  apply (init_builds_consistent_instance example_urlparse example_sha256
           [("endpoint", AStr "flyte.example.org");
            ("auth_endpoint", AStr "https://auth.example.org/authorize");
            ("token_endpoint", AStr "https://auth.example.org/token")]
           "https://auth.example.org/authorize" example_process).
  - repeat split; eexists; reflexivity.
  - reflexivity.
  - intros _. eexists. reflexivity.
Defined.

(** X16: the authorization URL opened for an instance that [__init__] has
    just returned and whose authorization endpoint parses: scheme, host and
    path are those of the authorization endpoint, and the query is the encoding of the seven parameters, in which
    the state and the code challenge stand unescaped, next to
    [response_type=code] and [code_challenge_method=S256]. *)
Theorem authorization_url_of_fresh_instance
    (urlparse : string -> result ParseResult) (sha256 : list Z -> list Z)
    (bound : list (string * arg)) (p p' : process)
    (self : AuthorizationClient) (authorize : ParseResult) (t : list event) :
  __init__ urlparse sha256 bound p = (Ok self, p', t) ->
  urlparse (_auth_endpoint self) = Ok authorize ->
  exists u,
    _request_authorization_code urlparse self = (Ok tt, self, [EvOpenNewTab u])
    /\ u_scheme u = scheme authorize
    /\ u_netloc u = netloc authorize
    /\ u_path u = path authorize
    /\ u_query u = urlencode (authorization_params self)
    /\ occurs_in "response_type=code" (u_query u)
    /\ occurs_in ("state=" +:+ _state self) (u_query u)
    /\ occurs_in ("code_challenge=" +:+ _code_challenge self) (u_query u)
    /\ occurs_in "code_challenge_method=S256" (u_query u).
Proof.
  intros E Hau.
  destruct (init_result _ _ _ _ _ _ _ E) as (Hv & Hs & Hc & Hp & _ & _).
  assert (Qs : quote_plus (_state self) = _state self).
  { apply quote_plus_urlsafe. rewrite Hs.
    apply (state_parameter_always_54_aux
             (urandom _code_verifier_length (rng p)).2). }
  assert (Qc : quote_plus (_code_challenge self) = _code_challenge self).
  { apply quote_plus_urlsafe. rewrite Hc.
    destruct (code_challenge_chars sha256 (_code_verifier self)) as [H _].
    exact H. }
  rewrite (request_authorization_code_ok _ _ _ Hau). rewrite Hp.
  eexists. split; [reflexivity|]. cbn [u_scheme u_netloc u_path u_query].
  split; [reflexivity|]. split; [reflexivity|]. split; [reflexivity|].
  split; [reflexivity|].
  split; [|split; [|split]].
  - apply (urlencode_occurs (authorization_params self) "response_type"
             (Some "code")). reflexivity.
  - pose proof (urlencode_occurs (authorization_params self) "state"
                  (Some (_state self)) eq_refl) as H.
    unfold urlencode_item in H. cbn [fst snd py_str] in H.
    rewrite Qs in H. exact H.
  - pose proof (urlencode_occurs (authorization_params self) "code_challenge"
                  (Some (_code_challenge self)) eq_refl) as H.
    unfold urlencode_item in H. cbn [fst snd py_str] in H.
    rewrite Qc in H. exact H.
  - apply (urlencode_occurs (authorization_params self)
             "code_challenge_method" (Some "S256")). reflexivity.
Qed.

Lemma authorization_url_of_fresh_instance_witness :
  let r := __init__ example_urlparse example_sha256
             [("endpoint", AStr "flyte.example.org");
              ("auth_endpoint", AStr "https://auth.example.org/authorize");
              ("token_endpoint", AStr "https://auth.example.org/token")]
             example_process in
  let self := match outcome_of r with Ok s => s | Raise _ => example_client end in
  exists u,
    _request_authorization_code example_urlparse self
    = (Ok tt, self, [EvOpenNewTab u])
    /\ u_scheme u = "https"
    /\ u_netloc u = "auth.example.org"
    /\ u_path u = "/authorize"
    /\ u_query u = urlencode (authorization_params self)
    /\ occurs_in "response_type=code" (u_query u)
    /\ occurs_in ("state=" +:+ _state self) (u_query u)
    /\ occurs_in ("code_challenge=" +:+ _code_challenge self) (u_query u)
    /\ occurs_in "code_challenge_method=S256" (u_query u).
Proof.
  intros r self.
  apply (authorization_url_of_fresh_instance example_urlparse example_sha256
           [("endpoint", AStr "flyte.example.org");
            ("auth_endpoint", AStr "https://auth.example.org/authorize");
            ("token_endpoint", AStr "https://auth.example.org/token")]
           example_process (self_of r) self
           (MkParseResult "https" "auth.example.org" "/authorize" ""
              (Some "auth.example.org") (Ok None))
           (trace_of r)).
  - vm_compute. reflexivity.
  - vm_compute. reflexivity.
Defined.

(** ** The registry over sequences of constructions *)

(** The four ways a construction can go. *)
Lemma call_cases (urlparse : string -> result ParseResult) (sha256 : list Z -> list Z)
    (c : call) (p : process) :
  (exists x, call_key c = Raise x
             /\ __call__ urlparse sha256 c p = (Raise x, p, []))
  \/ (exists key ref,
        call_key c = Ok key /\ _instances p !! key = Some ref
        /\ __call__ urlparse sha256 c p = (Ok ref, p, []))
  \/ (exists key x e,
        call_key c = Ok key /\ _instances p !! key = None
        /\ __call__ urlparse sha256 c p = (Raise x, with_rng p e, []))
  \/ (exists key self e,
        call_key c = Ok key /\ _instances p !! key = None
        /\ __call__ urlparse sha256 c p
           = (Ok (length (heap p)),
              with_instances (with_heap (with_rng p e) (heap p ++ [self]))
                (<[key := length (heap p)]> (_instances p)),
              [])).
Proof.
  assert (Hmain : forall a : arg,
    call_key c = as_str a ->
    __call__ urlparse sha256 c p
    = match as_str a with
      | Ok key =>
          match _instances p !! key with
          | Some ref => (Ok ref, p, [])
          | None =>
              match new_instance urlparse sha256 c p with
              | (Ok ref, s1, t1) =>
                  (Ok ref, with_instances s1 (<[key:=ref]> (_instances s1)), t1)
              | (Raise e, s1, t1) => (Raise e, s1, t1)
              end
          end
      | Raise e => (Raise e, p, [])
      end ->
    (exists x, call_key c = Raise x
               /\ __call__ urlparse sha256 c p = (Raise x, p, []))
    \/ (exists key ref,
          call_key c = Ok key /\ _instances p !! key = Some ref
          /\ __call__ urlparse sha256 c p = (Ok ref, p, []))
    \/ (exists key x e,
          call_key c = Ok key /\ _instances p !! key = None
          /\ __call__ urlparse sha256 c p = (Raise x, with_rng p e, []))
    \/ (exists key self e,
          call_key c = Ok key /\ _instances p !! key = None
          /\ __call__ urlparse sha256 c p
             = (Ok (length (heap p)),
                with_instances (with_heap (with_rng p e) (heap p ++ [self]))
                  (<[key := length (heap p)]> (_instances p)),
                []))).
  { intros a Hk ->. rewrite Hk.
    destruct (as_str a) as [key|x]; [|left; eauto].
    destruct (_instances p !! key) as [ref|] eqn:Hl;
      [right; left; eauto|].
    destruct (new_instance_frame urlparse sha256 c p)
      as [(x & e & ->)|(self & e & ->)].
    - right; right; left. eauto 6.
    - right; right; right. exists key, self, e. eauto. }
  unfold call_key in *. unfold __call__ in *. revert Hmain. run.
  destruct (args c) as [|a rest].
  - destruct (dict_get "auth_endpoint" (kwargs c)) as [a|].
    + intros Hmain. apply (Hmain a eq_refl).
      destruct (as_str a); [|reflexivity].
      destruct (_instances p !! a0); [reflexivity|].
      destruct (new_instance urlparse sha256 c p) as [[[ref1|x] s1] t1];
        cbn [app]; rewrite ?app_nil_r; reflexivity.
    + intros _. left. eauto.
  - intros Hmain. apply (Hmain a eq_refl).
    destruct (as_str a); [|reflexivity].
    destruct (_instances p !! a0); [reflexivity|].
    destruct (new_instance urlparse sha256 c p) as [[[ref1|x] s1] t1];
      cbn [app]; rewrite ?app_nil_r; reflexivity.
Qed.

(** X17: repeating a construction that returned an instance returns the same
    instance and changes nothing: [__init__] is not run again, no entropy is
    drawn, no object is allocated. *)
Theorem repeated_construction_is_idempotent
    (urlparse : string -> result ParseResult) (sha256 : list Z -> list Z)
    (c : call) (p p1 : process) (ref : nat) (t : list event) :
  __call__ urlparse sha256 c p = (Ok ref, p1, t) ->
  __call__ urlparse sha256 c p1 = (Ok ref, p1, []).
Proof.
  intros H. destruct (call_registers _ _ _ _ _ _ _ H) as (key & Hk & Hr).
  exact (call_existing urlparse sha256 c p1 key ref Hk Hr).
Qed.

Lemma repeated_construction_is_idempotent_witness :
  let c := MkCall [AStr "flyte.example.org";
                   AStr "https://auth.example.org/authorize";
                   AStr "https://auth.example.org/token"] [] in
  let p1 := self_of (__call__ example_urlparse example_sha256 c example_process) in
  __call__ example_urlparse example_sha256 c p1 = (Ok 0%nat, p1, []).
Proof.
  intros c p1.
  apply (repeated_construction_is_idempotent example_urlparse example_sha256
           c example_process p1 0 []).
  vm_compute. reflexivity.
Defined.

(** X18: a construction that raises registers nothing and allocates
    nothing; without positional arguments and without an [auth_endpoint]
    keyword it raises the [ValueError] of the missing parameter before
    anything is drawn. *)
Theorem failed_construction_registers_nothing
    (urlparse : string -> result ParseResult) (sha256 : list Z -> list Z)
    (c : call) (p : process) :
  (forall x p1 t,
     __call__ urlparse sha256 c p = (Raise x, p1, t) ->
     _instances p1 = _instances p /\ heap p1 = heap p /\ t = [])
  /\ (args c = [] -> dict_get "auth_endpoint" (kwargs c) = None ->
      __call__ urlparse sha256 c p
      = (Raise (ValueError auth_endpoint_required), p, [])).
Proof.
  split.
  - intros x p1 t H.
    destruct (call_cases urlparse sha256 c p)
      as [(x' & _ & E)|[(k & r & _ & _ & E)|[(k & x' & e & _ & _ & E)
                                             |(k & s & e & _ & _ & E)]]];
      rewrite E in H; try discriminate; injection H as <- <- <-;
      now repeat split.
  - intros Ha Hk.
    destruct (call_cases urlparse sha256 c p)
      as [(x' & K & E)|[(k & r & K & _)|[(k & x' & e & K & _)
                                         |(k & s & e & K & _)]]];
      unfold call_key in K; rewrite Ha, Hk in K; try discriminate.
    injection K as <-. exact E.
Qed.

Lemma failed_construction_registers_nothing_witness :
  __call__ example_urlparse example_sha256
    (MkCall [] [("endpoint", AStr "flyte.example.org")]) example_process
  = (Raise (ValueError auth_endpoint_required), example_process, []).
Proof.
  apply (proj2 (failed_construction_registers_nothing example_urlparse
                  example_sha256
                  (MkCall [] [("endpoint", AStr "flyte.example.org")])
                  example_process)); reflexivity.
Defined.

Lemma registry_ok_empty (e : entropy) :
  registry_ok {| _instances := ∅; heap := []; rng := e |}.
Proof. split; cbn; intros *; rewrite lookup_empty; discriminate. Qed.

Lemma keyword_calls_share_by_auth_endpoint_witness :
  let kw1 := [("endpoint", AStr "flyte.example.org");
              ("auth_endpoint", AStr "https://auth.example.org/authorize");
              ("token_endpoint", AStr "https://auth.example.org/token")] in
  let kw2 := [("endpoint", AStr "other.example.org");
              ("auth_endpoint", AStr "https://login.example.org/authorize");
              ("token_endpoint", AStr "https://auth.example.org/token")] in
  0%nat = 1%nat
  <-> "https://auth.example.org/authorize" = "https://login.example.org/authorize".
Proof.
  intros kw1 kw2.
  apply (keyword_calls_share_by_auth_endpoint example_urlparse example_sha256
           "https://auth.example.org/authorize"
           "https://login.example.org/authorize" kw1 kw2 example_process
           (self_of (__call__ example_urlparse example_sha256
                       (MkCall [] kw1) example_process))
           (self_of (__call__ example_urlparse example_sha256 (MkCall [] kw2)
                       (self_of (__call__ example_urlparse example_sha256
                                   (MkCall [] kw1) example_process))))
           0 1 [] []).
  - apply registry_ok_empty.
  - reflexivity.
  - reflexivity.
  - vm_compute. reflexivity.
  - vm_compute. reflexivity.
Defined.

(** X20: whatever constructions are made, in whatever order, the registry
    stays well formed (it refers to allocated objects, each under one key),
    no entry of it is removed or redirected, and the objects allocated
    before are still there, at the same place and unchanged. *)
Theorem constructions_keep_registry
    (urlparse : string -> result ParseResult) (sha256 : list Z -> list Z)
    (cs : list call) (p : process) :
  registry_ok p ->
  let p' := run_calls urlparse sha256 cs p in
  registry_ok p'
  /\ (forall k r, _instances p !! k = Some r -> _instances p' !! k = Some r)
  /\ (exists new, heap p' = heap p ++ new).
Proof.
  revert p. induction cs as [|c cs IH]; intros p Hok.
  - cbn. split; [exact Hok|]. split; [tauto|]. exists []. now rewrite app_nil_r.
  - cbn [run_calls fold_left].
    pose proof (call_keeps_registry_ok urlparse sha256 c p Hok) as Hok1.
    destruct (IH _ Hok1) as (H1 & H2 & new & H3). fold (run_calls urlparse sha256 cs
      (self_of (__call__ urlparse sha256 c p))) in *.
    split; [exact H1|]. split.
    + intros k r Hk. apply H2.
      now apply call_extends_registry.
    + rewrite H3.
      destruct (call_cases urlparse sha256 c p)
        as [(x' & _ & E)|[(k & r & _ & _ & E)|[(k & x' & e & _ & _ & E)
                                               |(k & s & e & _ & _ & E)]]];
        rewrite E; cbn [self_of fst snd heap with_rng with_heap with_instances].
      * now exists new.
      * now exists new.
      * now exists new.
      * exists ([s] ++ new). now rewrite app_assoc.
Qed.

Lemma constructions_keep_registry_witness :
  let cs := [MkCall [AStr "flyte.example.org";
                     AStr "https://auth.example.org/authorize";
                     AStr "https://auth.example.org/token"] [];
             MkCall [] [("endpoint", AStr "flyte.example.org")]] in
  let p' := run_calls example_urlparse example_sha256 cs example_process in
  registry_ok p'
  /\ (forall k r, _instances example_process !! k = Some r ->
                  _instances p' !! k = Some r)
  /\ (exists new, heap p' = heap example_process ++ new).
Proof.
  apply (constructions_keep_registry example_urlparse example_sha256
           [MkCall [AStr "flyte.example.org";
                    AStr "https://auth.example.org/authorize";
                    AStr "https://auth.example.org/token"] [];
            MkCall [] [("endpoint", AStr "flyte.example.org")]]
           example_process).
  apply registry_ok_empty.
Defined.

(** ** [Auth]: one identity, and the round trip through the message *)

(** X21: [Auth] holds at most one identity: the constructor raises exactly
    when both are non-empty.  The message of a constructed [Auth] never has a
    field set to the empty text, reading it back does not raise and gives the
    same identities, an empty text having become [None]; a second round trip
    changes nothing more. *)
Theorem auth_round_trip (role account : option string) (self : Auth) :
  Auth_init role account = Ok self ->
  (truthy (_assumable_iam_role self)
   && truthy (_kubernetes_service_account self) = false)
  /\ pb_assumable_iam_role (Auth_to_flyte_idl self) <> Some ""
  /\ pb_kubernetes_service_account (Auth_to_flyte_idl self) <> Some ""
  /\ Auth_from_flyte_idl (Auth_to_flyte_idl self)
     = Ok {| _assumable_iam_role := present role;
             _kubernetes_service_account := present account |}
  /\ Auth_to_flyte_idl
       {| _assumable_iam_role := present role;
          _kubernetes_service_account := present account |}
     = Auth_to_flyte_idl self.
Proof.
  unfold Auth_init.
  destruct (truthy role && truthy account) eqn:E; [discriminate|].
  intros [= <-]. cbn [_assumable_iam_role _kubernetes_service_account].
  split; [exact E|].
  unfold Auth_to_flyte_idl, Auth_from_flyte_idl, Auth_init, present.
  cbn [_assumable_iam_role _kubernetes_service_account
       pb_assumable_iam_role pb_kubernetes_service_account].
  destruct role as [[|c r]|], account as [[|c' a]|];
    cbn in E |- *; try discriminate; repeat split; congruence.
Qed.

Lemma auth_round_trip_witness :
  (truthy (_assumable_iam_role (MkAuth (Some "arn:role") (Some "")))
   && truthy (_kubernetes_service_account (MkAuth (Some "arn:role") (Some "")))
   = false)
  /\ pb_assumable_iam_role (Auth_to_flyte_idl (MkAuth (Some "arn:role") (Some "")))
     <> Some ""
  /\ pb_kubernetes_service_account
       (Auth_to_flyte_idl (MkAuth (Some "arn:role") (Some ""))) <> Some ""
  /\ Auth_from_flyte_idl (Auth_to_flyte_idl (MkAuth (Some "arn:role") (Some "")))
     = Ok {| _assumable_iam_role := present (Some "arn:role");
             _kubernetes_service_account := present (Some "") |}
  /\ Auth_to_flyte_idl
       {| _assumable_iam_role := present (Some "arn:role");
          _kubernetes_service_account := present (Some "") |}
     = Auth_to_flyte_idl (MkAuth (Some "arn:role") (Some "")).
Proof.
  apply (auth_round_trip (Some "arn:role") (Some "")
           (MkAuth (Some "arn:role") (Some ""))).
  reflexivity.
Defined.

(** ** [check_call] *)

(** X22: [check_call] returns 0 and nothing else, and does so exactly when
    the child process exits with 0; for any other exit code it raises with
    that code and the child's standard error.  The child's standard output is
    logged in both cases, first; its standard error is logged only on
    failure.  A list of arguments is run as it is, a line is split first. *)
Theorem check_call_outcome
    (shlex_split : string -> result (list string))
    (popen_wait : list string -> result (Z * string * string))
    (cmd : command_line) (cmd_args : list string)
    (ret_code : Z) (std_out std_err : string) :
  match cmd with
  | ArgList l => l = cmd_args
  | Line s => shlex_split s = Ok cmd_args
  end ->
  popen_wait cmd_args = Ok (ret_code, std_out, std_err) ->
  check_call shlex_split popen_wait cmd tt
  = if ret_code =? 0
    then (Ok 0, tt, [LogInfo cmd_args std_out])
    else (Raise (Exception_ ret_code std_err), tt,
          [LogInfo cmd_args std_out; LogError cmd_args std_err]).
Proof.
  intros Hc Hp. unfold check_call.
  cbv beta iota zeta
      delta [mbind mret prog_bind prog_ret result_bind result_ret
             lift raise emit fst snd].
  destruct cmd as [l|s]; [subst l | rewrite Hc]; rewrite Hp;
    destruct (ret_code =? 0); reflexivity.
Qed.

Lemma check_call_outcome_witness :
  check_call (fun s => Ok [s]) (fun _ => Ok (2, "out", "err")) (Line "false") tt
  = if 2 =? 0
    then (Ok 0, tt, [LogInfo ["false"] "out"])
    else (Raise (Exception_ 2 "err"), tt,
          [LogInfo ["false"] "out"; LogError ["false"] "err"]).
Proof.
  apply (check_call_outcome (fun s => Ok [s]) (fun _ => Ok (2, "out", "err"))
           (Line "false") ["false"] 2 "out" "err"); reflexivity.
Defined.

(** ** The listener of a constructed instance *)

(** The remote metadata that [__init__] stores when none is supplied: the
    authorization endpoint parsed, and the metadata names its host. *)
Lemma init_remote (urlparse : string -> result ParseResult)
    (sha256 : list Z -> list Z) (bound : list (string * arg))
    (p p' : process) (self : AuthorizationClient) (t : list event) :
  __init__ urlparse sha256 bound p = (Ok self, p', t) ->
  optional bound "endpoint_metadata" = ANone ->
  exists authorize,
    urlparse (_auth_endpoint self) = Ok authorize
    /\ _remote self = MkEndpointMetadata (hostname authorize) None None.
Proof.
  unfold __init__. run. intros H Hm. revert H. rewrite Hm.
  destruct (match required bound "endpoint" with
            | Ok a => as_str a | Raise e => Raise e end); [|discriminate].
  destruct (match required bound "auth_endpoint" with
            | Ok a => as_str a | Raise e => Raise e end) as [auth_endpoint|];
    [|discriminate].
  destruct (match required bound "token_endpoint" with
            | Ok a => as_str a | Raise e => Raise e end); [|discriminate].
  destruct (as_optional_list _); [|discriminate].
  destruct (as_optional_str _); [|discriminate].
  destruct (as_optional_str _); [|discriminate].
  cbn [as_optional_metadata].
  destruct (as_optional_verify _); [|discriminate].
  destruct (urlparse auth_endpoint) as [authorize|] eqn:Hau; [|discriminate].
  unfold draw. rewrite generate_code_verifier_succeeds.
  cbn [rng with_rng]. rewrite generate_state_parameter_unfold.
  intros [= <- _ _]. exists authorize. split; [exact Hau | reflexivity].
Qed.

(** X23: for an instance constructed without endpoint metadata, the
    authorization endpoint parsed, and the page that the listener writes
    after a successful callback is the default success page for the host
    name of the authorization endpoint. *)
Theorem default_page_names_auth_host
    (urlparse : string -> result ParseResult)
    (parse_qsl : string -> list (string * string))
    (get_default_success_html : option string -> string)
    (sha256 : list Z -> list Z)
    (bind_failure : option string -> option Z -> option exn)
    (bound : list (string * arg)) (p p' : process)
    (self : AuthorizationClient) (t : list event) (srv : OAuthHTTPServer)
    (req : http_request) (callback : ParseResult) (rest : list http_request)
    (c s : string) :
  __init__ urlparse sha256 bound p = (Ok self, p', t) ->
  optional bound "endpoint_metadata" = ANone ->
  _create_callback_server urlparse bind_failure self = Ok srv ->
  command req = "GET" ->
  urlparse (target req) = Ok callback ->
  path_matches urlparse srv req = true ->
  getitem (dict_of_pairs (parse_qsl (query callback))) "code" = Ok c ->
  getitem (dict_of_pairs (parse_qsl (query callback))) "state" = Ok s ->
  exists authorize,
    urlparse (_auth_endpoint self) = Ok authorize
    /\ l_log (callback_listener urlparse parse_qsl get_default_success_html
                srv (req :: rest))
       = [SendResponse 200; SendHeader "Content-type" "text/html"; EndHeaders;
          QueuePut (MkAuthorizationCode c s); ServerClose;
          WfileWrite (get_default_success_html (hostname authorize));
          WfileFlush].
Proof.
  intros Hinit Hm Hsrv Hc Hu Hp Hcode Hstate.
  destruct (init_remote _ _ _ _ _ _ _ Hinit Hm) as (authorize & Hau & Hr).
  exists authorize. split; [exact Hau|].
  destruct (create_callback_server_ok _ _ _ _ Hsrv) as (_ & _ & Hmeta & _).
  unfold callback_listener. rewrite listening_first. cbn [l_log].
  rewrite (path_matches_parsed _ _ _ _ Hu) in Hp.
  assert (Hp' : String.eqb (py_strip "/" (path callback))
                  (py_strip "/" (_redirect_path (with_queue srv (Some []))))
                = true) by exact Hp.
  unfold serve_request, handle_one_request, do_GET, handle_login,
    handle_authorization_code. run.
  rewrite Hc. cbn [String.eqb Ascii.eqb Bool.eqb].
  rewrite Hu. cbv beta iota. rewrite Hp', Hcode, Hstate.
  cbn [_queue with_queue with_closed _remote_metadata fst snd].
  rewrite Hmeta, Hr. reflexivity.
Qed.

(** X24: when the listener's address cannot be bound, [get_creds_from_remote]
    raises the exception of the bind and has started nothing: no listener
    process, no browser, no POST; the instance is unchanged. *)
Theorem bind_failure_starts_nothing
    (urlparse : string -> result ParseResult)
    (parse_qsl : string -> list (string * string))
    (get_default_success_html : option string -> string)
    (requests_post : PostRequest -> result Response)
    (bind_failure : option string -> option Z -> option exn)
    (self : AuthorizationClient) (inbound : list http_request)
    (uri : string) (server_url : ParseResult) (server_port : option Z)
    (x : exn) :
  _redirect_uri self = Some uri ->
  urlparse uri = Ok server_url ->
  port server_url = Ok server_port ->
  bind_failure (hostname server_url) server_port = Some x ->
  get_creds_from_remote urlparse parse_qsl get_default_success_html
    requests_post bind_failure inbound self
  = (Completes (Raise x), self, []).
Proof.
  intros Hu Hparse Hport Hb. unfold get_creds_from_remote, _create_callback_server.
  rewrite Hu, Hparse. cbn. rewrite Hport. cbn. now rewrite Hb.
Qed.

Lemma bind_failure_starts_nothing_witness :
  get_creds_from_remote example_urlparse example_parse_qsl example_html
    (fun _ => Ok token_full) (fun _ _ => Some OSError)
    [GET "/callback?code=XYZ&state=S1"] example_client
  = (Completes (Raise OSError), example_client, []).
Proof.
  apply (bind_failure_starts_nothing example_urlparse example_parse_qsl
           example_html (fun _ => Ok token_full) (fun _ _ => Some OSError)
           example_client [GET "/callback?code=XYZ&state=S1"]
           "http://localhost:53593/callback"
           (MkParseResult "http" "localhost:53593" "/callback" ""
              (Some "localhost") (Ok (Some 53593)))
           (Some 53593) OSError); reflexivity.
Defined.

Lemma default_page_names_auth_host_witness :
  let bound := [("endpoint", AStr "flyte.example.org");
                ("auth_endpoint", AStr "https://auth.example.org/authorize");
                ("token_endpoint", AStr "https://auth.example.org/token");
                ("redirect_uri", AStr "http://localhost:53593/callback")] in
  let r := __init__ example_urlparse example_sha256 bound example_process in
  let self := match outcome_of r with Ok s => s | Raise _ => example_client end in
  exists authorize,
    example_urlparse (_auth_endpoint self) = Ok authorize
    /\ l_log (callback_listener example_urlparse example_parse_qsl example_html
                example_server [GET "/callback?code=XYZ&state=S1"])
       = [SendResponse 200; SendHeader "Content-type" "text/html"; EndHeaders;
          QueuePut (MkAuthorizationCode "XYZ" "S1"); ServerClose;
          WfileWrite (example_html (hostname authorize));
          WfileFlush].
Proof.
  intros bound r self.
  apply (default_page_names_auth_host example_urlparse example_parse_qsl
           example_html example_sha256 (fun _ _ => None) bound
           example_process (self_of r) self (trace_of r) example_server
           (GET "/callback?code=XYZ&state=S1")
           (MkParseResult "" "" "/callback" "code=XYZ&state=S1" None (Ok None))
           [] "XYZ" "S1").
  - vm_compute. reflexivity.
  - reflexivity.
  - vm_compute. reflexivity.
  - reflexivity.
  - reflexivity.
  - reflexivity.
  - reflexivity.
  - reflexivity.
Defined.

(** ** Strings that [urlparse] rejects *)

(** X25: a construction without endpoint metadata whose authorization
    endpoint [urlparse] rejects raises the exception of [urlparse]:
    [__init__] stops before it draws any entropy, and [__call__] registers
    and allocates nothing. *)
Theorem unparsable_auth_endpoint_fails_construction
    (urlparse : string -> result ParseResult) (sha256 : list Z -> list Z)
    (c : call) (bound : list (string * arg)) (auth_endpoint key : string)
    (x : exn) (p : process) :
  bind_arguments c = Ok bound ->
  well_typed bound ->
  required bound "auth_endpoint" ≫= as_str = Ok auth_endpoint ->
  as_optional_metadata (optional bound "endpoint_metadata") = Ok None ->
  urlparse auth_endpoint = Raise x ->
  call_key c = Ok key ->
  _instances p !! key = None ->
  __init__ urlparse sha256 bound p = (Raise x, p, [])
  /\ __call__ urlparse sha256 c p = (Raise x, p, []).
Proof.
  intros Hb (H1 & H2 & H3 & H4 & H5 & H6 & H7 & H8) Hauth Hm Hparse Hk Hl.
  destruct H1 as [v1 H1], H2 as [v2 H2], H3 as [v3 H3], H4 as [v4 H4],
    H5 as [v5 H5], H6 as [v6 H6], H7 as [v7 H7], H8 as [v8 H8].
  assert (v2 = auth_endpoint) as -> by congruence.
  assert (v7 = None) as -> by congruence.
  assert (Hinit : __init__ urlparse sha256 bound p = (Raise x, p, [])).
  { unfold __init__.
    unfold mbind at 1, prog_bind at 1, lift at 1. rewrite H1.
    unfold mbind at 1, prog_bind at 1, lift at 1. rewrite H2.
    unfold mbind at 1, prog_bind at 1, lift at 1. rewrite H3.
    unfold mbind at 1, prog_bind at 1, lift at 1. rewrite H4.
    unfold mbind at 1, prog_bind at 1, lift at 1. rewrite H5.
    unfold mbind at 1, prog_bind at 1, lift at 1. rewrite H6.
    unfold mbind at 1, prog_bind at 1, lift at 1. rewrite H7.
    unfold mbind at 1, prog_bind at 1, lift at 1. rewrite H8.
    unfold mbind at 1, prog_bind at 1, lift at 1. rewrite Hparse.
    reflexivity. }
  split; [exact Hinit|].
  assert (Hnew : new_instance urlparse sha256 c p = (Raise x, p, [])).
  { unfold new_instance.
    unfold mbind at 1, prog_bind at 1, lift at 1. rewrite Hb.
    unfold mbind at 1, prog_bind at 1. now rewrite Hinit. }
  revert Hk. unfold call_key, __call__. run.
  destruct (args c) as [|a rest].
  - destruct (dict_get "auth_endpoint" (kwargs c)) as [a|]; [|discriminate].
    intros ->. rewrite Hl, Hnew. reflexivity.
  - intros ->. rewrite Hl, Hnew. reflexivity.
Qed.

Lemma unparsable_auth_endpoint_fails_construction_witness :
  let c := MkCall [] [("endpoint", AStr "flyte.example.org");
                      ("auth_endpoint", AStr "http://[");
                      ("token_endpoint", AStr "https://auth.example.org/token")] in
  let bound := [("endpoint", AStr "flyte.example.org");
                ("auth_endpoint", AStr "http://[");
                ("token_endpoint", AStr "https://auth.example.org/token")] in
  __init__ example_urlparse example_sha256 bound example_process
  = (Raise invalid_ipv6_url, example_process, [])
  /\ __call__ example_urlparse example_sha256 c example_process
     = (Raise invalid_ipv6_url, example_process, []).
Proof.
  apply (unparsable_auth_endpoint_fails_construction example_urlparse
           example_sha256
           (MkCall [] [("endpoint", AStr "flyte.example.org");
                       ("auth_endpoint", AStr "http://[");
                       ("token_endpoint", AStr "https://auth.example.org/token")])
           [("endpoint", AStr "flyte.example.org");
            ("auth_endpoint", AStr "http://[");
            ("token_endpoint", AStr "https://auth.example.org/token")]
           "http://[" "http://[" invalid_ipv6_url example_process).
  - reflexivity.
  - repeat split; eexists; reflexivity.
  - reflexivity.
  - reflexivity.
  - reflexivity.
  - reflexivity.
  - reflexivity.
Defined.

(** X26: on an instance whose authorization endpoint [urlparse] rejects,
    [get_creds_from_remote] does not wait for a callback: it starts the
    listener process, raises the exception of [urlparse] from
    [_request_authorization_code] and terminates the listener process in the
    [finally] clause; no browser is opened, the queue is not read, nothing is
    posted, whatever reaches the listener, and the instance is unchanged. *)
Theorem unparsable_auth_endpoint_ends_flow
    (urlparse : string -> result ParseResult)
    (parse_qsl : string -> list (string * string))
    (get_default_success_html : option string -> string)
    (requests_post : PostRequest -> result Response)
    (bind_failure : option string -> option Z -> option exn)
    (self : AuthorizationClient) (srv : OAuthHTTPServer) (x : exn)
    (inbound : list http_request) :
  _create_callback_server urlparse bind_failure self = Ok srv ->
  urlparse (_auth_endpoint self) = Raise x ->
  _request_authorization_code urlparse self = (Raise x, self, [])
  /\ get_creds_from_remote urlparse parse_qsl get_default_success_html
       requests_post bind_failure inbound self
     = (Completes (Raise x), self, [EvProcessStart; EvTerminate]).
Proof.
  intros Hsrv Hu. split.
  - now apply request_authorization_code_raise.
  - now apply (get_creds_unparsable _ _ _ _ _ self srv).
Qed.

Lemma unparsable_auth_endpoint_ends_flow_witness :
  _request_authorization_code example_urlparse example_unparsable_client
  = (Raise invalid_ipv6_url, example_unparsable_client, [])
  /\ get_creds_from_remote example_urlparse example_parse_qsl example_html
       (fun _ => Ok token_full) (fun _ _ => None)
       [GET "/callback?code=XYZ&state=S1"] example_unparsable_client
     = (Completes (Raise invalid_ipv6_url), example_unparsable_client,
        [EvProcessStart; EvTerminate]).
Proof.
  apply (unparsable_auth_endpoint_ends_flow example_urlparse example_parse_qsl
           example_html (fun _ => Ok token_full) (fun _ _ => None)
           example_unparsable_client example_server invalid_ipv6_url
           [GET "/callback?code=XYZ&state=S1"]); reflexivity.
Defined.

(** X27: a GET whose target [urlparse] rejects makes [do_GET] raise before
    any response call: the exception is handed to [handle_error], nothing is
    put on the queue, the server stays open, and the listener has returned. *)
Theorem unparsable_target_is_handled_as_error
    (urlparse : string -> result ParseResult)
    (parse_qsl : string -> list (string * string))
    (get_default_success_html : option string -> string)
    (srv : OAuthHTTPServer) (q : list AuthorizationCode)
    (req : http_request) (rest : list http_request) (x : exn) :
  command req = "GET" ->
  urlparse (target req) = Raise x ->
  do_GET urlparse parse_qsl get_default_success_html req srv
  = (Raise x, srv, [])
  /\ let l := run_listener urlparse parse_qsl get_default_success_html
                (listener_start srv q) (req :: rest) in
     l_log l = [HandleError x]
     /\ queue_content (l_server l) = q
     /\ closed (l_server l) = closed srv
     /\ l_phase l = Returned.
Proof.
  intros Hc Hu. split.
  - unfold do_GET. run. now rewrite Hu.
  - cbv zeta. rewrite listening_first.
    rewrite (serve_request_unparsable _ _ _ _ _ _ Hc Hu). now repeat split.
Qed.

Lemma unparsable_target_is_handled_as_error_witness :
  do_GET example_urlparse example_parse_qsl example_html (GET "http://[")
    example_server
  = (Raise invalid_ipv6_url, example_server, [])
  /\ let l := run_listener example_urlparse example_parse_qsl example_html
                (listener_start example_server [])
                [GET "http://["; GET "/callback?code=XYZ&state=S1"] in
     l_log l = [HandleError invalid_ipv6_url]
     /\ queue_content (l_server l) = []
     /\ closed (l_server l) = closed example_server
     /\ l_phase l = Returned.
Proof.
  apply (unparsable_target_is_handled_as_error example_urlparse
           example_parse_qsl example_html example_server []
           (GET "http://[") [GET "/callback?code=XYZ&state=S1"]
           invalid_ipv6_url); reflexivity.
Defined.
